(** * k8s-slack-searcher: ingestion, store and query engine

    A shallow embedding of the Go packages [database], [models], [indexer]
    and [searcher], followed by the properties of the specification that
    were checked against them.

    Go strings are byte sequences and are modelled by [string] (a list of
    8-bit [ascii]); Go [int]/[int64] values are modelled by [Z]; a Go
    [(T, error)] result is modelled by [result T]. *)

From Stdlib Require Import ZArith List String Ascii Bool Lia PrimFloat Sorted.
From stdpp Require Import base option list strings gmap pretty.

Local Open Scope string_scope.
Local Open Scope Z_scope.

(** ** Errors and results *)

(** Go [error] values.  [Wrap ctx e] is [fmt.Errorf(ctx + ": %w", e)]. *)
Inductive error : Type :=
  | DriverError                 (* database/sql: the medium refused the call *)
  | QuerySyntaxError            (* the full-text engine rejected the MATCH expression *)
  | ReadFileError               (* os.ReadFile *)
  | JSONError                   (* encoding/json *)
  | TimeParseError              (* time.Parse *)
  | NumSyntaxError              (* strconv.ErrSyntax *)
  | NumRangeError               (* strconv.ErrRange *)
  | InvalidTimestampFormat      (* "invalid timestamp format" *)
  | WalkError                   (* an error handed to the WalkDir callback *)
  | GetwdError                  (* os.Getwd *)
  | Wrap (ctx : string) (e : error).

Inductive result (A : Type) : Type :=
  | Ok (a : A)
  | Err (e : error).
Arguments Ok {A} a.
Arguments Err {A} e.

Definition is_ok {A} (r : result A) : bool :=
  match r with Ok _ => true | Err _ => false end.

(** ** The parts of the Go standard library the program calls *)

Module strings.

(** [strings.Split(s, sep)] for a one-byte separator: the pieces between
    consecutive occurrences of [sep]; [Count(s, sep) + 1] pieces. *)
Fixpoint Split (s : string) (sep : ascii) : list string :=
  match s with
  | EmptyString => [EmptyString]
  | String c r =>
      if Ascii.eqb c sep then EmptyString :: Split r sep
      else match Split r sep with
           | p :: ps => String c p :: ps
           | [] => [String c EmptyString]
           end
  end.

(** [strings.Count(s, sep)] for a one-byte separator. *)
Fixpoint Count (s : string) (sep : ascii) : nat :=
  match s with
  | EmptyString => O
  | String c r => if Ascii.eqb c sep then S (Count r sep) else Count r sep
  end.

(** [len(s) >= len(suffix) && s[len(s)-len(suffix):] == suffix] *)
Definition HasSuffix (s suffix : string) : bool :=
  (String.length suffix <=? String.length s)%nat
  && String.eqb
       (substring (String.length s - String.length suffix)
                  (String.length suffix) s)
       suffix.

Definition TrimSuffix (s suffix : string) : string :=
  if HasSuffix s suffix
  then substring 0 (String.length s - String.length suffix) s
  else s.

(** [strings.Join(elems, sep)] *)
Fixpoint Join (elems : list string) (sep : string) : string :=
  match elems with
  | [] => ""
  | [e] => e
  | e :: rest => e +:+ sep +:+ Join rest sep
  end.

(** [strings.NewReplacer] with one-byte old and new strings builds a byte
    table in which the first pair naming a byte wins; [Replace] maps the
    table over the bytes of the string. *)
Fixpoint replace_byte (oldnew : list (ascii * ascii)) (c : ascii) : ascii :=
  match oldnew with
  | [] => c
  | (o, n) :: rest => if Ascii.eqb c o then n else replace_byte rest c
  end.

Fixpoint Replace (oldnew : list (ascii * ascii)) (s : string) : string :=
  match s with
  | EmptyString => EmptyString
  | String c r => String (replace_byte oldnew c) (Replace oldnew r)
  end.

(** White space as [unicode.IsSpace] sees it in a UTF-8 byte string: the
    six ASCII blanks, U+0085 and U+00A0 (two bytes), and U+1680,
    U+2000..U+200A, U+2028, U+2029, U+202F, U+205F, U+3000 (three
    bytes). *)
Definition asciiSpace (c : ascii) : bool :=
  let n := N_of_ascii c in
  ((9 <=? n) && (n <=? 13) || (n =? 32))%N.

Definition space2 (a b : ascii) : bool :=
  let x := N_of_ascii a in
  let y := N_of_ascii b in
  ((x =? 194) && ((y =? 133) || (y =? 160)))%N.

Definition space3 (a b c : ascii) : bool :=
  let x := N_of_ascii a in
  let y := N_of_ascii b in
  let z := N_of_ascii c in
  ((x =? 225) && (y =? 154) && (z =? 128)
   || (x =? 226) && (y =? 128)
      && ((128 <=? z) && (z <=? 138) || (z =? 168) || (z =? 169) || (z =? 175))
   || (x =? 226) && (y =? 129) && (z =? 159)
   || (x =? 227) && (y =? 128) && (z =? 128))%N.

(** [TrimLeftFunc(s, unicode.IsSpace)] *)
Fixpoint TrimLeftSpace (s : string) : string :=
  match s with
  | EmptyString => EmptyString
  | String a r =>
      if asciiSpace a then TrimLeftSpace r
      else match r with
           | String b r' =>
               if space2 a b then TrimLeftSpace r'
               else match r' with
                    | String c r'' =>
                        if space3 a b c then TrimLeftSpace r'' else s
                    | EmptyString => s
                    end
           | EmptyString => s
           end
  end.

(** [TrimRightFunc(s, unicode.IsSpace)], on the reversed byte string. *)
Fixpoint TrimLeftSpace_rev (s : string) : string :=
  match s with
  | EmptyString => EmptyString
  | String a r =>
      if asciiSpace a then TrimLeftSpace_rev r
      else match r with
           | String b r' =>
               if space2 b a then TrimLeftSpace_rev r'
               else match r' with
                    | String c r'' =>
                        if space3 c b a then TrimLeftSpace_rev r'' else s
                    | EmptyString => s
                    end
           | EmptyString => s
           end
  end.

Definition TrimSpace (s : string) : string :=
  String.rev (TrimLeftSpace_rev (String.rev (TrimLeftSpace s))).

(** [strings.ReplaceAll(s, old, new)] for a one-byte [old]. *)
Fixpoint ReplaceAll (s : string) (old : ascii) (new : string) : string :=
  match s with
  | EmptyString => EmptyString
  | String c r =>
      if Ascii.eqb c old then new +:+ ReplaceAll r old new
      else String c (ReplaceAll r old new)
  end.

End strings.

Module strconv.

Definition digit (c : ascii) : option Z :=
  let n := Z.of_N (N_of_ascii c) in
  if (48 <=? n) && (n <=? 57) then Some (n - 48) else None.

Definition maxUint64 : Z := 2 ^ 64 - 1.

(** The digit loop of [strconv.ParseUint(s, 10, 64)]: the value together
    with the error; on overflow Go stops at once and returns the largest
    value and [ErrRange]. *)
Fixpoint ParseUint_loop (s : string) (n : Z) : Z * option error :=
  match s with
  | EmptyString => (n, None)
  | String c r =>
      match digit c with
      | None => (0, Some NumSyntaxError)
      | Some d =>
          if maxUint64 / 10 + 1 <=? n then (maxUint64, Some NumRangeError)
          else
            let n1 := n * 10 + d in
            if maxUint64 <? n1 then (maxUint64, Some NumRangeError)
            else ParseUint_loop r n1
      end
  end.

Definition ParseUint (s : string) : Z * option error :=
  match s with
  | EmptyString => (0, Some NumSyntaxError)
  | _ => ParseUint_loop s 0
  end.

(** [strconv.ParseInt(s, 10, 64)] *)
Definition ParseInt (s : string) : result Z :=
  match s with
  | EmptyString => Err NumSyntaxError
  | String c r =>
      let neg := Ascii.eqb c "-" in
      let s' := if Ascii.eqb c "+" || neg then r else s in
      match ParseUint s' with
      | (_, Some NumSyntaxError) => Err NumSyntaxError
      | (un, _) =>
          let cutoff := 2 ^ 63 in
          if negb neg && (cutoff <=? un) then Err NumRangeError
          else if neg && (cutoff <? un) then Err NumRangeError
          else Ok (if neg then - un else un)
      end
  end.

End strconv.

Module time.

Inductive Location := UTC | Local.

(** A [time.Time] with no sub-second part: [ext] counts the seconds since
    January 1 of year 1, 00:00:00 UTC, in an int64. *)
Record Time := { ext : Z; loc : Location }.

Definition wrap64 (z : Z) : Z := (z + 2 ^ 63) mod 2 ^ 64 - 2 ^ 63.

Definition unixToInternal : Z :=
  (1969 * 365 + 1969 / 4 - 1969 / 100 + 1969 / 400) * 86400.

(** [time.Unix(sec, 0)] *)
Definition Unix (sec : Z) : Time :=
  {| ext := wrap64 (sec + unixToInternal); loc := Local |}.

Definition isLeap (year : Z) : bool :=
  (year mod 4 =? 0) && (negb (year mod 100 =? 0) || (year mod 400 =? 0)).

Definition daysBefore (month : Z) : Z :=
  nth (Z.to_nat month)
      [0; 31; 59; 90; 120; 151; 181; 212; 243; 273; 304; 334; 365] 0.

Definition daysIn (month year : Z) : Z :=
  if (month =? 2) && isLeap year then 29
  else daysBefore month - daysBefore (month - 1).

(** [time.Date(year, month, day, 0, 0, 0, 0, time.UTC)] for a month
    in 1..12 and a day of that month. *)
Definition Date (year month day : Z) : Time :=
  let y := year - 1 in
  let d := 365 * y + y / 4 - y / 100 + y / 400
           + daysBefore (month - 1)
           + (if isLeap year && (3 <=? month) then 1 else 0)
           + (day - 1) in
  {| ext := d * 86400; loc := UTC |}.

(** [n] decimal digits at the head of [s]: their value and the rest. *)
Fixpoint getnum (n : nat) (s : string) (acc : Z) : option (Z * string) :=
  match n with
  | O => Some (acc, s)
  | S n' =>
      match s with
      | String c r =>
          match strconv.digit c with
          | Some d => getnum n' r (acc * 10 + d)
          | None => None
          end
      | EmptyString => None
      end
  end.

Definition skip (c : ascii) (s : string) : option string :=
  match s with
  | String c' r => if Ascii.eqb c c' then Some r else None
  | EmptyString => None
  end.

(** [time.Parse("2006-01-02", value)]: four digits, a dash, two digits,
    a dash, two digits and nothing more; the month in 1..12 and the day
    within the month. *)
Definition Parse_date (value : string) : result Time :=
  match getnum 4 value 0 with
  | None => Err TimeParseError
  | Some (year, v1) =>
  match skip "-" v1 with
  | None => Err TimeParseError
  | Some v2 =>
  match getnum 2 v2 0 with
  | None => Err TimeParseError
  | Some (month, v3) =>
  if (month <=? 0) || (12 <? month) then Err TimeParseError else
  match skip "-" v3 with
  | None => Err TimeParseError
  | Some v4 =>
  match getnum 2 v4 0 with
  | None => Err TimeParseError
  | Some (day, v5) =>
  match v5 with
  | String _ _ => Err TimeParseError
  | EmptyString =>
      if (day <? 1) || (daysIn month year <? day) then Err TimeParseError
      else Ok (Date year month day)
  end end end end end end.

End time.

Module filepath.

Definition isSep (c : ascii) : bool := Ascii.eqb c "/".

Fixpoint dropSeps (s : string) : string :=
  match s with
  | String c r => if isSep c then dropSeps r else s
  | EmptyString => EmptyString
  end.

Fixpoint untilSep (s : string) : string :=
  match s with
  | String c r => if isSep c then EmptyString else String c (untilSep r)
  | EmptyString => EmptyString
  end.

(** [filepath.Base] on a Unix path: the last element, trailing slashes
    removed; "." for the empty path and "/" for a path of slashes. *)
Definition Base (path : string) : string :=
  match path with
  | EmptyString => "."
  | _ =>
      match String.rev (untilSep (dropSeps (String.rev path))) with
      | EmptyString => "/"
      | b => b
      end
  end.

Definition IsAbs (path : string) : bool :=
  match path with
  | String c _ => isSep c
  | EmptyString => false
  end.

(** One element of the path against the elements kept so far (the last
    kept element first). *)
Definition clean_step (rooted : bool) (kept : list string) (elem : string)
  : list string :=
  if String.eqb elem "" || String.eqb elem "." then kept
  else if String.eqb elem ".." then
    match kept with
    | top :: below => if String.eqb top ".." then elem :: kept else below
    | [] => if rooted then [] else [elem]
    end
  else elem :: kept.

(** [filepath.Clean] on a Unix path: single separators, no "." element,
    no inner ".." with the element before it, no ".." at the root; "." for
    an empty result. *)
Definition Clean (path : string) : string :=
  let rooted := IsAbs path in
  let kept := fold_left (clean_step rooted) (strings.Split path "/") [] in
  let out := (if rooted then "/" else "") +:+ strings.Join (rev kept) "/" in
  if String.eqb out "" then "." else out.

(** [filepath.Join]: the elements from the first non-empty one on, joined
    by the separator and cleaned. *)
Fixpoint Join (elem : list string) : string :=
  match elem with
  | [] => ""
  | e :: rest =>
      if String.eqb e "" then Join rest else Clean (strings.Join elem "/")
  end.

(** [filepath.Abs] on Unix; [wd] is what [os.Getwd] returns. *)
Definition Abs (wd : result string) (path : string) : result string :=
  if IsAbs path then Ok (Clean path)
  else
    match wd with
    | Err err => Err err
    | Ok wd => Ok (Join [wd; path])
    end.

End filepath.

(** ** Package models *)

Module models.

Module User.
Record t := mk {
  ID : string; Name : string; RealName : string; DisplayName : string;
  IsBot : bool; Deleted : bool }.
End User.

Module Profile.
Record t := mk { RealName : string; DisplayName : string }.
End Profile.

Module UserJSON.
Record t := mk {
  ID : string; Name : string; Profile : Profile.t;
  IsBot : bool; Deleted : bool }.
End UserJSON.

Module Channel.
Record t := mk {
  ID : string; Name : string; Created : Z; Creator : string;
  IsArchived : bool }.
End Channel.

Module Message.
Record t := mk {
  ID : Z; UserID : string; Text : string; Type_ : string;
  Subtype : string; Timestamp : string; Date : time.Time;
  Filename : string;
  ThreadTS : string; ParentUserID : string; ReplyCount : Z;
  ReplyUsersCount : Z; LatestReply : string;
  UserName : string; UserRealName : string }.

(** The zero value of the struct. *)
Definition zero : t :=
  {| ID := 0; UserID := ""; Text := ""; Type_ := ""; Subtype := "";
     Timestamp := ""; Date := {| time.ext := 0; time.loc := time.UTC |};
     Filename := ""; ThreadTS := ""; ParentUserID := ""; ReplyCount := 0;
     ReplyUsersCount := 0; LatestReply := ""; UserName := "";
     UserRealName := "" |}.
End Message.

(** [SearchResult] embeds [Message]; its own [Filename] field shadows the
    embedded one. *)
Module SearchResult.
Record t := mk {
  Message : Message.t; Rank : float; Snippet : string; Filename : string }.
End SearchResult.

End models.

(** ** Package database *)

Module database.
Import models.

(** *** sanitizeFilename *)

Definition sanitizeFilename (name : string) : string :=
  strings.Replace
    [ (":"%char, "_"%char);
      ("/"%char, "_"%char);
      ("\"%char, "_"%char);
      ("*"%char, "_"%char);
      ("?"%char, "_"%char);
      ("034"%char, "_"%char);
      ("<"%char, "_"%char);
      (">"%char, "_"%char);
      ("|"%char, "_"%char);
      (" "%char, "_"%char) ]
    name.

(** The path NewDB opens. *)
Definition dbPath (channelName : string) : string :=
  let filename := sanitizeFilename channelName +:+ ".db" in
  filepath.Join ["databases"; filename].

(** *** The tables of createTables *)

(** A row of [messages]. *)
Module Row.
Record t := mk {
  id : Z; user_id : string; text : string; type_ : string;
  subtype : string; timestamp : string; date : time.Time;
  filename : string }.
End Row.

(** A row of the virtual table [messages_fts]. *)
Module Fts.
Record t := mk {
  rowid : Z; text : string; user_name : string; user_real_name : string;
  filename : string }.
End Fts.

(** The database behind [conn].  [users] and [channels] have the TEXT
    primary key [id], so each is a finite map from the key to the row;
    [messages] and [messages_fts] are kept in insertion order;
    [sqlite_sequence] is the AUTOINCREMENT counter of [messages].
    [medium] lists the outcome of the coming calls on the connection
    ([true]: the call fails), in order; once the list is used up every
    call goes through. *)
Record DB := mkDB {
  users : gmap string User.t;
  channels : gmap string Channel.t;
  messages : list Row.t;
  sqlite_sequence : Z;
  messages_fts : list Fts.t;
  medium : list bool }.

Definition empty : DB :=
  {| users := ∅; channels := ∅; messages := []; sqlite_sequence := 0;
     messages_fts := []; medium := [] |}.

(** One call on the connection: whether it fails, and the medium after. *)
Definition call (db : DB) : bool * DB :=
  match medium db with
  | [] => (false, db)
  | b :: rest =>
      (b, {| users := users db; channels := channels db;
             messages := messages db;
             sqlite_sequence := sqlite_sequence db;
             messages_fts := messages_fts db; medium := rest |})
  end.

(** *** InsertUser, InsertChannel: INSERT OR REPLACE *)

Definition InsertUser (db : DB) (user : User.t) : option error * DB :=
  let (failed, db) := call db in
  if failed then (Some DriverError, db)
  else (None,
        {| users := <[User.ID user := user]> (users db);
           channels := channels db; messages := messages db;
           sqlite_sequence := sqlite_sequence db;
           messages_fts := messages_fts db; medium := medium db |}).

Definition InsertChannel (db : DB) (channel : Channel.t)
  : option error * DB :=
  let (failed, db) := call db in
  if failed then (Some DriverError, db)
  else (None,
        {| users := users db;
           channels := <[Channel.ID channel := channel]> (channels db);
           messages := messages db;
           sqlite_sequence := sqlite_sequence db;
           messages_fts := messages_fts db; medium := medium db |}).

(** *** InsertMessage and the trigger messages_fts_insert *)

(** The rows the trigger's SELECT yields for the new row [new]:
    [SELECT new.id, new.text, COALESCE(u.name, ''),
     COALESCE(u.real_name, ''), new.filename
     FROM users u WHERE u.id = new.user_id].
    The columns of [users] are never NULL here, since InsertUser binds Go
    strings, so COALESCE returns its first argument. *)
Definition messages_fts_insert (db : DB) (new : Row.t) : list Fts.t :=
  match users db !! Row.user_id new with
  | Some u =>
      [ {| Fts.rowid := Row.id new; Fts.text := Row.text new;
           Fts.user_name := User.Name u;
           Fts.user_real_name := User.RealName u;
           Fts.filename := Row.filename new |} ]
  | None => []
  end.

(** [INSERT INTO messages (user_id, text, type, subtype, timestamp, date,
    filename) VALUES (...)]: the statement and its AFTER INSERT trigger
    are one atomic unit.  Foreign keys are not enforced (the connection
    string does not turn them on). *)
Definition InsertMessage (db : DB) (message : Message.t)
  : option error * DB :=
  let (failed, db) := call db in
  if failed then (Some DriverError, db)
  else
    let new :=
      {| Row.id := sqlite_sequence db + 1;
         Row.user_id := Message.UserID message;
         Row.text := Message.Text message;
         Row.type_ := Message.Type_ message;
         Row.subtype := Message.Subtype message;
         Row.timestamp := Message.Timestamp message;
         Row.date := Message.Date message;
         Row.filename := Message.Filename message |} in
    (None,
     {| users := users db; channels := channels db;
        messages := messages db ++ [new];
        sqlite_sequence := Row.id new;
        messages_fts := messages_fts db ++ messages_fts_insert db new;
        medium := medium db |}).

(** *** SearchMessages *)

Section FullText.
(** The full-text engine: [fts_match q] is the row predicate of the
    MATCH expression [q], or [None] when the engine rejects [q];
    [snippet q row] is the text [snippet(...)] returns. *)
Variable fts_match : string -> option (Fts.t -> bool).
Variable snippet : string -> Fts.t -> string.

Definition COALESCE (v : option string) (d : string) : string :=
  match v with Some s => s | None => d end.

(** One row of the join, scanned into a [SearchResult]. *)
Definition scan (db : DB) (query : string) (fts : Fts.t) (m : Row.t)
  : SearchResult.t :=
  let u := users db !! Row.user_id m in
  {| SearchResult.Message :=
       {| Message.ID := Row.id m;
          Message.UserID := Row.user_id m;
          Message.Text := Row.text m;
          Message.Type_ := Row.type_ m;
          Message.Subtype := Row.subtype m;
          Message.Timestamp := Row.timestamp m;
          Message.Date := Row.date m;
          Message.Filename := "";
          Message.ThreadTS := "";
          Message.ParentUserID := "";
          Message.ReplyCount := 0;
          Message.ReplyUsersCount := 0;
          Message.LatestReply := "";
          Message.UserName := COALESCE (User.Name <$> u) "";
          Message.UserRealName := COALESCE (User.RealName <$> u) "" |};
     SearchResult.Rank := 0%float;
     SearchResult.Snippet := snippet query fts;
     SearchResult.Filename := Row.filename m |}.

(** [FROM messages_fts fts JOIN messages m ON m.id = fts.rowid
    LEFT JOIN users u ON u.id = m.user_id WHERE messages_fts MATCH ?] *)
Definition matching_rows (db : DB) (query : string)
    (p : Fts.t -> bool) : list SearchResult.t :=
  flat_map
    (fun fts =>
       if p fts
       then map (scan db query fts)
                (List.filter (fun m => Row.id m =? Fts.rowid fts)
                             (messages db))
       else [])
    (messages_fts db).

(** [LIMIT n]: a negative [n] means no limit. *)
Definition LIMIT {A} (n : Z) (rows : list A) : list A :=
  if n <? 0 then rows else firstn (Z.to_nat n) rows.

Definition SearchMessages (db : DB) (query : string) (limit : Z)
  : result (list SearchResult.t) * DB :=
  let (failed, db) := call db in
  if failed then (Err (Wrap "search query failed" DriverError), db)
  else
    match fts_match query with
    | None => (Err (Wrap "search query failed" QuerySyntaxError), db)
    | Some p => (Ok (LIMIT limit (matching_rows db query p)), db)
    end.
End FullText.

(** *** GetStats *)

(** [SELECT COUNT( * ) FROM users], and the like. *)
Definition count_users (db : DB) : Z := Z.of_nat (size (users db)).
Definition count_channels (db : DB) : Z := Z.of_nat (size (channels db)).
Definition count_messages (db : DB) : Z := Z.of_nat (length (messages db)).

(** Three QueryRow calls, one per table.  Go ranges over the map of
    queries in no fixed order; the order here is users, channels,
    messages, which only decides the table a failure is reported for. *)
Definition GetStats (db : DB) : result (gmap string Z) * DB :=
  let (failed, db) := call db in
  if failed then (Err (Wrap "failed to get users count" DriverError), db)
  else
    let (failed, db) := call db in
    if failed then (Err (Wrap "failed to get channels count" DriverError), db)
    else
      let (failed, db) := call db in
      if failed
      then (Err (Wrap "failed to get messages count" DriverError), db)
      else (Ok (<["users" := count_users db]>
                  (<["channels" := count_channels db]>
                     (<["messages" := count_messages db]> ∅))), db).

End database.

(** ** Package indexer *)

Module indexer.
Import models.

(** A decoded JSON value ([interface{}] after [json.Unmarshal]). *)
#[warnings="-register-all"] Inductive JSON : Type :=
  | JNull
  | JBool (b : bool)
  | JNumber (f : float)
  | JString (s : string)
  | JArray (l : list JSON)
  | JObject (members : list (string * JSON)).

(** What [os.ReadFile] followed by [json.Unmarshal] into a value of type
    [A] gives for a file. *)
Inductive File (A : Type) : Type :=
  | ReadFails
  | UnmarshalFails
  | Decoded (a : A).
Arguments ReadFails {A}.
Arguments UnmarshalFails {A}.
Arguments Decoded {A} a.

(** One call of the [filepath.WalkDir] callback: the path, the error
    handed to the callback, whether the entry is a directory, and, for a
    file, its content (an array of raw messages when it decodes). *)
Record WalkEntry := mkEntry {
  path : string;
  walk_err : option error;
  IsDir : bool;
  content : File (list JSON) }.

(** The export the indexer reads: users.json, channels.json and the walk
    of the channel directory, in WalkDir's order. *)
Record SourceData := mkSource {
  users_json : File (list UserJSON.t);
  channels_json : File (list Channel.t);
  channel_dir : list WalkEntry }.

Inductive arg := AStr (s : string) | AInt (n : Z) | AErr (e : error).

(** A [fmt.Printf] call (the format without its line ends). *)
Inductive Output := Printf (format : string) (args : list arg).

Record Indexer := mkIndexer {
  db : database.DB;
  sourceDir : string;
  channelName : string;
  totalFiles : Z;
  processedFiles : Z;
  stdout : list Output }.

Definition with_db (idx : Indexer) (d : database.DB) : Indexer :=
  {| db := d; sourceDir := sourceDir idx; channelName := channelName idx;
     totalFiles := totalFiles idx; processedFiles := processedFiles idx;
     stdout := stdout idx |}.

Definition with_totalFiles (idx : Indexer) (n : Z) : Indexer :=
  {| db := db idx; sourceDir := sourceDir idx;
     channelName := channelName idx;
     totalFiles := n; processedFiles := processedFiles idx;
     stdout := stdout idx |}.

Definition with_processedFiles (idx : Indexer) (n : Z) : Indexer :=
  {| db := db idx; sourceDir := sourceDir idx;
     channelName := channelName idx;
     totalFiles := totalFiles idx; processedFiles := n;
     stdout := stdout idx |}.

Definition print (idx : Indexer) (o : Output) : Indexer :=
  {| db := db idx; sourceDir := sourceDir idx;
     channelName := channelName idx;
     totalFiles := totalFiles idx; processedFiles := processedFiles idx;
     stdout := stdout idx ++ [o] |}.

(** *** parseSlackTimestamp *)

Definition parseSlackTimestamp (ts : string) : result time.Time :=
  let parts := strings.Split ts "." in
  if negb (length parts =? 2)%nat then Err InvalidTimestampFormat
  else
    match strconv.ParseInt (nth 0 parts "") with
    | Err err => Err err
    | Ok seconds => Ok (time.Unix seconds)
    end.

(** *** processMessageFile *)

(** [json.Unmarshal(rawMsg, &msgMap)] with [msgMap] a
    [map[string]interface{}]: an object decodes to its members (a later
    duplicate key overwrites), [null] leaves the map nil, anything else
    is an error. *)
Definition Unmarshal_map (rawMsg : JSON) : result (gmap string JSON) :=
  match rawMsg with
  | JObject members =>
      Ok (fold_left (fun m kv => <[fst kv := snd kv]> m) members ∅)
  | JNull => Ok ∅
  | _ => Err JSONError
  end.

(** [v, ok := msgMap[key].(string)] *)
Definition string_of (msgMap : gmap string JSON) (key : string)
  : string * bool :=
  match msgMap !! key with
  | Some (JString s) => (s, true)
  | _ => ("", false)
  end.

(** The body of the loop over the raw messages of a file, up to the
    Store write: [None] where the body runs into [continue], else the
    message handed to InsertMessage. *)
Definition acceptRecord (date : time.Time) (filename : string)
    (rawMsg : JSON) : option Message.t :=
  match Unmarshal_map rawMsg with
  | Err _ => None
  | Ok msgMap =>
      let '(subtype, ok) := string_of msgMap "subtype" in
      if ok && String.eqb subtype "bot_message" then None
      else
        let '(userID, hasUser) := string_of msgMap "user" in
        let '(text, hasText) := string_of msgMap "text" in
        if negb hasUser || negb hasText
           || String.eqb (strings.TrimSpace text) ""
        then None
        else
          let '(timestamp, _) := string_of msgMap "ts" in
          let '(msgType, _) := string_of msgMap "type" in
          let '(subtype, _) := string_of msgMap "subtype" in
          let msgTime :=
            if negb (String.eqb timestamp "") then
              match parseSlackTimestamp timestamp with
              | Ok ts => ts
              | Err _ => date
              end
            else date in
          Some {| Message.ID := 0;
                  Message.UserID := userID;
                  Message.Text := text;
                  Message.Type_ := msgType;
                  Message.Subtype := subtype;
                  Message.Timestamp := timestamp;
                  Message.Date := msgTime;
                  Message.Filename := filename;
                  Message.ThreadTS := "";
                  Message.ParentUserID := "";
                  Message.ReplyCount := 0;
                  Message.ReplyUsersCount := 0;
                  Message.LatestReply := "";
                  Message.UserName := "";
                  Message.UserRealName := "" |}
  end.

(** The loop over the raw messages of a file. *)
Fixpoint processRecords (d : database.DB) (date : time.Time)
    (filename : string) (messages : list JSON)
  : option error * database.DB :=
  match messages with
  | [] => (None, d)
  | rawMsg :: rest =>
      match acceptRecord date filename rawMsg with
      | None => processRecords d date filename rest
      | Some message =>
          match database.InsertMessage d message with
          | (Some err, d') => (Some (Wrap "failed to insert message" err), d')
          | (None, d') => processRecords d' date filename rest
          end
      end
  end.

Definition processMessageFile (idx : Indexer) (file : File (list JSON))
    (filename : string) : option error * Indexer :=
  match file with
  | ReadFails => (Some (Wrap "failed to read file" ReadFileError), idx)
  | UnmarshalFails => (Some (Wrap "failed to parse JSON" JSONError), idx)
  | Decoded messages =>
      let dateStr := strings.TrimSuffix filename ".json" in
      match time.Parse_date dateStr with
      | Err err =>
          (Some (Wrap ("failed to parse date from filename " +:+ filename)
                      err), idx)
      | Ok date =>
          let (err, d) := processRecords (db idx) date filename messages in
          (err, with_db idx d)
      end
  end.

(** *** processMessageFiles *)

(** The first walk: count the .json files. *)
Fixpoint countFiles (idx : Indexer) (entries : list WalkEntry)
  : option error * Indexer :=
  match entries with
  | [] => (None, idx)
  | e :: rest =>
      match walk_err e with
      | Some err => (Some err, idx)
      | None =>
          if negb (IsDir e) && strings.HasSuffix (path e) ".json"
          then countFiles (with_totalFiles idx (totalFiles idx + 1)) rest
          else countFiles idx rest
      end
  end.

(** The second walk: process each .json file. *)
Fixpoint processEntries (idx : Indexer) (entries : list WalkEntry)
  : option error * Indexer :=
  match entries with
  | [] => (None, idx)
  | e :: rest =>
      match walk_err e with
      | Some err => (Some err, idx)
      | None =>
          if IsDir e || negb (strings.HasSuffix (path e) ".json")
          then processEntries idx rest
          else
            let filename := filepath.Base (path e) in
            match processMessageFile idx (content e) filename with
            | (Some err, idx) =>
                processEntries
                  (print idx (Printf "Warning: failed to process %s: %v"
                                     [AStr filename; AErr err]))
                  rest
            | (None, idx) =>
                let idx := with_processedFiles idx (processedFiles idx + 1) in
                let idx :=
                  if Z.rem (processedFiles idx) 50 =? 0
                  then print idx (Printf "Processed %d/%d files..."
                                         [AInt (processedFiles idx);
                                          AInt (totalFiles idx)])
                  else idx in
                processEntries idx rest
            end
      end
  end.

Definition processMessageFiles (idx : Indexer) (channelDir : list WalkEntry)
  : option error * Indexer :=
  match countFiles idx channelDir with
  | (Some err, idx) => (Some (Wrap "failed to count files" err), idx)
  | (None, idx) =>
      let idx := print idx (Printf "Processing %d message files..."
                                   [AInt (totalFiles idx)]) in
      processEntries idx channelDir
  end.

(** *** loadUsers, loadChannels *)

Definition toUser (userJSON : UserJSON.t) : User.t :=
  {| User.ID := UserJSON.ID userJSON;
     User.Name := UserJSON.Name userJSON;
     User.RealName := Profile.RealName (UserJSON.Profile userJSON);
     User.DisplayName := Profile.DisplayName (UserJSON.Profile userJSON);
     User.IsBot := UserJSON.IsBot userJSON;
     User.Deleted := UserJSON.Deleted userJSON |}.

Fixpoint insertUsers (d : database.DB) (usersJSON : list UserJSON.t)
  : option error * database.DB :=
  match usersJSON with
  | [] => (None, d)
  | userJSON :: rest =>
      let user := toUser userJSON in
      match database.InsertUser d user with
      | (Some err, d') =>
          (Some (Wrap ("failed to insert user " +:+ User.ID user) err), d')
      | (None, d') => insertUsers d' rest
      end
  end.

Definition loadUsers (idx : Indexer) (file : File (list UserJSON.t))
  : option error * Indexer :=
  match file with
  | ReadFails => (Some (Wrap "failed to read users.json" ReadFileError), idx)
  | UnmarshalFails => (Some (Wrap "failed to parse users.json" JSONError), idx)
  | Decoded usersJSON =>
      let idx := print idx (Printf "Loading %d users..."
                                   [AInt (Z.of_nat (length usersJSON))]) in
      let (err, d) := insertUsers (db idx) usersJSON in
      (err, with_db idx d)
  end.

Fixpoint insertChannels (d : database.DB) (channels : list Channel.t)
  : option error * database.DB :=
  match channels with
  | [] => (None, d)
  | channel :: rest =>
      match database.InsertChannel d channel with
      | (Some err, d') =>
          (Some (Wrap ("failed to insert channel " +:+ Channel.ID channel)
                      err), d')
      | (None, d') => insertChannels d' rest
      end
  end.

Definition loadChannels (idx : Indexer) (file : File (list Channel.t))
  : option error * Indexer :=
  match file with
  | ReadFails =>
      (Some (Wrap "failed to read channels.json" ReadFileError), idx)
  | UnmarshalFails =>
      (Some (Wrap "failed to parse channels.json" JSONError), idx)
  | Decoded channels =>
      let idx := print idx (Printf "Loading %d channels..."
                                   [AInt (Z.of_nat (length channels))]) in
      let (err, d) := insertChannels (db idx) channels in
      (err, with_db idx d)
  end.

(** *** IndexChannel *)

Definition IndexChannel (idx : Indexer) (src : SourceData)
  : option error * Indexer :=
  let idx := print idx (Printf "Indexing channel: %s"
                               [AStr (channelName idx)]) in
  match loadUsers idx (users_json src) with
  | (Some err, idx) => (Some (Wrap "failed to load users" err), idx)
  | (None, idx) =>
  match loadChannels idx (channels_json src) with
  | (Some err, idx) => (Some (Wrap "failed to load channels" err), idx)
  | (None, idx) =>
  match processMessageFiles idx (channel_dir src) with
  | (Some err, idx) =>
      (Some (Wrap "failed to process message files" err), idx)
  | (None, idx) =>
  match database.GetStats (db idx) with
  | (Err err, d) => (Some (Wrap "failed to get stats" err), with_db idx d)
  | (Ok stats, d) =>
      let idx := with_db idx d in
      let count key := AInt (default 0 (stats !! key)) in
      let idx := print idx (Printf "Indexing complete!" []) in
      let idx := print idx (Printf "- Users: %d" [count "users"]) in
      let idx := print idx (Printf "- Channels: %d" [count "channels"]) in
      let idx := print idx (Printf "- Messages: %d" [count "messages"]) in
      let idx := print idx (Printf "- Files processed: %d"
                                   [AInt (processedFiles idx)]) in
      (None, idx)
  end end end end.

End indexer.

(** ** Package searcher *)

Module searcher.
Import models.

Section Search.
Variable fts_match : string -> option (database.Fts.t -> bool).
Variable snippet : string -> database.Fts.t -> string.

Definition Search (d : database.DB) (query : string) (limit : Z)
  : result (list SearchResult.t) * database.DB :=
  let limit := if limit <=? 0 then 10 else limit in
  database.SearchMessages fts_match snippet d query limit.
End Search.

(** *** sanitizeFilename, fileExists, ValidateDatabaseExists *)

Definition sanitizeFilename (name : string) : string :=
  strings.Replace
    [ (":"%char, "_"%char);
      ("/"%char, "_"%char);
      ("\"%char, "_"%char);
      ("*"%char, "_"%char);
      ("?"%char, "_"%char);
      ("034"%char, "_"%char);
      ("<"%char, "_"%char);
      (">"%char, "_"%char);
      ("|"%char, "_"%char);
      (" "%char, "_"%char) ]
    name.

(** The operating system as the package sees it: what [os.Getwd] returns
    and the set of paths at which a file exists. *)
Record OS := mkOS {
  Getwd : result string;
  files : gset string }.

Definition fileExists (os : OS) (filename : string) : bool :=
  match filepath.Abs (Getwd os) filename with
  | Ok _ => true
  | Err _ => false
  end.

Definition ValidateDatabaseExists (os : OS) (channelName : string) : bool :=
  let filename := sanitizeFilename channelName +:+ ".db" in
  let dbPath := filepath.Join ["databases"; filename] in
  fileExists os dbPath.

(** *** The thread context of GenerateHTMLOutput *)

Module ThreadedSearchResult.
Record t := mk {
  OriginalResult : SearchResult.t;
  ThreadMessages : list Message.t;
  IsThreaded : bool }.
End ThreadedSearchResult.

Section Threads.
(** [GetThreadMessages] of the database package is taken as given: it reads
    the store (of some type [Store]) and may fail. *)
Variable Store : Type.
Variable GetThreadMessages :
  Store -> string -> result (list Message.t) * Store.

(** The value of the local [threadTS] after the if / else-if. *)
Definition threadTS (result : SearchResult.t) : string :=
  let m := SearchResult.Message result in
  if negb (String.eqb (Message.ThreadTS m) "") then Message.ThreadTS m
  else if 0 <? Message.ReplyCount m then Message.Timestamp m
  else "".

(** The body of the loop over the results. *)
Definition threadContext (s : Store) (result : SearchResult.t)
  : ThreadedSearchResult.t * Store :=
  let notThreaded :=
    {| ThreadedSearchResult.OriginalResult := result;
       ThreadedSearchResult.ThreadMessages := [];
       ThreadedSearchResult.IsThreaded := false |} in
  let threadTS := threadTS result in
  if negb (String.eqb threadTS "") then
    match GetThreadMessages s threadTS with
    | (Ok threadMessages, s) =>
        if (1 <? length threadMessages)%nat
        then ({| ThreadedSearchResult.OriginalResult := result;
                 ThreadedSearchResult.ThreadMessages := threadMessages;
                 ThreadedSearchResult.IsThreaded := true |}, s)
        else (notThreaded, s)
    | (Err _, s) => (notThreaded, s)
    end
  else (notThreaded, s).

Fixpoint threadContexts (s : Store) (results : list SearchResult.t)
  : list ThreadedSearchResult.t * Store :=
  match results with
  | [] => ([], s)
  | result :: rest =>
      let (threadedResult, s) := threadContext s result in
      let (threadedResults, s) := threadContexts s rest in
      (threadedResult :: threadedResults, s)
  end.
End Threads.

(** *** FormatResults *)

(** The line end of the Go string literals. *)
Definition LF : string := String "010" "".

Section Format.
(** [t.Format("2006-01-02 15:04:05")], which depends on the time zone of
    the process. *)
Variable Format : time.Time -> string.

(** The user shown for a result. *)
Definition displayUser (result : SearchResult.t) : string :=
  let m := SearchResult.Message result in
  let userName := Message.UserName m in
  let userName :=
    if negb (String.eqb (Message.UserRealName m) "")
    then Message.UserRealName m +:+ " (" +:+ Message.UserName m +:+ ")"
    else userName in
  if String.eqb userName "" then Message.UserID m else userName.

(** The message text shown for a result. *)
Definition displayText (result : SearchResult.t) : string :=
  let messageText := Message.Text (SearchResult.Message result) in
  let messageText :=
    if negb (String.eqb (SearchResult.Snippet result) "")
    then SearchResult.Snippet result
    else messageText in
  let messageText := strings.ReplaceAll messageText "010" " " in
  if (500 <? String.length messageText)%nat
  then substring 0 497 messageText +:+ "..."
  else messageText.

(** The body of the loop: what is written for the result at index [i]. *)
Definition formatResult (i : nat) (result : SearchResult.t) : string :=
  let date := Format (Message.Date (SearchResult.Message result)) in
  "--- Result " +:+ pretty (Z.of_nat i + 1) +:+ " ---" +:+ LF
  +:+ "User: " +:+ displayUser result +:+ LF
  +:+ "Date: " +:+ date +:+ LF
  +:+ "File: " +:+ SearchResult.Filename result +:+ LF
  +:+ "Message: " +:+ displayText result +:+ LF +:+ LF.

Fixpoint formatFrom (i : nat) (results : list SearchResult.t) : string :=
  match results with
  | [] => ""
  | result :: rest => formatResult i result +:+ formatFrom (S i) rest
  end.

Definition FormatResults (results : list SearchResult.t) : string :=
  match results with
  | [] => "No results found."
  | _ =>
      "Found " +:+ pretty (Z.of_nat (length results)) +:+ " result(s):"
      +:+ LF +:+ LF +:+ formatFrom 0 results
  end.
End Format.

(** *** The template functions of generateHTML *)

Definition formatUser (realName userName userID : string) : string :=
  if negb (String.eqb realName "") && negb (String.eqb userName "")
  then realName +:+ " (" +:+ userName +:+ ")"
  else if negb (String.eqb userName "") then userName
  else userID.

Definition safeHTML (text : string) : string :=
  strings.ReplaceAll text "010" "<br>".

(** [None] is the run-time panic of [text[:length]] for a negative
    [length]. *)
Definition truncate (text : string) (length : Z) : option string :=
  if Z.of_nat (String.length text) <=? length then Some text
  else if length <? 0 then None
  else Some (substring 0 (Z.to_nat length) text +:+ "...").

End searcher.

(** ** Definitions used to state the properties *)

(** The fetch the loop of GenerateHTMLOutput makes for the result [r]:
    what [GetThreadMessages] returns for the thread root when the local
    [threadTS] is not empty; none when it is empty, since the call is
    guarded by [threadTS != ""]. *)
Definition fetch_made (Store : Type)
    (GetThreadMessages :
       Store -> string -> result (list models.Message.t) * Store)
    (s : Store) (r : models.SearchResult.t)
  : option (result (list models.Message.t)) :=
  if negb (String.eqb (searcher.threadTS r) "")
  then Some (fst (GetThreadMessages s (searcher.threadTS r)))
  else None.

(** The characters the comment of sanitizeFilename calls problematic. *)
Definition problematic (c : ascii) : bool :=
  existsb (Ascii.eqb c)
    [":"; "/"; "\"; "*"; "?"; "034"; "<"; ">"; "|"; " "]%char.

(** The string at [key] of a raw record: what [msgMap[key].(string)] finds
    when the record decodes to an object. *)
Definition field (rawMsg : indexer.JSON) (key : string) : option string :=
  match indexer.Unmarshal_map rawMsg with
  | Ok msgMap =>
      let (s, ok) := indexer.string_of msgMap key in
      if ok then Some s else None
  | Err _ => None
  end.

(** The source timestamp token of a raw record (empty when there is none). *)
Definition token (rawMsg : indexer.JSON) : string :=
  match field rawMsg "ts" with Some ts => ts | None => "" end.

(** A record with no author identifier, no text, a blank text, or the
    subtype bot_message. *)
Definition unwanted (rawMsg : indexer.JSON) : Prop :=
  field rawMsg "user" = None
  \/ field rawMsg "text" = None
  \/ (exists text, field rawMsg "text" = Some text
                   /\ strings.TrimSpace text = "")
  \/ field rawMsg "subtype" = Some "bot_message".

(** The derived calendar timestamp [t] the specification asks for the token
    [tok] in a file dated [date]: the token is integer seconds, a dot and a
    fraction and [t] is built from the seconds, or the token is not of that
    form and [t] is the date of the file. *)
Definition normalized (date : time.Time) (tok : string) (t : time.Time)
  : Prop :=
  (exists secs frac seconds,
      tok = secs +:+ "." +:+ frac
      /\ strings.Count secs "." = O /\ strings.Count frac "." = O
      /\ strconv.ParseInt secs = Ok seconds
      /\ t = time.Unix seconds)
  \/ ((forall secs frac seconds,
          tok = secs +:+ "." +:+ frac ->
          strings.Count secs "." = O -> strings.Count frac "." = O ->
          strconv.ParseInt secs <> Ok seconds)
      /\ t = date).

(** The row of [messages] that stores the message [m]. *)
Definition stores (row : database.Row.t) (m : models.Message.t) : Prop :=
  database.Row.user_id row = models.Message.UserID m
  /\ database.Row.text row = models.Message.Text m
  /\ database.Row.type_ row = models.Message.Type_ m
  /\ database.Row.subtype row = models.Message.Subtype m
  /\ database.Row.timestamp row = models.Message.Timestamp m
  /\ database.Row.date row = models.Message.Date m
  /\ database.Row.filename row = models.Message.Filename m.

(** Modelled from the spec: the ORDER BY of [messagesInThread], which
    belongs to [GetThreadMessages] of package database and is not among the
    sources: one step of an insertion sort by calendar timestamp,
    ascending, that keeps the order of equal timestamps. *)
Fixpoint insert_by_date (m : models.Message.t) (l : list models.Message.t)
  : list models.Message.t :=
  match l with
  | [] => [m]
  | m' :: rest =>
      if time.ext (models.Message.Date m) <? time.ext (models.Message.Date m')
      then m :: l
      else m' :: insert_by_date m rest
  end.

(** Modelled from the spec: [messagesInThread(threadRootToken)], the body
    of the missing [GetThreadMessages]: every Message whose own timestamp
    token equals the token (the root) or whose thread-root token equals it
    (the replies), ordered by calendar timestamp ascending.  The Store is
    the list of its Messages. *)
Definition messagesInThread (store : list models.Message.t)
    (threadRootToken : string) : list models.Message.t :=
  fold_right insert_by_date []
    (List.filter
       (fun m =>
          String.eqb (models.Message.Timestamp m) threadRootToken
          || String.eqb (models.Message.ThreadTS m) threadRootToken)
       store).

(** Modelled from the spec: [GetThreadMessages] of package database, which
    is not among the sources, as a fetch of [messagesInThread] that does
    not change the Store and does not fail. *)
Definition GetThreadMessages (store : list models.Message.t)
    (threadTS : string)
  : result (list models.Message.t) * list models.Message.t :=
  (Ok (messagesInThread store threadTS), store).

Module sample.
Import models indexer.

Definition hello : JSON :=
  JObject [("type", JString "message"); ("user", JString "U1");
           ("text", JString "rotate the certs");
           ("ts", JString "1565852586.087600")].

Definition undated : JSON :=
  JObject [("type", JString "message"); ("user", JString "U1");
           ("text", JString "which release"); ("ts", JString "yesterday")].

Definition bot : JSON :=
  JObject [("type", JString "message"); ("subtype", JString "bot_message");
           ("user", JString "B1"); ("text", JString "deploy done");
           ("ts", JString "1565852590.000100")].

Definition join : JSON :=
  JObject [("type", JString "message"); ("subtype", JString "channel_join");
           ("user", JString "U1"); ("ts", JString "1565852500.000000")].

Definition bye : JSON :=
  JObject [("type", JString "message"); ("user", JString "U2");
           ("text", JString "thanks"); ("ts", JString "1565852600.5")].

(** A message whose author is in no users.json. *)
Definition orphan : Message.t :=
  {| Message.ID := 0; Message.UserID := "U404";
     Message.Text := "anyone seen this"; Message.Type_ := "message";
     Message.Subtype := ""; Message.Timestamp := "1565852586.087600";
     Message.Date := time.Unix 1565852586;
     Message.Filename := "2019-08-15.json";
     Message.ThreadTS := ""; Message.ParentUserID := "";
     Message.ReplyCount := 0; Message.ReplyUsersCount := 0;
     Message.LatestReply := ""; Message.UserName := "";
     Message.UserRealName := "" |}.

Definition alice : UserJSON.t :=
  {| UserJSON.ID := "U1"; UserJSON.Name := "alice";
     UserJSON.Profile := {| Profile.RealName := "Alice A";
                            Profile.DisplayName := "ali" |};
     UserJSON.IsBot := false; UserJSON.Deleted := false |}.

Definition alice_renamed : UserJSON.t :=
  {| UserJSON.ID := "U1"; UserJSON.Name := "alice2";
     UserJSON.Profile := {| Profile.RealName := "Alice B";
                            Profile.DisplayName := "ali" |};
     UserJSON.IsBot := false; UserJSON.Deleted := false |}.

Definition deploybot : UserJSON.t :=
  {| UserJSON.ID := "B1"; UserJSON.Name := "deploybot";
     UserJSON.Profile := {| Profile.RealName := "";
                            Profile.DisplayName := "" |};
     UserJSON.IsBot := true; UserJSON.Deleted := false |}.

Definition sig_auth : Channel.t :=
  {| Channel.ID := "C1"; Channel.Name := "sig-auth";
     Channel.Created := 1500000000; Channel.Creator := "U1";
     Channel.IsArchived := false |}.

Definition idx0 : Indexer :=
  {| db := database.empty; sourceDir := "source-data";
     channelName := "sig-auth"; totalFiles := 0; processedFiles := 0;
     stdout := [] |}.

(** A channel directory with two day files, and a medium that lets the
    one user in and then fails the first write of a message. *)
Definition channel_dir_entry : WalkEntry :=
  {| path := "source-data/sig-auth"; walk_err := None; IsDir := true;
     content := ReadFails |}.

Definition day1 : WalkEntry :=
  {| path := "source-data/sig-auth/2019-08-15.json"; walk_err := None;
     IsDir := false; content := Decoded [hello] |}.

Definition day2 : WalkEntry :=
  {| path := "source-data/sig-auth/2019-08-16.json"; walk_err := None;
     IsDir := false; content := Decoded [bye] |}.

Definition export : SourceData :=
  {| users_json := Decoded [alice]; channels_json := Decoded [];
     channel_dir := [channel_dir_entry; day1; day2] |}.

Definition failing_db (outcomes : list bool) : database.DB :=
  {| database.users := ∅; database.channels := ∅; database.messages := [];
     database.sqlite_sequence := 0; database.messages_fts := [];
     database.medium := outcomes |}.

Definition idx_failing : Indexer :=
  {| db := failing_db [false; true]; sourceDir := "source-data";
     channelName := "sig-auth"; totalFiles := 0; processedFiles := 0;
     stdout := [] |}.

Definition idx_write_fails : Indexer :=
  {| db := failing_db [true]; sourceDir := "source-data";
     channelName := "sig-auth"; totalFiles := 0; processedFiles := 0;
     stdout := [] |}.

(** A toy full-text engine: a query is one term, it matches the rows whose
    text contains the term, and the empty query is rejected. *)
Fixpoint contains (term text : string) : bool :=
  String.prefix term text
  || match text with
     | String _ rest => contains term rest
     | EmptyString => false
     end.

Definition fts_match (query : string) : option (database.Fts.t -> bool) :=
  if String.eqb query "" then None
  else Some (fun row => contains query (database.Fts.text row)).

Definition snippet (query : string) (row : database.Fts.t) : string :=
  "...<mark>" +:+ query +:+ "</mark>...".

(** The Store after the export was ingested on a medium that never
    fails. *)
Definition ingested : database.DB :=
  db (snd (IndexChannel idx0 export)).

(** A thread of three messages and two messages outside any thread. *)
Definition message (ts thread_ts text : string) (sec replies : Z)
  : Message.t :=
  {| Message.ID := 0; Message.UserID := "U1"; Message.Text := text;
     Message.Type_ := "message"; Message.Subtype := "";
     Message.Timestamp := ts; Message.Date := time.Unix sec;
     Message.Filename := "2019-08-15.json";
     Message.ThreadTS := thread_ts; Message.ParentUserID := "";
     Message.ReplyCount := replies; Message.ReplyUsersCount := 0;
     Message.LatestReply := ""; Message.UserName := "";
     Message.UserRealName := "" |}.

Definition thread_store : list Message.t :=
  [ message "30.000300" "10.000100" "second reply" 30 0;
    message "10.000100" "10.000100" "how do I rotate certs" 10 2;
    message "40.000400" "" "unrelated" 40 0;
    message "20.000200" "10.000100" "first reply" 20 0;
    message "50.000500" "" "also unrelated" 50 0 ].

Definition hit (m : Message.t) : SearchResult.t :=
  {| SearchResult.Message := m; SearchResult.Rank := 0%float;
     SearchResult.Snippet := ""; SearchResult.Filename := "" |}.

(** A file of the channel directory that is not named after a date, and
    an entry the walk could not read. *)
Definition notes : WalkEntry :=
  {| path := "source-data/sig-auth/notes.json"; walk_err := None;
     IsDir := false; content := Decoded [hello] |}.

Definition unreadable_dir : WalkEntry :=
  {| path := "source-data/sig-auth/old"; walk_err := Some WalkError;
     IsDir := true; content := ReadFails |}.

End sample.

(** Two states of the database with the same tables (the medium apart). *)
Definition same_tables (d d' : database.DB) : Prop :=
  database.users d' = database.users d
  /\ database.channels d' = database.channels d
  /\ database.messages d' = database.messages d
  /\ database.sqlite_sequence d' = database.sqlite_sequence d
  /\ database.messages_fts d' = database.messages_fts d.

(** No call on the connection is going to fail. *)
Definition healthy (d : database.DB) : Prop :=
  Forall (fun failed => failed = false) (database.medium d).

(** The record with identifier [id] that comes last in a reference-data
    file, if any: the one an ingestion of the file leaves in the Store. *)
Fixpoint latest {A : Type} (key : A -> string) (id : string) (l : list A)
  : option A :=
  match l with
  | [] => None
  | a :: rest =>
      match latest key id rest with
      | Some b => Some b
      | None => if String.eqb (key a) id then Some a else None
      end
  end.

(** What is at [id] after the file [l] was ingested into the table [m]. *)
Definition after_ingestion {A : Type} (key : A -> string) (l : list A)
    (m : gmap string A) (id : string) : option A :=
  match latest key id l with
  | Some a => Some a
  | None => m !! id
  end.

(** The table [m] after INSERT OR REPLACE of the records of [l] in turn. *)
Definition upserted {A : Type} (key : A -> string) (l : list A)
    (m : gmap string A) : gmap string A :=
  fold_left (fun m a => <[key a := a]> m) l m.

(** The warning processMessageFiles prints for a file it could not
    process. *)
Definition warning (filename : string) (err : error) : indexer.Output :=
  indexer.Printf "Warning: failed to process %s: %v"
    [indexer.AStr filename; indexer.AErr err].

(** ** Definitions used to state the further properties *)

(** The row of [messages] that InsertMessage makes of [m] under [id]. *)
Definition row_of (id : Z) (m : models.Message.t) : database.Row.t :=
  {| database.Row.id := id;
     database.Row.user_id := models.Message.UserID m;
     database.Row.text := models.Message.Text m;
     database.Row.type_ := models.Message.Type_ m;
     database.Row.subtype := models.Message.Subtype m;
     database.Row.timestamp := models.Message.Timestamp m;
     database.Row.date := models.Message.Date m;
     database.Row.filename := models.Message.Filename m |}.

(** The rows of the messages [ms], numbered from [seq + 1] on. *)
Fixpoint rows_from (seq : Z) (ms : list models.Message.t)
  : list database.Row.t :=
  match ms with
  | [] => []
  | m :: rest => row_of (seq + 1) m :: rows_from (seq + 1) rest
  end.

(** The messages a batch file gives: those of its records the loop does
    not skip, in the order of the file. *)
Definition accepted (date : time.Time) (filename : string)
    (records : list indexer.JSON) : list models.Message.t :=
  omap (indexer.acceptRecord date filename) records.

(** A property of the database that every statement the packages issue
    keeps. *)
Definition preserved (P : database.DB -> Prop) : Prop :=
  (forall d, P d -> P (snd (database.call d)))
  /\ (forall d u, P d -> P (snd (database.InsertUser d u)))
  /\ (forall d c, P d -> P (snd (database.InsertChannel d c)))
  /\ (forall d m, P d -> P (snd (database.InsertMessage d m))).

(** The identifiers of [messages] increase along the table and none is
    above the AUTOINCREMENT counter; each full-text entry repeats the text
    and the file name of the message whose identifier it has, and the
    entries are in the order of their identifiers. *)
Definition store_ok (d : database.DB) : Prop :=
  StronglySorted Z.lt (map database.Row.id (database.messages d))
  /\ Forall (fun i => i <= database.sqlite_sequence d)
            (map database.Row.id (database.messages d))
  /\ StronglySorted Z.lt (map database.Fts.rowid (database.messages_fts d))
  /\ Forall
       (fun f =>
          exists row,
            In row (database.messages d)
            /\ database.Row.id row = database.Fts.rowid f
            /\ database.Row.text row = database.Fts.text f
            /\ database.Row.filename row = database.Fts.filename f)
       (database.messages_fts d).

(** [d'] has everything [d] has: the rows of [messages] and of
    [messages_fts] of [d] are the first rows of [d'], unchanged, and the
    identifiers of its users and channels are still there. *)
Definition keeps (d d' : database.DB) : Prop :=
  (exists rows,
      database.messages d' = (database.messages d ++ rows)%list)
  /\ (exists entries,
         database.messages_fts d'
         = (database.messages_fts d ++ entries)%list)
  /\ (forall id, is_Some (database.users d !! id) ->
                 is_Some (database.users d' !! id))
  /\ (forall id, is_Some (database.channels d !! id) ->
                 is_Some (database.channels d' !! id))
  /\ database.sqlite_sequence d <= database.sqlite_sequence d'.

(** The entries of a walk that processMessageFiles takes for message
    files. *)
Definition is_message_file (e : indexer.WalkEntry) : bool :=
  negb (indexer.IsDir e) && strings.HasSuffix (indexer.path e) ".json".

Definition is_warning (o : indexer.Output) : bool :=
  match o with
  | indexer.Printf format _ =>
      String.eqb format "Warning: failed to process %s: %v"
  end.

(** The number of warnings in the output. *)
Definition warnings (out : list indexer.Output) : Z :=
  Z.of_nat (length (List.filter is_warning out)).

(** Every message has its full-text entry: the identifiers of the
    entries are those of the messages, in the same order. *)
Definition synced (d : database.DB) : Prop :=
  map database.Fts.rowid (database.messages_fts d)
  = map database.Row.id (database.messages d).

(** The full-text entry of the row [row] written by the user [u]. *)
Definition entry_of (row : database.Row.t) (u : models.User.t)
  : database.Fts.t :=
  {| database.Fts.rowid := database.Row.id row;
     database.Fts.text := database.Row.text row;
     database.Fts.user_name := models.User.Name u;
     database.Fts.user_real_name := models.User.RealName u;
     database.Fts.filename := database.Row.filename row |}.

(** The number of entries of a walk that are message files. *)
Definition message_files (entries : list indexer.WalkEntry) : Z :=
  Z.of_nat (length (List.filter is_message_file entries)).

Definition decoded {A : Type} (file : indexer.File A) : bool :=
  match file with indexer.Decoded _ => true | _ => false end.

(** * Properties *)

(** ** The standard library model on sample inputs *)

Example library_samples :
  time.Parse_date "2019-08-15"
    = Ok {| time.ext := time.ext (time.Unix 1565827200); time.loc := time.UTC |}
  /\ time.Parse_date "2019-02-29" = Err TimeParseError
  /\ time.Parse_date "2020-02-29" = Ok (time.Date 2020 2 29)
  /\ time.Parse_date "2019-8-15" = Err TimeParseError
  /\ filepath.Base "src/sig-auth/2019-08-15.json" = "2019-08-15.json"
  /\ filepath.Clean "/a/./b//../c/" = "/a/c"
  /\ filepath.Clean "a/../../b" = "../b"
  /\ filepath.Clean "/../a" = "/a"
  /\ filepath.Clean "" = "."
  /\ filepath.Join ["databases"; "sig-auth.db"] = "databases/sig-auth.db"
  /\ filepath.Abs (Ok "/app") "databases/x.db" = Ok "/app/databases/x.db"
  /\ strings.TrimSuffix "2019-08-15.json" ".json" = "2019-08-15"
  /\ strings.TrimSpace "  a b  " = "a b"
  /\ strings.TrimSpace
       (String (ascii_of_nat 194) (String (ascii_of_nat 160) "x")
        +:+ String (ascii_of_nat 226)
              (String (ascii_of_nat 128) (String (ascii_of_nat 168) "")))
     = "x"
  /\ strconv.ParseInt "-9223372036854775808" = Ok (- 2 ^ 63)
  /\ strconv.ParseInt "9223372036854775808" = Err NumRangeError
  /\ strings.Split "1565852586.087600" "." = ["1565852586"; "087600"].
Proof. vm_compute. repeat split. Qed.


(** ** Strings *)

Section SplitFacts.
Variable sep : ascii.

Lemma Split_length (s : string) :
  length (strings.Split s sep) = S (strings.Count s sep).
Proof.
  induction s as [|c r IH]; simpl; [reflexivity|].
  destruct (Ascii.eqb c sep); simpl.
  - now rewrite IH.
  - destruct (strings.Split r sep); simpl in *; [discriminate|exact IH].
Qed.

Lemma Split_no_sep (s : string) :
  strings.Count s sep = O -> strings.Split s sep = [s].
Proof.
  induction s as [|c r IH]; simpl; [reflexivity|].
  destruct (Ascii.eqb c sep); [discriminate|].
  intros H. now rewrite (IH H).
Qed.

Lemma Split_app_sep (a b : string) :
  strings.Count a sep = O ->
  strings.Split (a +:+ String sep b) sep = a :: strings.Split b sep.
Proof.
  induction a as [|c r IH]; simpl.
  - intros _. now rewrite Ascii.eqb_refl.
  - destruct (Ascii.eqb c sep); [discriminate|].
    intros H. now rewrite (IH H).
Qed.
End SplitFacts.

Lemma parseSlackTimestamp_two_parts (secs frac : string) :
  strings.Count secs "." = O -> strings.Count frac "." = O ->
  indexer.parseSlackTimestamp (secs +:+ "." +:+ frac)
  = match strconv.ParseInt secs with
    | Ok seconds => Ok (time.Unix seconds)
    | Err err => Err err
    end.
Proof.
  intros Hs Hf. unfold indexer.parseSlackTimestamp.
  change (secs +:+ "." +:+ frac) with (secs +:+ String "." frac).
  rewrite (Split_app_sep _ _ _ Hs), (Split_no_sep _ _ Hf). reflexivity.
Qed.

Lemma parseSlackTimestamp_shape (ts : string) :
  strings.Count ts "." <> 1%nat ->
  indexer.parseSlackTimestamp ts = Err InvalidTimestampFormat.
Proof.
  intros H. unfold indexer.parseSlackTimestamp.
  rewrite Split_length.
  destruct (Nat.eqb_spec (S (strings.Count ts ".")) 2) as [E|E]; [lia|].
  reflexivity.
Qed.

(** C10: parseSlackTimestamp drops the fraction.  Two tokens with the same
    seconds part and any two fractions parse to the same result, which is
    [time.Unix] of the seconds alone when the seconds are an int64; a token
    whose number of dots is not one does not parse. *)
Theorem parseSlackTimestamp_discards_fraction :
  (forall secs frac1 frac2 : string,
      strings.Count secs "." = O ->
      strings.Count frac1 "." = O ->
      strings.Count frac2 "." = O ->
      indexer.parseSlackTimestamp (secs +:+ "." +:+ frac1)
      = indexer.parseSlackTimestamp (secs +:+ "." +:+ frac2)
      /\ forall seconds, strconv.ParseInt secs = Ok seconds ->
           indexer.parseSlackTimestamp (secs +:+ "." +:+ frac1)
           = Ok (time.Unix seconds))
  /\ (forall ts : string,
         strings.Count ts "." <> 1%nat ->
         indexer.parseSlackTimestamp ts = Err InvalidTimestampFormat).
Proof.
  split.
  - intros secs frac1 frac2 Hs H1 H2.
    rewrite !parseSlackTimestamp_two_parts by assumption.
    split; [reflexivity|]. intros seconds ->. reflexivity.
  - apply parseSlackTimestamp_shape.
Qed.

Lemma parseSlackTimestamp_discards_fraction_witness :
  (indexer.parseSlackTimestamp "1565852586.087600"
   = indexer.parseSlackTimestamp "1565852586.999999"
   /\ indexer.parseSlackTimestamp "1565852586.087600"
      = Ok (time.Unix 1565852586))
  /\ indexer.parseSlackTimestamp "1565852586" = Err InvalidTimestampFormat
  /\ indexer.parseSlackTimestamp "1.2.3" = Err InvalidTimestampFormat.
Proof.
  destruct parseSlackTimestamp_discards_fraction as [Hsame Hshape].
  split; [|split].
  - destruct (Hsame "1565852586" "087600" "999999") as [E1 E2];
      [reflexivity..|].
    split; [exact E1|]. apply E2. reflexivity.
  - apply Hshape. vm_compute. lia.
  - apply Hshape. vm_compute. lia.
Defined.

(** ** sanitizeFilename *)

Lemma database_sanitize_byte (name : string) (i : nat) (c : ascii) :
  String.get i name = Some c ->
  String.get i (database.sanitizeFilename name)
  = Some (if problematic c then "_"%char else c).
Proof.
  unfold database.sanitizeFilename.
  revert i; induction name as [|a r IH]; intros i; simpl; [discriminate|].
  destruct i as [|i].
  - intros [= ->]. f_equal.
    destruct c as [[] [] [] [] [] [] [] []]; reflexivity.
  - apply IH.
Qed.

Lemma searcher_sanitize_byte (name : string) (i : nat) (c : ascii) :
  String.get i name = Some c ->
  String.get i (searcher.sanitizeFilename name)
  = Some (if problematic c then "_"%char else c).
Proof.
  unfold searcher.sanitizeFilename.
  revert i; induction name as [|a r IH]; intros i; simpl; [discriminate|].
  destruct i as [|i].
  - intros [= ->]. f_equal.
    destruct c as [[] [] [] [] [] [] [] []]; reflexivity.
  - apply IH.
Qed.

Lemma Replace_length (oldnew : list (ascii * ascii)) (s : string) :
  String.length (strings.Replace oldnew s) = String.length s.
Proof. induction s; simpl; congruence. Qed.

(** C8: the copy of sanitizeFilename in package database and the copy in
    package searcher return the same string for every channel name, so
    NewDB and ValidateDatabaseExists form the same path; both copies keep
    the length and map each byte on its own, a problematic byte to "_" and
    any other byte to itself. *)
Theorem sanitizeFilename_copies_agree (name : string) :
  database.sanitizeFilename name = searcher.sanitizeFilename name
  /\ database.dbPath name
     = filepath.Join ["databases"; searcher.sanitizeFilename name +:+ ".db"]
  /\ String.length (database.sanitizeFilename name) = String.length name
  /\ forall (i : nat) (c : ascii),
       String.get i name = Some c ->
       String.get i (database.sanitizeFilename name)
       = Some (if problematic c then "_"%char else c)
       /\ String.get i (searcher.sanitizeFilename name)
          = Some (if problematic c then "_"%char else c).
Proof.
  split; [reflexivity|]. split; [reflexivity|].
  split; [apply Replace_length|].
  intros i c H. split.
  - now apply database_sanitize_byte.
  - now apply searcher_sanitize_byte.
Qed.

(** ** Ingestion: the record filter *)

Lemma unwanted_not_accepted (date : time.Time) (filename : string)
    (rawMsg : indexer.JSON) :
  unwanted rawMsg -> indexer.acceptRecord date filename rawMsg = None.
Proof.
  unfold unwanted, field, indexer.acceptRecord.
  destruct (indexer.Unmarshal_map rawMsg) as [msgMap|]; [|reflexivity].
  destruct (indexer.string_of msgMap "subtype") as [subtype []],
           (indexer.string_of msgMap "user") as [userID []],
           (indexer.string_of msgMap "text") as [text []];
    cbn [andb orb negb];
    intros [H|[H|[(t & H & Ht)|H]]];
    try discriminate H; try reflexivity;
    try (destruct (String.eqb subtype "bot_message"); reflexivity);
    try (injection H as <-; now rewrite String.eqb_refl).
  all: injection H as <-; rewrite Ht;
    destruct (String.eqb subtype "bot_message"); reflexivity.
Qed.

Lemma processRecords_app (d : database.DB) (date : time.Time)
    (filename : string) (before after : list indexer.JSON) :
  indexer.processRecords d date filename (before ++ after)%list
  = match indexer.processRecords d date filename before with
    | (Some err, d') => (Some err, d')
    | (None, d') => indexer.processRecords d' date filename after
    end.
Proof.
  revert d; induction before as [|r before IH]; intros d; simpl;
    [reflexivity|].
  destruct (indexer.acceptRecord date filename r) as [m|]; [|apply IH].
  destruct (database.InsertMessage d m) as [[err|] d']; [reflexivity|apply IH].
Qed.

(** C5: a record without an author identifier, without text, with blank
    text, or tagged bot_message is not turned into a Message, and the file
    that holds it is processed exactly as the file without it: the same
    Store, the same outcome, the records after it handled as before. *)
Theorem unwanted_record_is_skipped (rawMsg : indexer.JSON) :
  unwanted rawMsg ->
  (forall date filename, indexer.acceptRecord date filename rawMsg = None)
  /\ forall idx before after filename,
       indexer.processMessageFile idx
         (indexer.Decoded (before ++ rawMsg :: after)%list) filename
       = indexer.processMessageFile idx
           (indexer.Decoded (before ++ after)%list) filename.
Proof.
  intros H. split.
  - intros date filename. now apply unwanted_not_accepted.
  - intros idx before after filename. unfold indexer.processMessageFile.
    destruct (time.Parse_date _) as [date|]; [|reflexivity].
    rewrite !processRecords_app.
    destruct (indexer.processRecords _ _ _ before) as [[err|] d'];
      [reflexivity|].
    simpl. now rewrite (unwanted_not_accepted _ _ _ H).
Qed.

Lemma unwanted_record_is_skipped_witness :
  unwanted sample.bot
  /\ indexer.acceptRecord (time.Date 2019 8 15) "2019-08-15.json" sample.bot
     = None
  /\ indexer.processMessageFile sample.idx0
       (indexer.Decoded [sample.hello; sample.bot; sample.bye])
       "2019-08-15.json"
     = indexer.processMessageFile sample.idx0
         (indexer.Decoded [sample.hello; sample.bye]) "2019-08-15.json".
Proof.
  assert (H : unwanted sample.bot) by (do 3 right; reflexivity).
  destruct (unwanted_record_is_skipped sample.bot H) as [Hskip Hfile].
  split; [exact H|]. split; [apply Hskip|].
  exact (Hfile sample.idx0 [sample.hello] [sample.bye] "2019-08-15.json").
Defined.

(** ** Ingestion: timestamps *)

Section SplitInverse.
Variable sep : ascii.

Lemma Split_cons (s : string) :
  exists p ps, strings.Split s sep = p :: ps.
Proof.
  destruct s as [|c r]; simpl; [now eexists _, _|].
  destruct (Ascii.eqb c sep); [now eexists _, _|].
  destruct (strings.Split r sep); now eexists _, _.
Qed.

Lemma Join_cons (e p : string) (ps : list string) (sp : string) :
  strings.Join (e :: p :: ps) sp = e +:+ sp +:+ strings.Join (p :: ps) sp.
Proof. reflexivity. Qed.

Lemma Join_Split (s : string) :
  strings.Join (strings.Split s sep) (String sep "") = s.
Proof.
  induction s as [|c r IH]; [reflexivity|].
  cbn [strings.Split].
  destruct (Split_cons r) as (p & ps & E).
  destruct (Ascii.eqb_spec c sep) as [->|_]; rewrite E in *.
  - rewrite Join_cons, IH. reflexivity.
  - destruct ps as [|q ps].
    + cbn in *. now rewrite IH.
    + rewrite Join_cons in IH. rewrite Join_cons, <- IH. reflexivity.
Qed.

Lemma Split_parts (s : string) :
  Forall (fun p => strings.Count p sep = O) (strings.Split s sep).
Proof.
  induction s as [|c r IH]; simpl; [now repeat constructor|].
  destruct (Ascii.eqb_spec c sep) as [->|Hc].
  - now constructor.
  - destruct (strings.Split r sep) as [|p ps]; simpl.
    + repeat constructor. simpl.
      now destruct (Ascii.eqb_spec c sep).
    + inversion IH; subst. constructor; [|assumption]. simpl.
      now destruct (Ascii.eqb_spec c sep).
Qed.
End SplitInverse.

Lemma parseSlackTimestamp_ok (tok : string) (t : time.Time) :
  indexer.parseSlackTimestamp tok = Ok t ->
  exists secs frac seconds,
    tok = secs +:+ "." +:+ frac
    /\ strings.Count secs "." = O /\ strings.Count frac "." = O
    /\ strconv.ParseInt secs = Ok seconds /\ t = time.Unix seconds.
Proof.
  unfold indexer.parseSlackTimestamp.
  pose proof (Join_Split "." tok) as HJ.
  pose proof (Split_parts "." tok) as HP.
  destruct (strings.Split tok ".") as [|a [|b [|c l]]]; try discriminate.
  simpl. destruct (strconv.ParseInt a) as [seconds|] eqn:E; [|discriminate].
  intros [= <-]. exists a, b, seconds.
  inversion HP as [|? ? Ha HP']. inversion HP' as [|? ? Hb _].
  rewrite Join_cons in HJ. cbn [strings.Join] in HJ.
  repeat split; auto.
Qed.

Lemma parseSlackTimestamp_normalized (date : time.Time) (tok : string) :
  normalized date tok
    match indexer.parseSlackTimestamp tok with
    | Ok ts => ts
    | Err _ => date
    end.
Proof.
  destruct (indexer.parseSlackTimestamp tok) as [t|e] eqn:E.
  - left. now apply parseSlackTimestamp_ok.
  - right. split; [|reflexivity].
    intros secs frac seconds -> Hs Hf HP.
    rewrite parseSlackTimestamp_two_parts, HP in E by assumption.
    discriminate.
Qed.

Lemma acceptRecord_message (date : time.Time) (filename : string)
    (rawMsg : indexer.JSON) (m : models.Message.t) :
  indexer.acceptRecord date filename rawMsg = Some m ->
  models.Message.Timestamp m = token rawMsg
  /\ models.Message.Date m
     = match indexer.parseSlackTimestamp (token rawMsg) with
       | Ok ts => ts
       | Err _ => date
       end
  /\ models.Message.Filename m = filename
  /\ field rawMsg "user" = Some (models.Message.UserID m)
  /\ field rawMsg "text" = Some (models.Message.Text m).
Proof.
  unfold indexer.acceptRecord, token, field.
  destruct (indexer.Unmarshal_map rawMsg) as [msgMap|]; [|discriminate].
  destruct (indexer.string_of msgMap "subtype") as [subtype ok].
  destruct (ok && String.eqb subtype "bot_message"); [discriminate|].
  destruct (indexer.string_of msgMap "user") as [userID []],
           (indexer.string_of msgMap "text") as [text []];
    try (cbn; discriminate).
  cbn [negb orb].
  destruct (String.eqb (strings.TrimSpace text) ""); [discriminate|].
  destruct (indexer.string_of msgMap "type") as [msgType ?].
  assert (Hts : forall ts ok',
             indexer.string_of msgMap "ts" = (ts, ok') ->
             (if ok' then Some ts else None) = Some ts \/ ts = "").
  { unfold indexer.string_of. intros ts ok'.
    destruct (msgMap !! "ts") as [[]|]; intros [= <- <-]; auto. }
  destruct (indexer.string_of msgMap "ts") as [timestamp ok'] eqn:E.
  intros [= <-]; cbn.
  assert (Htok : match (if ok' then Some timestamp else None) with
                 | Some ts => ts
                 | None => ""
                 end = timestamp).
  { destruct (Hts _ _ eq_refl) as [->| ->]; [reflexivity|].
    now destruct ok'. }
  rewrite Htok. repeat split.
  destruct (String.eqb_spec timestamp "") as [->|_]; reflexivity.
Qed.

(** ** The Store *)

Lemma call_same_tables (d : database.DB) :
  same_tables d (snd (database.call d)).
Proof.
  unfold database.call, same_tables.
  destruct (database.medium d); simpl; auto.
Qed.

Lemma call_healthy (d : database.DB) :
  healthy d ->
  fst (database.call d) = false /\ healthy (snd (database.call d)).
Proof.
  unfold database.call, healthy.
  destruct (database.medium d) as [|b rest] eqn:E; simpl.
  - rewrite E. auto.
  - intros H. inversion H; subst. auto.
Qed.

Lemma InsertMessage_cases (d : database.DB) (m : models.Message.t) :
  let (err, d') := database.InsertMessage d m in
  (err = Some DriverError /\ same_tables d d')
  \/ (err = None
      /\ exists row,
          stores row m
          /\ database.Row.id row = database.sqlite_sequence d + 1
          /\ database.messages d' = (database.messages d ++ [row])%list
          /\ database.sqlite_sequence d' = database.Row.id row
          /\ database.users d' = database.users d
          /\ database.channels d' = database.channels d
          /\ database.messages_fts d'
             = (database.messages_fts d
                ++ database.messages_fts_insert d row)%list).
Proof.
  unfold database.InsertMessage.
  pose proof (call_same_tables d) as (Hu & Hc & Hm & Hs & Hf).
  destruct (database.call d) as [[] d1]; simpl in *.
  - left. unfold same_tables. repeat split; assumption.
  - right. split; [reflexivity|].
    match goal with
    | |- context [(database.messages d1 ++ [?new])%list] => exists new
    end.
    unfold stores, database.messages_fts_insert. simpl.
    rewrite Hs, Hm, Hf, Hu. repeat split; auto.
Qed.

Lemma InsertMessage_healthy (d : database.DB) (m : models.Message.t) :
  healthy d ->
  fst (database.InsertMessage d m) = None
  /\ healthy (snd (database.InsertMessage d m)).
Proof.
  intros H. unfold database.InsertMessage.
  destruct (call_healthy d H) as [Hc Hh].
  destruct (database.call d) as [failed d1]; simpl in *. subst failed.
  simpl. auto.
Qed.

Lemma processRecords_rows (date : time.Time) (filename : string)
    (records : list indexer.JSON) :
  forall d err d',
    indexer.processRecords d date filename records = (err, d') ->
    exists rows,
      database.messages d' = (database.messages d ++ rows)%list
      /\ Forall
           (fun row =>
              exists rawMsg m,
                In rawMsg records
                /\ indexer.acceptRecord date filename rawMsg = Some m
                /\ stores row m)
           rows.
Proof.
  induction records as [|r records IH]; intros d err d'; simpl.
  - intros [= _ <-]. exists []. now rewrite app_nil_r.
  - destruct (indexer.acceptRecord date filename r) as [m|] eqn:Ha.
    + pose proof (InsertMessage_cases d m) as Hi.
      destruct (database.InsertMessage d m) as [e d1].
      destruct Hi as [[-> (_ & _ & Hm & _)]|[-> (row & Hst & _ & Hm & _)]].
      * intros [= _ <-]. exists []. now rewrite app_nil_r.
      * intros H. destruct (IH _ _ _ H) as (rows & Hrows & Hall).
        exists (row :: rows). split.
        { rewrite Hrows, Hm, <- app_assoc. reflexivity. }
        constructor.
        { exists r, m. split; [now left|auto]. }
        eapply List.Forall_impl; [|exact Hall].
        intros row' (r' & m' & Hin & Hacc & Hst').
        exists r', m'. split; [now right|auto].
    + intros H. destruct (IH _ _ _ H) as (rows & Hrows & Hall).
      exists rows. split; [assumption|].
      eapply List.Forall_impl; [|exact Hall].
      intros row' (r' & m' & Hin & Hacc & Hst').
      exists r', m'. split; [now right|auto].
Qed.

(** C4: every accepted record becomes a Message that carries the source
    timestamp token as it stands in the record, and whose calendar
    timestamp is [time.Unix] of the seconds when the token is integer
    seconds, a dot and a fraction, and the date of the file name otherwise;
    the rows a batch file adds to the Store are rows of such Messages. *)
Theorem timestamp_normalization (filename : string) (date : time.Time) :
  time.Parse_date (strings.TrimSuffix filename ".json") = Ok date ->
  (forall rawMsg m,
      indexer.acceptRecord date filename rawMsg = Some m ->
      models.Message.Timestamp m = token rawMsg
      /\ normalized date (token rawMsg) (models.Message.Date m))
  /\ forall idx records err idx',
       indexer.processMessageFile idx (indexer.Decoded records) filename
       = (err, idx') ->
       exists rows,
         database.messages (indexer.db idx')
         = (database.messages (indexer.db idx) ++ rows)%list
         /\ Forall
              (fun row =>
                 exists rawMsg,
                   In rawMsg records
                   /\ database.Row.timestamp row = token rawMsg
                   /\ normalized date (token rawMsg) (database.Row.date row))
              rows.
Proof.
  intros Hdate.
  assert (Hrec : forall rawMsg m,
             indexer.acceptRecord date filename rawMsg = Some m ->
             models.Message.Timestamp m = token rawMsg
             /\ normalized date (token rawMsg) (models.Message.Date m)).
  { intros rawMsg m H.
    destruct (acceptRecord_message _ _ _ _ H) as (Ht & Hd & _).
    split; [exact Ht|]. rewrite Hd. apply parseSlackTimestamp_normalized. }
  split; [exact Hrec|].
  intros idx records err idx'. unfold indexer.processMessageFile.
  rewrite Hdate.
  destruct (indexer.processRecords _ _ _ _) as [e d] eqn:E.
  intros [= <- <-]. simpl.
  destruct (processRecords_rows _ _ _ _ _ _ E) as (rows & Hrows & Hall).
  exists rows. split; [exact Hrows|].
  eapply List.Forall_impl; [|exact Hall].
  intros row (r & m & Hin & Hacc & Hst).
  destruct (Hrec _ _ Hacc) as [Ht Hn].
  destruct Hst as (_ & _ & _ & _ & Hts & Hd & _).
  exists r. rewrite Hts, Hd. auto.
Qed.

Lemma timestamp_normalization_witness :
  (exists m,
      indexer.acceptRecord (time.Date 2019 8 15) "2019-08-15.json"
        sample.undated = Some m
      /\ models.Message.Timestamp m = "yesterday"
      /\ normalized (time.Date 2019 8 15) "yesterday" (models.Message.Date m))
  /\ exists rows,
       database.messages
         (indexer.db
            (snd (indexer.processMessageFile sample.idx0
                    (indexer.Decoded [sample.hello; sample.undated])
                    "2019-08-15.json")))
       = rows
       /\ Forall
            (fun row =>
               exists rawMsg,
                 In rawMsg [sample.hello; sample.undated]
                 /\ database.Row.timestamp row = token rawMsg
                 /\ normalized (time.Date 2019 8 15) (token rawMsg)
                      (database.Row.date row))
            rows.
Proof.
  destruct (timestamp_normalization "2019-08-15.json" (time.Date 2019 8 15)
              eq_refl) as [Hrec Hfile].
  split.
  - eexists. split; [reflexivity|].
    exact (Hrec sample.undated _ eq_refl).
  - destruct (Hfile sample.idx0 [sample.hello; sample.undated] _ _ eq_refl)
      as (rows & Hrows & Hall).
    exists rows. split; [exact Hrows|exact Hall].
Defined.

(** ** The full-text entry of a message *)

Lemma InsertMessage_known_author (d : database.DB) (m : models.Message.t)
    (u : models.User.t) (d' : database.DB) :
  database.users d !! models.Message.UserID m = Some u ->
  database.InsertMessage d m = (None, d') ->
  exists row,
    database.messages d' = (database.messages d ++ [row])%list
    /\ stores row m
    /\ database.messages_fts d'
       = (database.messages_fts d
          ++ [ {| database.Fts.rowid := database.Row.id row;
                  database.Fts.text := models.Message.Text m;
                  database.Fts.user_name := models.User.Name u;
                  database.Fts.user_real_name := models.User.RealName u;
                  database.Fts.filename := models.Message.Filename m |} ])%list.
Proof.
  intros Hu E. pose proof (InsertMessage_cases d m) as H. rewrite E in H.
  destruct H as [[? _]|[_ (row & Hst & _ & Hm & _ & _ & _ & Hf)]];
    [discriminate|].
  exists row. split; [exact Hm|]. split; [exact Hst|].
  rewrite Hf. unfold database.messages_fts_insert.
  destruct Hst as (Hid & Ht & _ & _ & _ & _ & Hfn).
  now rewrite Hid, Hu, Ht, Hfn.
Qed.

Lemma InsertMessage_unknown_author (d : database.DB) (m : models.Message.t)
    (d' : database.DB) :
  database.users d !! models.Message.UserID m = None ->
  database.InsertMessage d m = (None, d') ->
  (exists row,
      database.messages d' = (database.messages d ++ [row])%list
      /\ stores row m)
  /\ database.messages_fts d' = database.messages_fts d.
Proof.
  intros Hu E. pose proof (InsertMessage_cases d m) as H. rewrite E in H.
  destruct H as [[? _]|[_ (row & Hst & _ & Hm & _ & _ & _ & Hf)]];
    [discriminate|].
  split; [now exists row|].
  rewrite Hf. unfold database.messages_fts_insert.
  destruct Hst as (Hid & _). rewrite Hid, Hu. apply app_nil_r.
Qed.

(** C1, at a message whose author is not among the users: the append
    succeeds and the row is in [messages], but the trigger's SELECT over
    [users] yields no row, so no full-text entry is made for the message
    and a later search cannot return it.  The same shows after the sample
    export is ingested: users.json has U1 only, the two day files have a
    message of U1 and one of U2, and the Store ends with two messages and
    the one full-text entry of the first. *)
Theorem unknown_author_gets_no_fulltext_entry :
  database.users database.empty
    !! models.Message.UserID sample.orphan = None
  /\ map database.Row.user_id (database.messages sample.ingested)
     = ["U1"; "U2"]
  /\ map database.Fts.rowid (database.messages_fts sample.ingested) = [1]
  /\ forall fts_match snippet,
       let (err, d) := database.InsertMessage database.empty sample.orphan in
       err = None
       /\ map database.Row.user_id (database.messages d) = ["U404"]
       /\ map database.Row.id (database.messages d) = [1]
       /\ database.messages_fts d = []
       /\ forall query limit results d',
            database.SearchMessages fts_match snippet d query limit
            = (Ok results, d') ->
            results = [].
Proof.
  split; [reflexivity|]. split; [reflexivity|]. split; [reflexivity|].
  intros fts_match snippet. cbn.
  repeat split.
  intros query limit results d'. unfold database.SearchMessages. cbn.
  destruct (fts_match query); [|discriminate].
  intros [= <- _]. unfold database.LIMIT.
  now destruct (limit <? 0); [|destruct (Z.to_nat limit)].
Qed.

(** ** Upserts *)

Section Upsert.
Context {A : Type} (key : A -> string).

Lemma lookup_upserted (l : list A) :
  forall (m : gmap string A) (id : string),
    upserted key l m !! id = after_ingestion key l m id.
Proof.
  unfold upserted, after_ingestion.
  induction l as [|a rest IH]; intros m id; simpl; [reflexivity|].
  rewrite IH. destruct (latest key id rest); [reflexivity|].
  destruct (String.eqb_spec (key a) id) as [->|Hne].
  - apply lookup_insert_eq.
  - now apply lookup_insert_ne.
Qed.

Lemma upserted_twice (l : list A) (m : gmap string A) :
  upserted key l (upserted key l m) = upserted key l m.
Proof.
  apply map_eq. intros id.
  rewrite (lookup_upserted l (upserted key l m)). unfold after_ingestion.
  destruct (latest key id l) as [a|] eqn:E; [|reflexivity].
  rewrite lookup_upserted. unfold after_ingestion. now rewrite E.
Qed.
End Upsert.

Lemma insertUsers_healthy (usersJSON : list models.UserJSON.t) :
  forall d, healthy d ->
    exists d',
      indexer.insertUsers d usersJSON = (None, d')
      /\ healthy d'
      /\ database.users d'
         = upserted models.User.ID (map indexer.toUser usersJSON)
             (database.users d)
      /\ database.channels d' = database.channels d
      /\ database.messages d' = database.messages d
      /\ database.messages_fts d' = database.messages_fts d.
Proof.
  induction usersJSON as [|u rest IH]; intros d Hd; simpl.
  - exists d. repeat split; auto.
  - unfold database.InsertUser.
    destruct (call_healthy d Hd) as [Hc Hh].
    pose proof (call_same_tables d) as (Hu & Hch & Hm & _ & Hf).
    destruct (database.call d) as [failed d1]; simpl in *. subst failed.
    match goal with
    | |- context [indexer.insertUsers ?d2 rest] =>
        destruct (IH d2 Hh) as (d' & E & Hh' & Hu' & Hc' & Hm' & Hf')
    end.
    exists d'. split; [exact E|]. simpl in *.
    rewrite Hu', Hc', Hm', Hf', Hu. repeat split; auto.
Qed.

Lemma insertChannels_healthy (channels : list models.Channel.t) :
  forall d, healthy d ->
    exists d',
      indexer.insertChannels d channels = (None, d')
      /\ healthy d'
      /\ database.channels d'
         = upserted models.Channel.ID channels (database.channels d)
      /\ database.users d' = database.users d
      /\ database.messages d' = database.messages d
      /\ database.messages_fts d' = database.messages_fts d.
Proof.
  induction channels as [|c rest IH]; intros d Hd; simpl.
  - exists d. repeat split; auto.
  - unfold database.InsertChannel.
    destruct (call_healthy d Hd) as [Hc Hh].
    pose proof (call_same_tables d) as (Hu & Hch & Hm & _ & Hf).
    destruct (database.call d) as [failed d1]; simpl in *. subst failed.
    match goal with
    | |- context [indexer.insertChannels ?d2 rest] =>
        destruct (IH d2 Hh) as (d' & E & Hh' & Hc' & Hu' & Hm' & Hf')
    end.
    exists d'. split; [exact E|]. simpl in *.
    rewrite Hu', Hc', Hm', Hf', Hch. repeat split; auto.
Qed.

Lemma InsertUser_replaces (d : database.DB) (u : models.User.t) :
  healthy d ->
  exists d',
    database.InsertUser d u = (None, d')
    /\ database.users d' = <[models.User.ID u := u]> (database.users d)
    /\ database.users d' !! models.User.ID u = Some u
    /\ (is_Some (database.users d !! models.User.ID u) ->
        database.count_users d' = database.count_users d).
Proof.
  intros Hd. unfold database.InsertUser, database.count_users.
  destruct (call_healthy d Hd) as [Hc _].
  pose proof (call_same_tables d) as (Hu & _).
  destruct (database.call d) as [failed d1]; simpl in *. subst failed.
  eexists. split; [reflexivity|]. simpl. rewrite Hu.
  split; [reflexivity|]. split; [apply lookup_insert_eq|].
  intros [v Hv]. f_equal. now apply map_size_insert_Some.
Qed.

Lemma InsertChannel_replaces (d : database.DB) (c : models.Channel.t) :
  healthy d ->
  exists d',
    database.InsertChannel d c = (None, d')
    /\ database.channels d'
       = <[models.Channel.ID c := c]> (database.channels d)
    /\ database.channels d' !! models.Channel.ID c = Some c
    /\ (is_Some (database.channels d !! models.Channel.ID c) ->
        database.count_channels d' = database.count_channels d).
Proof.
  intros Hd. unfold database.InsertChannel, database.count_channels.
  destruct (call_healthy d Hd) as [Hc _].
  pose proof (call_same_tables d) as (_ & Hch & _).
  destruct (database.call d) as [failed d1]; simpl in *. subst failed.
  eexists. split; [reflexivity|]. simpl. rewrite Hch.
  split; [reflexivity|]. split; [apply lookup_insert_eq|].
  intros [v Hv]. f_equal. now apply map_size_insert_Some.
Qed.

(** C6: on a Store whose medium does not fail, an upsert of a User or a
    Channel whose identifier is already there succeeds, replaces the record
    and leaves the count as it was; and loading the same users.json, or the
    same channels.json, a second time succeeds and leaves the table, hence
    the count and every field, as the first load left them: at each
    identifier of the file, the last record the file has for it. *)
Theorem upsert_is_idempotent (idx : indexer.Indexer)
    (usersJSON : list models.UserJSON.t) (channels : list models.Channel.t) :
  healthy (indexer.db idx) ->
  (forall u, exists d',
      database.InsertUser (indexer.db idx) u = (None, d')
      /\ database.users d' !! models.User.ID u = Some u
      /\ (is_Some (database.users (indexer.db idx) !! models.User.ID u) ->
          database.count_users d' = database.count_users (indexer.db idx)))
  /\ (forall c, exists d',
         database.InsertChannel (indexer.db idx) c = (None, d')
         /\ database.channels d' !! models.Channel.ID c = Some c
         /\ (is_Some (database.channels (indexer.db idx)
                        !! models.Channel.ID c) ->
             database.count_channels d'
             = database.count_channels (indexer.db idx)))
  /\ exists idx1 idx2 idx3 idx4,
      indexer.loadUsers idx (indexer.Decoded usersJSON) = (None, idx1)
      /\ indexer.loadUsers idx1 (indexer.Decoded usersJSON) = (None, idx2)
      /\ indexer.loadChannels idx2 (indexer.Decoded channels) = (None, idx3)
      /\ indexer.loadChannels idx3 (indexer.Decoded channels) = (None, idx4)
      /\ database.users (indexer.db idx2) = database.users (indexer.db idx1)
      /\ database.count_users (indexer.db idx2)
         = database.count_users (indexer.db idx1)
      /\ (forall id,
             database.users (indexer.db idx2) !! id
             = after_ingestion models.User.ID (map indexer.toUser usersJSON)
                 (database.users (indexer.db idx)) id)
      /\ database.channels (indexer.db idx4)
         = database.channels (indexer.db idx3)
      /\ database.count_channels (indexer.db idx4)
         = database.count_channels (indexer.db idx3)
      /\ (forall id,
             database.channels (indexer.db idx4) !! id
             = after_ingestion models.Channel.ID channels
                 (database.channels (indexer.db idx)) id).
Proof.
  intros Hd. split; [|split].
  - intros u. destruct (InsertUser_replaces _ u Hd) as (d' & E & _ & Hl & Hs).
    now exists d'.
  - intros c.
    destruct (InsertChannel_replaces _ c Hd) as (d' & E & _ & Hl & Hs).
    now exists d'.
  - unfold indexer.loadUsers, indexer.loadChannels. simpl.
    destruct (insertUsers_healthy usersJSON _ Hd)
      as (d1 & E1 & H1 & Hu1 & Hc1 & _).
    destruct (insertUsers_healthy usersJSON _ H1)
      as (d2 & E2 & H2 & Hu2 & Hc2 & _).
    destruct (insertChannels_healthy channels _ H2)
      as (d3 & E3 & H3 & Hc3 & _).
    destruct (insertChannels_healthy channels _ H3)
      as (d4 & E4 & H4 & Hc4 & _).
    rewrite E1. eexists. eexists. eexists. eexists.
    split; [reflexivity|]. simpl. rewrite E2.
    split; [reflexivity|]. simpl. rewrite E3.
    split; [reflexivity|]. simpl. rewrite E4.
    split; [reflexivity|]. simpl.
    assert (Ed : database.users d2 = database.users d1).
    { rewrite Hu2, Hu1. apply upserted_twice. }
    assert (Ec : database.channels d4 = database.channels d3).
    { rewrite Hc4, Hc3. apply upserted_twice. }
    unfold database.count_users, database.count_channels.
    rewrite Ed, Ec. repeat split.
    + intros id. rewrite Hu1. apply lookup_upserted.
    + intros id. rewrite Hc3, Hc2, Hc1. apply lookup_upserted.
Qed.

Lemma upsert_is_idempotent_witness :
  healthy (indexer.db sample.idx0)
  /\ exists idx1 idx2,
      indexer.loadUsers sample.idx0
        (indexer.Decoded [sample.alice; sample.deploybot;
                          sample.alice_renamed]) = (None, idx1)
      /\ indexer.loadUsers idx1
           (indexer.Decoded [sample.alice; sample.deploybot;
                             sample.alice_renamed]) = (None, idx2)
      /\ database.users (indexer.db idx2) = database.users (indexer.db idx1)
      /\ database.count_users (indexer.db idx2)
         = database.count_users (indexer.db idx1)
      /\ database.users (indexer.db idx2) !! "U1"
         = Some (indexer.toUser sample.alice_renamed).
Proof.
  assert (H : healthy (indexer.db sample.idx0)) by constructor.
  split; [exact H|].
  destruct (upsert_is_idempotent sample.idx0
              [sample.alice; sample.deploybot; sample.alice_renamed]
              [sample.sig_auth] H)
    as (_ & _ & idx1 & idx2 & _ & _ & E1 & E2 & _ & _ & Hu & Hn & Hl & _).
  exists idx1, idx2. repeat split; try assumption.
  rewrite Hl. reflexivity.
Defined.

(** ** Ingestion: a failed Store write *)

Lemma countFiles_no_walk_error (entries : list indexer.WalkEntry) :
  Forall (fun e => indexer.walk_err e = None) entries ->
  forall idx, fst (indexer.countFiles idx entries) = None.
Proof.
  induction 1 as [|e rest He _ IH]; intros idx; simpl; [reflexivity|].
  rewrite He. destruct (_ && _); apply IH.
Qed.

Lemma processEntries_no_walk_error (entries : list indexer.WalkEntry) :
  Forall (fun e => indexer.walk_err e = None) entries ->
  forall idx, fst (indexer.processEntries idx entries) = None.
Proof.
  induction 1 as [|e rest He _ IH]; intros idx; simpl; [reflexivity|].
  rewrite He. destruct (_ || _); [apply IH|].
  destruct (indexer.processMessageFile _ _ _) as [[err|] idx']; [apply IH|].
  cbv zeta. destruct (_ =? 0); apply IH.
Qed.

(** Only an error of the walk itself makes processMessageFiles fail. *)
Lemma processMessageFiles_no_walk_error (idx : indexer.Indexer)
    (channelDir : list indexer.WalkEntry) :
  Forall (fun e => indexer.walk_err e = None) channelDir ->
  fst (indexer.processMessageFiles idx channelDir) = None.
Proof.
  intros H. unfold indexer.processMessageFiles.
  pose proof (countFiles_no_walk_error _ H idx) as Hc.
  destruct (indexer.countFiles idx channelDir) as [[err|] idx'];
    [discriminate|].
  now apply processEntries_no_walk_error.
Qed.

(** C2, as the code has it: when the Store write of a message fails, the
    rest of that batch file is given up and the failure comes back from
    processMessageFile; processMessageFiles prints it as a warning, does
    not count the file as processed, and goes on with the entries that
    follow; whatever the medium does, processMessageFiles returns an error
    only for an error of the directory walk. *)
Theorem store_write_error_skips_the_file (idx : indexer.Indexer)
    (e : indexer.WalkEntry) (rest : list indexer.WalkEntry)
    (before after : list indexer.JSON) (rawMsg : indexer.JSON)
    (date : time.Time) (m : models.Message.t) (d1 d2 : database.DB)
    (err : error) :
  indexer.walk_err e = None ->
  indexer.IsDir e = false ->
  strings.HasSuffix (indexer.path e) ".json" = true ->
  indexer.content e = indexer.Decoded (before ++ rawMsg :: after)%list ->
  time.Parse_date
    (strings.TrimSuffix (filepath.Base (indexer.path e)) ".json") = Ok date ->
  indexer.processRecords (indexer.db idx) date
    (filepath.Base (indexer.path e)) before = (None, d1) ->
  indexer.acceptRecord date (filepath.Base (indexer.path e)) rawMsg
  = Some m ->
  database.InsertMessage d1 m = (Some err, d2) ->
  indexer.processMessageFile idx (indexer.content e)
    (filepath.Base (indexer.path e))
  = (Some (Wrap "failed to insert message" err), indexer.with_db idx d2)
  /\ same_tables d1 d2
  /\ indexer.processEntries idx (e :: rest)
     = indexer.processEntries
         (indexer.print (indexer.with_db idx d2)
            (warning (filepath.Base (indexer.path e))
                     (Wrap "failed to insert message" err)))
         rest
  /\ forall channelDir,
       Forall (fun e => indexer.walk_err e = None) channelDir ->
       fst (indexer.processMessageFiles idx channelDir) = None.
Proof.
  intros Hw Hd Hs Hc Hdate Hbefore Hacc Hins.
  assert (Hfile :
    indexer.processMessageFile idx (indexer.content e)
      (filepath.Base (indexer.path e))
    = (Some (Wrap "failed to insert message" err), indexer.with_db idx d2)).
  { unfold indexer.processMessageFile. rewrite Hc, Hdate.
    rewrite processRecords_app, Hbefore. simpl. now rewrite Hacc, Hins. }
  split; [exact Hfile|]. split; [|split].
  - pose proof (InsertMessage_cases d1 m) as H. rewrite Hins in H.
    destruct H as [[_ H]|[H _]]; [exact H|discriminate].
  - simpl. rewrite Hw, Hd, Hs, Hfile. reflexivity.
  - intros channelDir. apply processMessageFiles_no_walk_error.
Qed.

(** C2 fails as stated: the write of the one message of 2019-08-15.json
    fails, and still IndexChannel returns no error, the file of the next
    day is processed and its message is in the Store. *)
Lemma store_write_error_does_not_abort_ingestion :
  let (err, idx) := indexer.IndexChannel sample.idx_failing sample.export in
  err = None
  /\ In (warning "2019-08-15.json"
                 (Wrap "failed to insert message" DriverError))
        (indexer.stdout idx)
  /\ map database.Row.text (database.messages (indexer.db idx)) = ["thanks"]
  /\ map database.Row.filename (database.messages (indexer.db idx))
     = ["2019-08-16.json"]
  /\ indexer.processedFiles idx = 1.
Proof.
  vm_compute. repeat split.
  do 4 right. left. reflexivity.
Qed.

Lemma store_write_error_skips_the_file_witness :
  indexer.processMessageFile sample.idx_write_fails
    (indexer.content sample.day1) "2019-08-15.json"
  = (Some (Wrap "failed to insert message" DriverError),
     indexer.with_db sample.idx_write_fails (sample.failing_db []))
  /\ indexer.processEntries sample.idx_write_fails [sample.day1; sample.day2]
     = indexer.processEntries
         (indexer.print
            (indexer.with_db sample.idx_write_fails (sample.failing_db []))
            (warning "2019-08-15.json"
                     (Wrap "failed to insert message" DriverError)))
         [sample.day2]
  /\ fst (indexer.processMessageFiles sample.idx_write_fails
            [sample.day1; sample.day2]) = None.
Proof.
  destruct (store_write_error_skips_the_file sample.idx_write_fails
              sample.day1 [sample.day2] [] [] sample.hello
              (time.Date 2019 8 15) _ _ _ DriverError
              eq_refl eq_refl eq_refl eq_refl eq_refl eq_refl eq_refl eq_refl)
    as (Hfile & _ & Hwalk & Hall).
  split; [exact Hfile|]. split; [exact Hwalk|].
  apply Hall. repeat constructor.
Defined.

(** ** Search *)

Lemma LIMIT_length {A : Type} (n : Z) (rows : list A) :
  0 <= n -> Z.of_nat (length (database.LIMIT n rows)) <= n.
Proof.
  intros Hn. unfold database.LIMIT.
  destruct (Z.ltb_spec n 0) as [?|_]; [lia|].
  rewrite length_firstn. lia.
Qed.

Lemma matching_rows_none (snippet : string -> database.Fts.t -> string)
    (d : database.DB) (query : string) (p : database.Fts.t -> bool) :
  (forall row, In row (database.messages_fts d) -> p row = false) ->
  database.matching_rows snippet d query p = [].
Proof.
  unfold database.matching_rows.
  induction (database.messages_fts d) as [|row rows IH]; intros H; simpl;
    [reflexivity|].
  rewrite (H row) by now left. simpl. apply IH.
  intros row' Hin. apply H. now right.
Qed.

(** C7: Search hands a limit of 10 to SearchMessages when the limit it is
    given is zero or negative, and the limit itself otherwise; a search
    that succeeds returns at most that many results; and a query the engine
    accepts and no full-text entry matches returns the empty sequence and
    no error, when the medium answers the call. *)
Theorem search_limit_and_empty_result
    (fts_match : string -> option (database.Fts.t -> bool))
    (snippet : string -> database.Fts.t -> string)
    (d : database.DB) (query : string) (limit : Z) :
  let n := if limit <=? 0 then 10 else limit in
  searcher.Search fts_match snippet d query limit
  = database.SearchMessages fts_match snippet d query n
  /\ (limit <= 0 -> n = 10)
  /\ (0 < limit -> n = limit)
  /\ (forall results d',
         searcher.Search fts_match snippet d query limit = (Ok results, d') ->
         Z.of_nat (length results) <= n)
  /\ (forall p,
         fst (database.call d) = false ->
         fts_match query = Some p ->
         (forall row, In row (database.messages_fts d) -> p row = false) ->
         fst (searcher.Search fts_match snippet d query limit) = Ok []).
Proof.
  intros n. split; [reflexivity|].
  assert (Hpos : 0 < n).
  { subst n. destruct (Z.leb_spec limit 0); lia. }
  split; [|split; [|split]].
  - intros H. subst n. destruct (Z.leb_spec limit 0); [reflexivity|lia].
  - intros H. subst n. destruct (Z.leb_spec limit 0); [lia|reflexivity].
  - intros results d'. unfold searcher.Search. fold n.
    unfold database.SearchMessages.
    destruct (database.call d) as [[] d1]; [discriminate|].
    destruct (fts_match query) as [p|]; [|discriminate].
    intros [= <- _]. apply LIMIT_length. lia.
  - intros p Hcall Hq Hnone. unfold searcher.Search. fold n.
    unfold database.SearchMessages.
    pose proof (call_same_tables d) as (_ & _ & _ & _ & Hf).
    destruct (database.call d) as [failed d1]; simpl in *. subst failed.
    rewrite Hq. simpl. rewrite matching_rows_none.
    + unfold database.LIMIT. destruct (n <? 0); [reflexivity|].
      now destruct (Z.to_nat n).
    + rewrite Hf. exact Hnone.
Qed.

Lemma search_limit_and_empty_result_witness :
  (exists results,
      fst (searcher.Search sample.fts_match sample.snippet sample.ingested
             "certs" (-3)) = Ok results
      /\ length results = 1%nat
      /\ Z.of_nat (length results) <= 10)
  /\ fst (searcher.Search sample.fts_match sample.snippet sample.ingested
            "kubelet" 0) = Ok [].
Proof.
  split.
  - destruct (searcher.Search sample.fts_match sample.snippet
                sample.ingested "certs" (-3)) as [r d'] eqn:E.
    destruct r as [results|e]; [|vm_compute in E; discriminate].
    exists results. split; [reflexivity|]. split.
    + vm_compute in E. injection E as <- _. reflexivity.
    + destruct (search_limit_and_empty_result sample.fts_match sample.snippet
                  sample.ingested "certs" (-3)) as (_ & _ & _ & Hlen & _).
      exact (Hlen results d' E).
  - destruct (search_limit_and_empty_result sample.fts_match sample.snippet
                sample.ingested "kubelet" 0) as (_ & _ & _ & _ & Hnone).
    apply (Hnone (fun row => sample.contains "kubelet" (database.Fts.text row)));
      [reflexivity|reflexivity|].
    intros row Hin. vm_compute in Hin.
    destruct Hin as [<-|[]]; reflexivity.
Defined.

(** ** Thread classification *)

Section ThreadFacts.
Variable Store : Type.
Variable GetThreadMessages :
  Store -> string -> result (list models.Message.t) * Store.

Lemma threadTS_cases (result : models.SearchResult.t) :
  let m := models.SearchResult.Message result in
  (models.Message.ThreadTS m <> "" ->
   searcher.threadTS result = models.Message.ThreadTS m)
  /\ (models.Message.ThreadTS m = "" -> 0 < models.Message.ReplyCount m ->
      searcher.threadTS result = models.Message.Timestamp m)
  /\ (models.Message.ThreadTS m = "" -> models.Message.ReplyCount m <= 0 ->
      searcher.threadTS result = "").
Proof.
  unfold searcher.threadTS. cbv zeta.
  destruct (String.eqb_spec
              (models.Message.ThreadTS (models.SearchResult.Message result))
              "") as [E|E]; simpl.
  - repeat split; intros; try congruence.
    + destruct (Z.ltb_spec 0
                  (models.Message.ReplyCount
                     (models.SearchResult.Message result))); [reflexivity|lia].
    + destruct (Z.ltb_spec 0
                  (models.Message.ReplyCount
                     (models.SearchResult.Message result))); [lia|reflexivity].
  - repeat split; intros; congruence.
Qed.

Lemma threadContext_threaded (s : Store) (result : models.SearchResult.t) :
  searcher.ThreadedSearchResult.IsThreaded
    (fst (searcher.threadContext Store GetThreadMessages s result)) = true
  <-> searcher.threadTS result <> ""
      /\ exists ms,
          fst (GetThreadMessages s (searcher.threadTS result)) = Ok ms
          /\ (1 < length ms)%nat.
Proof.
  unfold searcher.threadContext. cbv zeta.
  destruct (String.eqb_spec (searcher.threadTS result) "") as [E|E]; simpl.
  - split; [discriminate|]. intros [H _]. congruence.
  - destruct (GetThreadMessages s (searcher.threadTS result)) as [[ms|e] s'];
      simpl.
    + destruct (Nat.ltb_spec 1 (length ms)); simpl.
      * split; [|reflexivity]. intros _. split; [exact E|]. now exists ms.
      * split; [discriminate|]. intros [_ (ms' & [= <-] & H')]. lia.
    + split; [discriminate|]. intros [_ (ms' & H' & _)]. discriminate.
Qed.

Lemma threadContext_no_root (s : Store) (result : models.SearchResult.t) :
  searcher.threadTS result = "" ->
  searcher.threadContext Store GetThreadMessages s result
  = ({| searcher.ThreadedSearchResult.OriginalResult := result;
        searcher.ThreadedSearchResult.ThreadMessages := [];
        searcher.ThreadedSearchResult.IsThreaded := false |}, s).
Proof.
  intros E. unfold searcher.threadContext. cbv zeta. rewrite E. reflexivity.
Qed.

Lemma threadContext_messages (s : Store) (result : models.SearchResult.t) :
  searcher.ThreadedSearchResult.IsThreaded
    (fst (searcher.threadContext Store GetThreadMessages s result)) = true ->
  fst (GetThreadMessages s (searcher.threadTS result))
  = Ok (searcher.ThreadedSearchResult.ThreadMessages
          (fst (searcher.threadContext Store GetThreadMessages s result))).
Proof.
  unfold searcher.threadContext. cbv zeta.
  destruct (String.eqb (searcher.threadTS result) ""); simpl;
    [discriminate|].
  destruct (GetThreadMessages s (searcher.threadTS result)) as [[ms|e] s'];
    simpl; [|discriminate].
  destruct (1 <? length ms)%nat; simpl; [reflexivity|discriminate].
Qed.
End ThreadFacts.

Lemma fetch_made_root (Store : Type)
    (GetThreadMessages :
       Store -> string -> result (list models.Message.t) * Store)
    (s : Store) (r : models.SearchResult.t) :
  (searcher.threadTS r <> "" ->
   fetch_made Store GetThreadMessages s r
   = Some (fst (GetThreadMessages s (searcher.threadTS r))))
  /\ (searcher.threadTS r = "" ->
      fetch_made Store GetThreadMessages s r = None).
Proof.
  unfold fetch_made.
  destruct (String.eqb_spec (searcher.threadTS r) "") as [E|E]; simpl;
    split; intros; congruence.
Qed.

(** C3: for every search result the thread root is the thread-root token
    when that is not empty, else the result's own timestamp token when the
    reply count is positive, else the result is not threaded.  A result
    with an empty thread-root token and a reply count of zero is not marked
    threaded; a result whose fetch fails, or gives one message or none, is
    not marked threaded; and a result is marked threaded exactly when the
    fetch the loop makes for it succeeds with more than one message, which
    then are its thread messages.  The fetch is made for the thread root
    whenever that token is not empty. *)
Theorem thread_classification (Store : Type)
    (GetThreadMessages :
       Store -> string -> result (list models.Message.t) * Store)
    (s : Store) (result : models.SearchResult.t) :
  let m := models.SearchResult.Message result in
  let root := searcher.threadTS result in
  let context :=
    fst (searcher.threadContext Store GetThreadMessages s result) in
  let threaded := searcher.ThreadedSearchResult.IsThreaded context in
  let fetch := fetch_made Store GetThreadMessages s result in
  (models.Message.ThreadTS m <> "" -> root = models.Message.ThreadTS m)
  /\ (models.Message.ThreadTS m = "" -> 0 < models.Message.ReplyCount m ->
      root = models.Message.Timestamp m)
  /\ (models.Message.ThreadTS m = "" -> models.Message.ReplyCount m <= 0 ->
      root = "" /\ fetch = None /\ threaded = false)
  /\ (root <> "" -> fetch = Some (fst (GetThreadMessages s root)))
  /\ (root = "" ->
      fetch = None /\ threaded = false
      /\ snd (searcher.threadContext Store GetThreadMessages s result) = s)
  /\ (forall e, fetch = Some (Err e) -> threaded = false)
  /\ (forall ms,
         fetch = Some (Ok ms) -> (length ms <= 1)%nat -> threaded = false)
  /\ (threaded = true
      <-> exists ms, fetch = Some (Ok ms) /\ (1 < length ms)%nat)
  /\ (threaded = true ->
      fetch = Some (Ok (searcher.ThreadedSearchResult.ThreadMessages context))).
Proof.
  intros m root context threaded fetch.
  destruct (threadTS_cases result) as (H1 & H2 & H3).
  destruct (fetch_made_root Store GetThreadMessages s result) as [Hf1 Hf0].
  pose proof (threadContext_threaded Store GetThreadMessages s result) as Hiff.
  fold root in Hf1, Hf0. fold fetch in Hf1, Hf0.
  fold root context threaded in Hiff.
  assert (Hiff' : threaded = true
                  <-> exists ms, fetch = Some (Ok ms) /\ (1 < length ms)%nat).
  { rewrite Hiff. split.
    - intros (Hr & ms & Hms & Hlen). exists ms.
      rewrite (Hf1 Hr), Hms. auto.
    - intros (ms & Hms & Hlen).
      destruct (String.eqb_spec root "") as [E|E].
      + rewrite (Hf0 E) in Hms. discriminate.
      + split; [exact E|]. exists ms. rewrite (Hf1 E) in Hms.
        injection Hms as Hms. auto. }
  assert (Hno : root = "" ->
                fetch = None /\ threaded = false
                /\ snd (searcher.threadContext Store GetThreadMessages s result)
                   = s).
  { intros Hroot. split; [now apply Hf0|].
    subst threaded context.
    rewrite threadContext_no_root by exact Hroot. now split. }
  split; [exact H1|]. split; [exact H2|]. split.
  { intros Ht Hr. pose proof (H3 Ht Hr) as Hroot.
    destruct (Hno Hroot) as (Hn & Hth & _). auto. }
  split; [exact Hf1|]. split; [exact Hno|]. split; [|split; [|split]].
  - intros e He. destruct threaded eqn:Et; [|reflexivity].
    destruct (proj1 Hiff' eq_refl) as (ms & Hms & _). congruence.
  - intros ms Hms Hlen. destruct threaded eqn:Et; [|reflexivity].
    destruct (proj1 Hiff' eq_refl) as (ms' & Hms' & Hlen').
    rewrite Hms in Hms'. injection Hms' as <-. lia.
  - exact Hiff'.
  - intros Ht. destruct (proj1 Hiff Ht) as (Hr & _).
    rewrite (Hf1 Hr). f_equal.
    apply (threadContext_messages Store GetThreadMessages s result Ht).
Qed.

Lemma thread_classification_witness :
  let parent := sample.hit (sample.message "10.000100" "" "how" 10 2) in
  let reply :=
    sample.hit (sample.message "20.000200" "10.000100" "first reply" 20 0) in
  let single := sample.hit (sample.message "40.000400" "" "unrelated" 40 0) in
  searcher.threadTS parent = "10.000100"
  /\ searcher.threadTS reply = "10.000100"
  /\ searcher.ThreadedSearchResult.IsThreaded
       (fst (searcher.threadContext _ GetThreadMessages
               sample.thread_store reply)) = true
  /\ map models.Message.Text
       (searcher.ThreadedSearchResult.ThreadMessages
          (fst (searcher.threadContext _ GetThreadMessages
                  sample.thread_store reply)))
     = ["how do I rotate certs"; "first reply"; "second reply"]
  /\ searcher.ThreadedSearchResult.IsThreaded
       (fst (searcher.threadContext _ GetThreadMessages
               sample.thread_store single)) = false.
Proof.
  intros parent reply single.
  destruct (thread_classification _ GetThreadMessages sample.thread_store
              parent) as (_ & Hp & _).
  destruct (thread_classification _ GetThreadMessages sample.thread_store
              reply) as (Hr & _ & _ & _ & _ & _ & _ & Hiff & _).
  destruct (thread_classification _ GetThreadMessages sample.thread_store
              single) as (_ & _ & Hs & _).
  split; [apply Hp; [reflexivity|reflexivity]|].
  split; [apply Hr; discriminate|].
  split.
  - apply Hiff. eexists. split; [reflexivity|]. vm_compute. lia.
  - split; [reflexivity|].
    apply Hs; [reflexivity|vm_compute; discriminate].
Defined.

(** ** ValidateDatabaseExists *)

Lemma IsAbs_append (a b : string) :
  a <> "" -> filepath.IsAbs (a +:+ b) = filepath.IsAbs a.
Proof. destruct a; [congruence|reflexivity]. Qed.

Lemma IsAbs_no_sep (s : string) :
  strings.Count s "/" = O -> filepath.IsAbs s = false.
Proof.
  destruct s as [|c r]; simpl; [reflexivity|].
  unfold filepath.isSep. now destruct (Ascii.eqb c "/").
Qed.

Lemma clean_step_kept (rooted : bool) (kept : list string) (elem : string) :
  Forall (fun e => e <> "" /\ filepath.IsAbs e = false) kept ->
  strings.Count elem "/" = O ->
  Forall (fun e => e <> "" /\ filepath.IsAbs e = false)
         (filepath.clean_step rooted kept elem).
Proof.
  intros Hk He. unfold filepath.clean_step.
  destruct (String.eqb_spec elem "") as [->|Hne]; simpl; [exact Hk|].
  assert (Hgood : elem <> "" /\ filepath.IsAbs elem = false)
    by (split; [exact Hne|now apply IsAbs_no_sep]).
  destruct (String.eqb elem "."); [exact Hk|].
  destruct (String.eqb elem "..").
  - destruct kept as [|top below].
    + destruct rooted; repeat constructor; apply Hgood.
    + destruct (String.eqb top "..").
      * now constructor.
      * now inversion Hk.
  - now constructor.
Qed.

Lemma clean_fold_kept (rooted : bool) (elems : list string) :
  forall kept,
    Forall (fun e => e <> "" /\ filepath.IsAbs e = false) kept ->
    Forall (fun e => strings.Count e "/" = O) elems ->
    Forall (fun e => e <> "" /\ filepath.IsAbs e = false)
           (fold_left (filepath.clean_step rooted) elems kept).
Proof.
  induction elems as [|e elems IH]; intros kept Hk He; simpl; [exact Hk|].
  inversion He; subst. apply IH; [|assumption].
  now apply clean_step_kept.
Qed.

Lemma Join_not_abs (elems : list string) :
  Forall (fun e => e <> "" /\ filepath.IsAbs e = false) elems ->
  filepath.IsAbs (strings.Join elems "/") = false.
Proof.
  destruct elems as [|e [|e' rest]]; simpl; [reflexivity| |].
  - intros H. inversion H as [|? ? [_ Ha] _]. exact Ha.
  - intros H. inversion H as [|? ? [Hne Ha] _].
    now rewrite IsAbs_append.
Qed.

(** Cleaning a relative path gives a relative path. *)
Lemma Clean_relative (path : string) :
  filepath.IsAbs path = false -> filepath.IsAbs (filepath.Clean path) = false.
Proof.
  intros Hrel. unfold filepath.Clean. rewrite Hrel.
  change ("" +:+ ?x) with x.
  set (kept := fold_left _ _ _).
  assert (Hk : Forall (fun e => e <> "" /\ filepath.IsAbs e = false)
                      (rev kept)).
  { apply List.Forall_rev. subst kept.
    apply clean_fold_kept; [constructor|apply Split_parts]. }
  destruct (String.eqb (strings.Join (rev kept) "/") ""); [reflexivity|].
  now apply Join_not_abs.
Qed.

Lemma dbPath_relative (filename : string) :
  filepath.IsAbs (filepath.Join ["databases"; filename]) = false.
Proof. simpl. apply Clean_relative. destruct filename; reflexivity. Qed.

(** What ValidateDatabaseExists returns is whether os.Getwd succeeds. *)
Lemma ValidateDatabaseExists_Getwd (os : searcher.OS) (channelName : string) :
  searcher.ValidateDatabaseExists os channelName = is_ok (searcher.Getwd os).
Proof.
  unfold searcher.ValidateDatabaseExists, searcher.fileExists, filepath.Abs.
  rewrite dbPath_relative. now destruct (searcher.Getwd os).
Qed.

(** C9: whatever the channel name and whatever files exist, with or
    without a database file at the path of the channel,
    ValidateDatabaseExists returns true in a process that has a working
    directory: fileExists returns whether filepath.Abs, which does not look
    at the file system beyond the working directory, forms a path. *)
Theorem ValidateDatabaseExists_always_true (wd : string)
    (existing : gset string) (channelName : string) :
  let os := {| searcher.Getwd := Ok wd; searcher.files := existing |} in
  searcher.ValidateDatabaseExists os channelName = true
  /\ searcher.ValidateDatabaseExists
       {| searcher.Getwd := Ok wd; searcher.files := ∅ |} channelName = true
  /\ forall filename,
       searcher.fileExists os filename
       = is_ok (filepath.Abs (searcher.Getwd os) filename).
Proof.
  cbv zeta. rewrite !ValidateDatabaseExists_Getwd. simpl.
  split; [reflexivity|]. split; [reflexivity|].
  intros filename. unfold searcher.fileExists. simpl.
  now destruct (filepath.Abs (Ok wd) filename).
Qed.

(** * Further properties *)

(** ** What the ingestion does to the Store *)

Section Preserved.
Variable P : database.DB -> Prop.
Hypothesis HP : preserved P.

Lemma insertUsers_preserves (usersJSON : list models.UserJSON.t) :
  forall d, P d -> P (snd (indexer.insertUsers d usersJSON)).
Proof.
  destruct HP as (_ & Hu & _).
  induction usersJSON as [|u rest IH]; intros d Hd; simpl; [exact Hd|].
  specialize (Hu d (indexer.toUser u) Hd).
  destruct (database.InsertUser d (indexer.toUser u)) as [[err|] d1];
    simpl in *; [exact Hu|now apply IH].
Qed.

Lemma insertChannels_preserves (channels : list models.Channel.t) :
  forall d, P d -> P (snd (indexer.insertChannels d channels)).
Proof.
  destruct HP as (_ & _ & Hc & _).
  induction channels as [|c rest IH]; intros d Hd; simpl; [exact Hd|].
  specialize (Hc d c Hd).
  destruct (database.InsertChannel d c) as [[err|] d1];
    simpl in *; [exact Hc|now apply IH].
Qed.

Lemma processRecords_preserves (date : time.Time) (filename : string)
    (records : list indexer.JSON) :
  forall d, P d -> P (snd (indexer.processRecords d date filename records)).
Proof.
  destruct HP as (_ & _ & _ & Hm).
  induction records as [|r rest IH]; intros d Hd; simpl; [exact Hd|].
  destruct (indexer.acceptRecord date filename r) as [m|]; [|now apply IH].
  specialize (Hm d m Hd).
  destruct (database.InsertMessage d m) as [[err|] d1];
    simpl in *; [exact Hm|now apply IH].
Qed.

Lemma processMessageFile_preserves (idx : indexer.Indexer)
    (file : indexer.File (list indexer.JSON)) (filename : string) :
  P (indexer.db idx) ->
  P (indexer.db (snd (indexer.processMessageFile idx file filename))).
Proof.
  intros Hd. unfold indexer.processMessageFile.
  destruct file as [| |records]; simpl; try exact Hd.
  destruct (time.Parse_date _) as [date|]; simpl; [|exact Hd].
  pose proof (processRecords_preserves date filename records _ Hd) as H.
  destruct (indexer.processRecords _ _ _ _) as [err d]. exact H.
Qed.

Lemma countFiles_db (entries : list indexer.WalkEntry) :
  forall idx,
    indexer.db (snd (indexer.countFiles idx entries)) = indexer.db idx
    /\ indexer.processedFiles (snd (indexer.countFiles idx entries))
       = indexer.processedFiles idx
    /\ indexer.stdout (snd (indexer.countFiles idx entries))
       = indexer.stdout idx.
Proof.
  induction entries as [|e rest IH]; intros idx; simpl; [auto|].
  destruct (indexer.walk_err e); simpl; [auto|].
  destruct (_ && _); [|apply IH].
  destruct (IH (indexer.with_totalFiles idx (indexer.totalFiles idx + 1)))
    as (H1 & H2 & H3).
  now rewrite H1, H2, H3.
Qed.

Lemma processEntries_preserves (entries : list indexer.WalkEntry) :
  forall idx,
    P (indexer.db idx) ->
    P (indexer.db (snd (indexer.processEntries idx entries))).
Proof.
  induction entries as [|e rest IH]; intros idx Hd; simpl; [exact Hd|].
  destruct (indexer.walk_err e); simpl; [exact Hd|].
  destruct (_ || _); [now apply IH|].
  pose proof (processMessageFile_preserves idx (indexer.content e)
                (filepath.Base (indexer.path e)) Hd) as H.
  destruct (indexer.processMessageFile _ _ _) as [[err|] idx1]; simpl in H.
  - apply IH. exact H.
  - cbv zeta. destruct (_ =? 0); apply IH; exact H.
Qed.

Lemma processMessageFiles_preserves (idx : indexer.Indexer)
    (channelDir : list indexer.WalkEntry) :
  P (indexer.db idx) ->
  P (indexer.db (snd (indexer.processMessageFiles idx channelDir))).
Proof.
  intros Hd. unfold indexer.processMessageFiles.
  destruct (countFiles_db channelDir idx) as (Hdb & _).
  destruct (indexer.countFiles idx channelDir) as [[err|] idx1]; simpl in *.
  - now rewrite Hdb.
  - apply processEntries_preserves. simpl. now rewrite Hdb.
Qed.

Lemma loadUsers_preserves (idx : indexer.Indexer)
    (file : indexer.File (list models.UserJSON.t)) :
  P (indexer.db idx) -> P (indexer.db (snd (indexer.loadUsers idx file))).
Proof.
  intros Hd. unfold indexer.loadUsers.
  destruct file as [| |usersJSON]; simpl; try exact Hd.
  pose proof (insertUsers_preserves usersJSON _ Hd) as H.
  destruct (indexer.insertUsers _ _) as [err d]. exact H.
Qed.

Lemma loadChannels_preserves (idx : indexer.Indexer)
    (file : indexer.File (list models.Channel.t)) :
  P (indexer.db idx) -> P (indexer.db (snd (indexer.loadChannels idx file))).
Proof.
  intros Hd. unfold indexer.loadChannels.
  destruct file as [| |channels]; simpl; try exact Hd.
  pose proof (insertChannels_preserves channels _ Hd) as H.
  destruct (indexer.insertChannels _ _) as [err d]. exact H.
Qed.

Lemma GetStats_preserves (d : database.DB) :
  P d -> P (snd (database.GetStats d)).
Proof.
  destruct HP as (Hc & _). intros Hd. unfold database.GetStats.
  pose proof (Hc d Hd) as H1.
  destruct (database.call d) as [[] d1]; simpl in *; [exact H1|].
  pose proof (Hc d1 H1) as H2.
  destruct (database.call d1) as [[] d2]; simpl in *; [exact H2|].
  pose proof (Hc d2 H2) as H3.
  destruct (database.call d2) as [[] d3]; simpl in *; exact H3.
Qed.

Lemma IndexChannel_preserves (idx : indexer.Indexer)
    (src : indexer.SourceData) :
  P (indexer.db idx) -> P (indexer.db (snd (indexer.IndexChannel idx src))).
Proof.
  intros Hd. unfold indexer.IndexChannel. cbv zeta.
  match goal with
  | |- context [indexer.loadUsers ?i ?f] =>
      pose proof (loadUsers_preserves i f Hd) as H1;
      destruct (indexer.loadUsers i f) as [[err|] idx1]
  end; simpl in H1; [exact H1|].
  pose proof (loadChannels_preserves idx1 (indexer.channels_json src) H1)
    as H2.
  destruct (indexer.loadChannels _ _) as [[err|] idx2]; simpl in H2;
    [exact H2|].
  pose proof (processMessageFiles_preserves idx2 (indexer.channel_dir src) H2)
    as H3.
  destruct (indexer.processMessageFiles _ _) as [[err|] idx3]; simpl in H3;
    [exact H3|].
  pose proof (GetStats_preserves _ H3) as H4.
  destruct (database.GetStats _) as [[stats|err] d]; exact H4.
Qed.
End Preserved.

Lemma keeps_refl (d : database.DB) : keeps d d.
Proof.
  unfold keeps. repeat split; auto; try lia; exists []; now rewrite app_nil_r.
Qed.

Lemma keeps_trans (d1 d2 d3 : database.DB) :
  keeps d1 d2 -> keeps d2 d3 -> keeps d1 d3.
Proof.
  intros ((r1 & H1) & (f1 & F1) & U1 & C1 & S1)
         ((r2 & H2) & (f2 & F2) & U2 & C2 & S2).
  unfold keeps. repeat split; auto; try lia.
  - exists (r1 ++ r2)%list. now rewrite H2, H1, <- app_assoc.
  - exists (f1 ++ f2)%list. now rewrite F2, F1, <- app_assoc.
Qed.

Lemma keeps_same_tables (d d' : database.DB) : same_tables d d' -> keeps d d'.
Proof.
  intros (Hu & Hc & Hm & Hs & Hf). unfold keeps.
  rewrite Hu, Hc, Hm, Hs, Hf.
  repeat split; auto; try lia; exists []; now rewrite app_nil_r.
Qed.

Lemma is_Some_insert {A : Type} (m : gmap string A) (k id : string) (a : A) :
  is_Some (m !! id) -> is_Some (<[k := a]> m !! id).
Proof.
  intros H. destruct (decide (k = id)) as [->|Hne].
  - rewrite lookup_insert_eq. eauto.
  - now rewrite lookup_insert_ne.
Qed.

Lemma keeps_preserved (d0 : database.DB) : preserved (keeps d0).
Proof.
  unfold preserved. split; [|split; [|split]].
  - intros d H. eapply keeps_trans; [exact H|].
    apply keeps_same_tables, call_same_tables.
  - intros d x H'. eapply keeps_trans; [exact H'|].
    unfold database.InsertUser.
    pose proof (call_same_tables d) as Hs.
    destruct (database.call d) as [[] d1]; simpl in *.
    + now apply keeps_same_tables.
    + destruct Hs as (Hu & Hc & Hm & Hq & Hf). unfold keeps. simpl.
      rewrite Hc, Hm, Hq, Hf, Hu.
      repeat split; auto; try lia; try (exists []; now rewrite app_nil_r).
      intros id. apply is_Some_insert.
  - intros d x H'. eapply keeps_trans; [exact H'|].
    unfold database.InsertChannel.
    pose proof (call_same_tables d) as Hs.
    destruct (database.call d) as [[] d1]; simpl in *.
    + now apply keeps_same_tables.
    + destruct Hs as (Hu & Hc & Hm & Hq & Hf). unfold keeps. simpl.
      rewrite Hc, Hm, Hq, Hf, Hu.
      repeat split; auto; try lia; try (exists []; now rewrite app_nil_r).
      intros id. apply is_Some_insert.
  - intros d x H'. eapply keeps_trans; [exact H'|].
    pose proof (InsertMessage_cases d x) as Hi.
    destruct (database.InsertMessage d x) as [err d1]; simpl.
    destruct Hi as [[_ Hs]|[_ (row & _ & Hid & Hm & Hq & Hu & Hc & Hf)]].
    + now apply keeps_same_tables.
    + unfold keeps. rewrite Hu, Hc, Hm, Hf, Hq, Hid.
      repeat split; auto; try lia; eauto.
Qed.

(** X1: IndexChannel only adds to the Store, whatever the export holds
    and whichever calls fail: the rows [messages] and [messages_fts] had
    are still their first rows, unchanged, every user and channel
    identifier that was there is still there, and the AUTOINCREMENT counter
    has not gone down. *)
Theorem IndexChannel_only_adds (idx : indexer.Indexer)
    (src : indexer.SourceData) :
  keeps (indexer.db idx) (indexer.db (snd (indexer.IndexChannel idx src))).
Proof.
  apply (IndexChannel_preserves _ (keeps_preserved (indexer.db idx))).
  apply keeps_refl.
Qed.

Lemma StronglySorted_snoc (l : list Z) (x : Z) :
  StronglySorted Z.lt l -> Forall (fun y => y < x) l ->
  StronglySorted Z.lt (l ++ [x]).
Proof.
  induction 1 as [|a l Hl IH Ha]; intros Hx; simpl.
  - repeat constructor.
  - inversion Hx; subst. constructor; [now apply IH|].
    apply Forall_app. split; [exact Ha|]. now repeat constructor.
Qed.

Lemma store_ok_messages (d d' : database.DB) :
  database.messages d' = database.messages d ->
  database.sqlite_sequence d' = database.sqlite_sequence d ->
  database.messages_fts d' = database.messages_fts d ->
  store_ok d -> store_ok d'.
Proof. intros Hm Hs Hf. unfold store_ok. now rewrite Hm, Hs, Hf. Qed.

Lemma store_ok_same (d d' : database.DB) :
  same_tables d d' -> store_ok d -> store_ok d'.
Proof. intros (_ & _ & Hm & Hs & Hf). now apply store_ok_messages. Qed.

Lemma store_ok_InsertMessage (d : database.DB) (m : models.Message.t) :
  store_ok d -> store_ok (snd (database.InsertMessage d m)).
Proof.
  intros Hok.
  pose proof (InsertMessage_cases d m) as Hi.
  destruct (database.InsertMessage d m) as [err d1]; simpl.
  destruct Hi as [[_ Hs]|[_ (row & Hst & Hid & Hm & Hq & Hu & Hc & Hf)]];
    [now apply (store_ok_same d)|].
  destruct Hok as (Hsorted & Hle & Hfs & Hfr).
  assert (Hlt : Forall (fun y => y < database.Row.id row)
                       (map database.Row.id (database.messages d))).
  { eapply List.Forall_impl; [|exact Hle]. simpl. intros; lia. }
  assert (Hflt : Forall (fun y => y < database.Row.id row)
                        (map database.Fts.rowid (database.messages_fts d))).
  { apply List.Forall_forall. intros y Hy.
    apply in_map_iff in Hy as (f & <- & Hf').
    rewrite List.Forall_forall in Hfr.
    destruct (Hfr f Hf') as (r & Hr & Hrid & _).
    rewrite List.Forall_forall in Hlt. rewrite <- Hrid. apply Hlt.
    now apply in_map. }
  unfold store_ok. rewrite Hm, Hq, Hf, !map_app. simpl.
  split; [now apply StronglySorted_snoc|].
  split.
  { apply Forall_app. split; [|repeat constructor; lia].
    eapply List.Forall_impl; [|exact Hle]. simpl. intros; lia. }
  unfold database.messages_fts_insert.
  destruct (database.users d !! database.Row.user_id row) as [u|]; simpl.
  - split; [now apply StronglySorted_snoc|].
    apply Forall_app. split.
    + eapply List.Forall_impl; [|exact Hfr].
      intros f (r & Hr & Hrest). exists r. split; [|exact Hrest].
      apply in_or_app. now left.
    + repeat constructor. exists row. simpl. split; [|auto].
      apply in_or_app. right. now left.
  - rewrite !app_nil_r. split; [exact Hfs|].
    eapply List.Forall_impl; [|exact Hfr].
    intros f (r & Hr & Hrest). exists r. split; [|exact Hrest].
    apply in_or_app. now left.
Qed.

Lemma store_ok_preserved : preserved store_ok.
Proof.
  unfold preserved. split; [|split; [|split]].
  - intros d H. eapply store_ok_same; [apply call_same_tables|exact H].
  - intros d u H. unfold database.InsertUser.
    pose proof (call_same_tables d) as (Hu & Hc & Hm & Hq & Hf).
    destruct (database.call d) as [[] d1]; simpl in *;
      now apply (store_ok_messages d).
  - intros d c H. unfold database.InsertChannel.
    pose proof (call_same_tables d) as (Hu & Hc & Hm & Hq & Hf).
    destruct (database.call d) as [[] d1]; simpl in *;
      now apply (store_ok_messages d).
  - intros d m. apply store_ok_InsertMessage.
Qed.

(** X2: IndexChannel keeps the Store well formed, whatever the export
    holds and whichever calls fail: the message identifiers increase along
    the table, so no two messages share one, none is above the
    AUTOINCREMENT counter, and every full-text entry carries the
    identifier, the text and the file name of a stored message, at most one
    entry for a message. *)
Theorem IndexChannel_keeps_store_ok (idx : indexer.Indexer)
    (src : indexer.SourceData) :
  store_ok (indexer.db idx) ->
  let d := indexer.db (snd (indexer.IndexChannel idx src)) in
  store_ok d
  /\ NoDup (map database.Row.id (database.messages d))
  /\ NoDup (map database.Fts.rowid (database.messages_fts d)).
Proof.
  intros H. cbv zeta.
  pose proof (IndexChannel_preserves _ store_ok_preserved idx src H) as Hok.
  split; [exact Hok|].
  assert (Hnd : forall l, StronglySorted Z.lt l -> NoDup l).
  { induction 1 as [|a l Hl IH Ha]; constructor; [|exact IH].
    intros Hin. apply list_elem_of_In in Hin.
    rewrite List.Forall_forall in Ha. specialize (Ha a Hin). lia. }
  destruct Hok as (H1 & _ & H3 & _). split; now apply Hnd.
Qed.

Lemma IndexChannel_keeps_store_ok_witness :
  store_ok database.empty
  /\ store_ok (indexer.db (snd (indexer.IndexChannel sample.idx_failing
                                  sample.export)))
  /\ NoDup (map database.Row.id
              (database.messages
                 (indexer.db (snd (indexer.IndexChannel sample.idx0
                                     sample.export))))).
Proof.
  assert (H : store_ok database.empty).
  { unfold store_ok. simpl. repeat split; constructor. }
  split; [exact H|]. split.
  - apply (IndexChannel_keeps_store_ok sample.idx_failing sample.export).
    unfold store_ok. simpl. repeat split; constructor.
  - apply (IndexChannel_keeps_store_ok sample.idx0 sample.export H).
Defined.

(** ** A batch file on a medium that does not fail *)

Lemma messages_fts_insert_users (d d' : database.DB) (row : database.Row.t) :
  database.users d' = database.users d ->
  database.messages_fts_insert d' row = database.messages_fts_insert d row.
Proof. intros H. unfold database.messages_fts_insert. now rewrite H. Qed.

Lemma flat_map_insert_users (d d' : database.DB)
    (rows : list database.Row.t) :
  database.users d' = database.users d ->
  flat_map (database.messages_fts_insert d') rows
  = flat_map (database.messages_fts_insert d) rows.
Proof.
  intros H. induction rows as [|row rows IH]; simpl; [reflexivity|].
  now rewrite IH, (messages_fts_insert_users d d').
Qed.

Lemma InsertMessage_healthy_exact (d : database.DB) (m : models.Message.t) :
  healthy d ->
  exists d',
    database.InsertMessage d m = (None, d')
    /\ healthy d'
    /\ database.users d' = database.users d
    /\ database.channels d' = database.channels d
    /\ database.messages d'
       = (database.messages d
          ++ [row_of (database.sqlite_sequence d + 1) m])%list
    /\ database.sqlite_sequence d' = database.sqlite_sequence d + 1
    /\ database.messages_fts d'
       = (database.messages_fts d
          ++ database.messages_fts_insert d
               (row_of (database.sqlite_sequence d + 1) m))%list.
Proof.
  intros Hd. unfold database.InsertMessage.
  destruct (call_healthy d Hd) as [Hc Hh].
  pose proof (call_same_tables d) as (Hu & Hch & Hm & Hs & Hf).
  destruct (database.call d) as [failed d1]; simpl in *. subst failed.
  eexists. split; [reflexivity|].
  unfold row_of, database.messages_fts_insert. simpl.
  rewrite Hu, Hch, Hm, Hs, Hf. repeat split; auto.
Qed.

Lemma processRecords_healthy_exact (date : time.Time) (filename : string)
    (records : list indexer.JSON) :
  forall d, healthy d ->
    exists d',
      indexer.processRecords d date filename records = (None, d')
      /\ healthy d'
      /\ database.users d' = database.users d
      /\ database.channels d' = database.channels d
      /\ database.messages d'
         = (database.messages d
            ++ rows_from (database.sqlite_sequence d)
                 (accepted date filename records))%list
      /\ database.sqlite_sequence d'
         = database.sqlite_sequence d
           + Z.of_nat (length (accepted date filename records))
      /\ database.messages_fts d'
         = (database.messages_fts d
            ++ flat_map (database.messages_fts_insert d)
                 (rows_from (database.sqlite_sequence d)
                    (accepted date filename records)))%list.
Proof.
  unfold accepted.
  induction records as [|r records IH]; intros d Hd; simpl.
  - exists d. rewrite !app_nil_r, Z.add_0_r. repeat split; auto.
  - destruct (indexer.acceptRecord date filename r) as [m|]; [|now apply IH].
    destruct (InsertMessage_healthy_exact d m Hd)
      as (d1 & E & Hh & Hu & Hc & Hm & Hs & Hf).
    rewrite E.
    destruct (IH d1 Hh) as (d' & E' & Hh' & Hu' & Hc' & Hm' & Hs' & Hf').
    exists d'. split; [exact E'|]. split; [exact Hh'|].
    rewrite Hu', Hc', Hm', Hs', Hf', Hu, Hc, Hm, Hs, Hf.
    cbn [rows_from flat_map length].
    rewrite <- !app_assoc. repeat split; auto.
    + rewrite Nat2Z.inj_succ. unfold omap. lia.
    + now rewrite (flat_map_insert_users d d1).
Qed.

Lemma rows_from_length (ms : list models.Message.t) :
  forall seq, length (rows_from seq ms) = length ms.
Proof. induction ms as [|m ms IH]; intros seq; simpl; [|rewrite IH]; auto. Qed.

Lemma processMessageFile_healthy_exact (idx : indexer.Indexer)
    (records : list indexer.JSON) (filename : string) (date : time.Time) :
  healthy (indexer.db idx) ->
  time.Parse_date (strings.TrimSuffix filename ".json") = Ok date ->
  exists d',
    indexer.processMessageFile idx (indexer.Decoded records) filename
    = (None, indexer.with_db idx d')
    /\ healthy d'
    /\ database.users d' = database.users (indexer.db idx)
    /\ database.channels d' = database.channels (indexer.db idx)
    /\ database.messages d'
       = (database.messages (indexer.db idx)
          ++ rows_from (database.sqlite_sequence (indexer.db idx))
               (accepted date filename records))%list
    /\ database.sqlite_sequence d'
       = database.sqlite_sequence (indexer.db idx)
         + Z.of_nat (length (accepted date filename records))
    /\ database.messages_fts d'
       = (database.messages_fts (indexer.db idx)
          ++ flat_map (database.messages_fts_insert (indexer.db idx))
               (rows_from (database.sqlite_sequence (indexer.db idx))
                  (accepted date filename records)))%list.
Proof.
  intros Hd Hdate. unfold indexer.processMessageFile. rewrite Hdate.
  destruct (processRecords_healthy_exact date filename records _ Hd)
    as (d' & E & Hrest).
  exists d'. rewrite E. split; [reflexivity|exact Hrest].
Qed.

(** X3: on a medium that does not fail, a batch file that decodes and is
    named after a date is processed without error and adds to [messages]
    exactly the records the loop accepts, one row each, in the order of
    the file, numbered on from the AUTOINCREMENT counter; the message count
    grows by their number, and users and channels are as before. *)
Theorem batch_file_appends_accepted (idx : indexer.Indexer)
    (records : list indexer.JSON) (filename : string) (date : time.Time) :
  healthy (indexer.db idx) ->
  time.Parse_date (strings.TrimSuffix filename ".json") = Ok date ->
  exists idx',
    indexer.processMessageFile idx (indexer.Decoded records) filename
    = (None, idx')
    /\ database.messages (indexer.db idx')
       = (database.messages (indexer.db idx)
          ++ rows_from (database.sqlite_sequence (indexer.db idx))
               (accepted date filename records))%list
    /\ database.count_messages (indexer.db idx')
       = database.count_messages (indexer.db idx)
         + Z.of_nat (length (accepted date filename records))
    /\ database.users (indexer.db idx') = database.users (indexer.db idx)
    /\ database.channels (indexer.db idx')
       = database.channels (indexer.db idx)
    /\ healthy (indexer.db idx').
Proof.
  intros Hd Hdate.
  destruct (processMessageFile_healthy_exact idx records filename date
              Hd Hdate) as (d' & E & Hh & Hu & Hc & Hm & _).
  eexists. split; [exact E|]. simpl.
  unfold database.count_messages.
  rewrite Hm, length_app, rows_from_length, Nat2Z.inj_add.
  repeat split; auto.
Qed.

Lemma batch_file_appends_accepted_witness :
  exists idx',
    indexer.processMessageFile sample.idx0
      (indexer.Decoded [sample.hello; sample.bot; sample.join; sample.bye])
      "2019-08-15.json" = (None, idx')
    /\ map database.Row.text (database.messages (indexer.db idx'))
       = ["rotate the certs"; "thanks"]
    /\ map database.Row.id (database.messages (indexer.db idx')) = [1; 2]
    /\ database.count_messages (indexer.db idx') = 2.
Proof.
  destruct (batch_file_appends_accepted sample.idx0
              [sample.hello; sample.bot; sample.join; sample.bye]
              "2019-08-15.json" (time.Date 2019 8 15))
    as (idx' & E & Hm & Hn & _); [constructor|reflexivity|].
  exists idx'. split; [exact E|]. rewrite Hm, Hn. repeat split.
Defined.

(** X4: there is no suppression of duplicates.  On a medium that does
    not fail, processing the same batch file a second time stores each
    accepted record a second time, under new identifiers, after the rows of
    the first pass; the message count grows by twice the number of accepted
    records. *)
Theorem batch_file_twice_duplicates (idx : indexer.Indexer)
    (records : list indexer.JSON) (filename : string) (date : time.Time) :
  healthy (indexer.db idx) ->
  time.Parse_date (strings.TrimSuffix filename ".json") = Ok date ->
  let ms := accepted date filename records in
  let seq := database.sqlite_sequence (indexer.db idx) in
  exists idx1 idx2,
    indexer.processMessageFile idx (indexer.Decoded records) filename
    = (None, idx1)
    /\ indexer.processMessageFile idx1 (indexer.Decoded records) filename
       = (None, idx2)
    /\ database.messages (indexer.db idx2)
       = (database.messages (indexer.db idx)
          ++ rows_from seq ms
          ++ rows_from (seq + Z.of_nat (length ms)) ms)%list
    /\ database.count_messages (indexer.db idx2)
       = database.count_messages (indexer.db idx)
         + 2 * Z.of_nat (length ms).
Proof.
  intros Hd Hdate ms seq.
  destruct (processMessageFile_healthy_exact idx records filename date
              Hd Hdate) as (d1 & E1 & Hh1 & _ & _ & Hm1 & Hs1 & _).
  destruct (processMessageFile_healthy_exact (indexer.with_db idx d1)
              records filename date Hh1 Hdate)
    as (d2 & E2 & _ & _ & _ & Hm2 & _).
  eexists. eexists. split; [exact E1|]. split; [exact E2|].
  simpl in *. unfold database.count_messages.
  rewrite Hm2, Hm1, Hs1, <- app_assoc. split; [reflexivity|].
  rewrite !length_app, !rows_from_length. fold ms. lia.
Qed.

Lemma batch_file_twice_duplicates_witness :
  exists idx1 idx2,
    indexer.processMessageFile sample.idx0
      (indexer.Decoded [sample.hello; sample.bot; sample.bye])
      "2019-08-15.json" = (None, idx1)
    /\ indexer.processMessageFile idx1
         (indexer.Decoded [sample.hello; sample.bot; sample.bye])
         "2019-08-15.json" = (None, idx2)
    /\ map database.Row.text (database.messages (indexer.db idx2))
       = ["rotate the certs"; "thanks"; "rotate the certs"; "thanks"]
    /\ database.count_messages (indexer.db idx2) = 4.
Proof.
  destruct (batch_file_twice_duplicates sample.idx0
              [sample.hello; sample.bot; sample.bye]
              "2019-08-15.json" (time.Date 2019 8 15))
    as (idx1 & idx2 & E1 & E2 & Hm & Hn); [constructor|reflexivity|].
  exists idx1, idx2. split; [exact E1|]. split; [exact E2|].
  rewrite Hm, Hn. repeat split.
Defined.

Lemma rows_from_authors (P : string -> Prop) (ms : list models.Message.t) :
  forall seq,
    Forall (fun m => P (models.Message.UserID m)) ms ->
    Forall (fun row => P (database.Row.user_id row)) (rows_from seq ms).
Proof.
  induction ms as [|m ms IH]; intros seq H; simpl; [constructor|].
  inversion H; subst. constructor; [assumption|now apply IH].
Qed.

Lemma entries_of_known_authors (d : database.DB)
    (rows : list database.Row.t) :
  Forall (fun row => is_Some (database.users d !! database.Row.user_id row))
         rows ->
  map database.Fts.rowid (flat_map (database.messages_fts_insert d) rows)
  = map database.Row.id rows
  /\ Forall
       (fun f =>
          exists row u,
            In row rows
            /\ database.users d !! database.Row.user_id row = Some u
            /\ f = entry_of row u)
       (flat_map (database.messages_fts_insert d) rows).
Proof.
  induction 1 as [|row rows [u Hu] _ [IH1 IH2]]; simpl;
    [split; [reflexivity|constructor]|].
  unfold database.messages_fts_insert at 1 3. rewrite Hu. simpl.
  rewrite IH1. split; [reflexivity|]. constructor.
  - exists row, u. repeat split; auto.
  - eapply List.Forall_impl; [|exact IH2].
    intros f (row' & u' & Hin & Hu' & ->). exists row', u'. auto.
Qed.

(** X5: when the author of every accepted record is in [users], a batch
    file keeps the full-text index in step with [messages]: on a medium
    that does not fail, if every message had its full-text entry before,
    every message has it after, and each new entry carries the identifier,
    text and file name of its message and the name and real name [users]
    has for the author. *)
Theorem known_authors_stay_synced (idx : indexer.Indexer)
    (records : list indexer.JSON) (filename : string) (date : time.Time) :
  healthy (indexer.db idx) ->
  time.Parse_date (strings.TrimSuffix filename ".json") = Ok date ->
  synced (indexer.db idx) ->
  Forall (fun m => is_Some (database.users (indexer.db idx)
                              !! models.Message.UserID m))
         (accepted date filename records) ->
  exists idx' entries,
    indexer.processMessageFile idx (indexer.Decoded records) filename
    = (None, idx')
    /\ synced (indexer.db idx')
    /\ database.messages_fts (indexer.db idx')
       = (database.messages_fts (indexer.db idx) ++ entries)%list
    /\ Forall
         (fun f =>
            exists row u,
              In row (database.messages (indexer.db idx'))
              /\ database.users (indexer.db idx)
                   !! database.Row.user_id row = Some u
              /\ f = entry_of row u)
         entries.
Proof.
  intros Hd Hdate Hsync Hknown.
  destruct (processMessageFile_healthy_exact idx records filename date
              Hd Hdate) as (d' & E & _ & _ & _ & Hm & _ & Hf).
  destruct (entries_of_known_authors (indexer.db idx)
              (rows_from (database.sqlite_sequence (indexer.db idx))
                 (accepted date filename records))) as [H1 H2].
  { now apply (rows_from_authors
                 (fun id => is_Some (database.users (indexer.db idx) !! id))). }
  eexists. eexists. split; [exact E|]. simpl. split; [|split; [exact Hf|]].
  - unfold synced in *. now rewrite Hf, Hm, !map_app, Hsync, H1.
  - eapply List.Forall_impl; [|exact H2].
    intros f (row & u & Hin & Hu & ->). exists row, u.
    split; [|auto]. rewrite Hm. apply in_or_app. now right.
Qed.

Lemma known_authors_stay_synced_witness :
  exists idx',
    indexer.processMessageFile
      (indexer.with_db sample.idx0
         (snd (database.InsertUser database.empty
                 (indexer.toUser sample.alice))))
      (indexer.Decoded [sample.hello; sample.bot; sample.undated])
      "2019-08-15.json" = (None, idx')
    /\ synced (indexer.db idx')
    /\ map database.Fts.user_name (database.messages_fts (indexer.db idx'))
       = ["alice"; "alice"].
Proof.
  destruct (known_authors_stay_synced
              (indexer.with_db sample.idx0
                 (snd (database.InsertUser database.empty
                         (indexer.toUser sample.alice))))
              [sample.hello; sample.bot; sample.undated]
              "2019-08-15.json" (time.Date 2019 8 15))
    as (idx' & entries & E & Hs & Hf & _).
  - constructor.
  - reflexivity.
  - reflexivity.
  - repeat constructor; vm_compute; eauto.
  - exists idx'. split; [exact E|]. split; [exact Hs|].
    vm_compute in E. injection E as <-. reflexivity.
Defined.

(** ** The record filter, both ways *)

Lemma not_accepted_unwanted (date : time.Time) (filename : string)
    (rawMsg : indexer.JSON) :
  indexer.acceptRecord date filename rawMsg = None -> unwanted rawMsg.
Proof.
  unfold unwanted, field, indexer.acceptRecord.
  destruct (indexer.Unmarshal_map rawMsg) as [msgMap|]; [|now left].
  destruct (indexer.string_of msgMap "subtype") as [subtype ok],
           (indexer.string_of msgMap "user") as [userID hasUser],
           (indexer.string_of msgMap "text") as [text hasText],
           (indexer.string_of msgMap "ts") as [timestamp ?],
           (indexer.string_of msgMap "type") as [msgType ?].
  destruct ok; cbn [andb].
  - destruct (String.eqb_spec subtype "bot_message") as [->|_];
      [intros _; now do 3 right|].
    destruct hasUser; [|intros _; now left].
    destruct hasText; [|intros _; right; now left].
    cbn [negb orb].
    destruct (String.eqb_spec (strings.TrimSpace text) "") as [E|_];
      [|discriminate].
    intros _. right. right. left. now exists text.
  - destruct hasUser; [|intros _; now left].
    destruct hasText; [|intros _; right; now left].
    cbn [negb orb].
    destruct (String.eqb_spec (strings.TrimSpace text) "") as [E|_];
      [|discriminate].
    intros _. right. right. left. now exists text.
Qed.

(** X6: the loop of processMessageFile skips a record exactly when it has
    no author identifier, no text, a blank text or the subtype bot_message;
    every other record is accepted, whatever its type and subtype, and its
    Message carries the author identifier and the text of the record as
    they are. *)
Theorem record_skipped_iff_unwanted (date : time.Time) (filename : string)
    (rawMsg : indexer.JSON) :
  (indexer.acceptRecord date filename rawMsg = None <-> unwanted rawMsg)
  /\ forall m,
       indexer.acceptRecord date filename rawMsg = Some m ->
       field rawMsg "user" = Some (models.Message.UserID m)
       /\ field rawMsg "text" = Some (models.Message.Text m)
       /\ strings.TrimSpace (models.Message.Text m) <> ""
       /\ field rawMsg "subtype" <> Some "bot_message"
       /\ models.Message.Filename m = filename.
Proof.
  split.
  - split; [apply not_accepted_unwanted|apply unwanted_not_accepted].
  - intros m H.
    destruct (acceptRecord_message _ _ _ _ H) as (_ & _ & Hf & Hu & Ht).
    split; [exact Hu|]. split; [exact Ht|].
    assert (Hw : ~ unwanted rawMsg).
    { intros Hw. rewrite (unwanted_not_accepted _ _ _ Hw) in H.
      discriminate. }
    repeat split; [| |exact Hf].
    + intros E. apply Hw. right. right. left.
      exists (models.Message.Text m). auto.
    + intros E. apply Hw. now do 3 right.
Qed.

(** ** Files that are not processed *)

Lemma processMessageFile_fields (idx : indexer.Indexer)
    (file : indexer.File (list indexer.JSON)) (filename : string) :
  let idx' := snd (indexer.processMessageFile idx file filename) in
  indexer.totalFiles idx' = indexer.totalFiles idx
  /\ indexer.processedFiles idx' = indexer.processedFiles idx
  /\ indexer.stdout idx' = indexer.stdout idx.
Proof.
  unfold indexer.processMessageFile.
  destruct file as [| |records]; simpl; auto.
  destruct (time.Parse_date _); simpl; auto.
  destruct (indexer.processRecords _ _ _ _); simpl; auto.
Qed.

(** X7: a message file whose name, the .json ending apart, is not a
    calendar date is not ingested, whatever it holds: processMessageFile
    fails before it looks at a record and leaves the indexer and the Store
    as they were; processMessageFiles prints the warning and goes on with
    the entries that follow. *)
Theorem undated_file_is_not_ingested (idx : indexer.Indexer)
    (e : indexer.WalkEntry) (rest : list indexer.WalkEntry) (err : error) :
  indexer.walk_err e = None ->
  is_message_file e = true ->
  time.Parse_date
    (strings.TrimSuffix (filepath.Base (indexer.path e)) ".json") = Err err ->
  exists err',
    indexer.processMessageFile idx (indexer.content e)
      (filepath.Base (indexer.path e)) = (Some err', idx)
    /\ indexer.processEntries idx (e :: rest)
       = indexer.processEntries
           (indexer.print idx (warning (filepath.Base (indexer.path e)) err'))
           rest.
Proof.
  intros Hw Hm Hdate. unfold is_message_file in Hm.
  apply andb_prop in Hm as [Hd Hs]. apply negb_true_iff in Hd.
  assert (Hfile : exists err',
             indexer.processMessageFile idx (indexer.content e)
               (filepath.Base (indexer.path e)) = (Some err', idx)).
  { unfold indexer.processMessageFile.
    destruct (indexer.content e); [eauto..|]. rewrite Hdate. eauto. }
  destruct Hfile as (err' & Hfile). exists err'. split; [exact Hfile|].
  simpl. now rewrite Hw, Hd, Hs, Hfile.
Qed.

Lemma undated_file_is_not_ingested_witness :
  exists err',
    indexer.processMessageFile sample.idx0 (indexer.content sample.notes)
      "notes.json" = (Some err', sample.idx0)
    /\ map database.Row.text
         (database.messages
            (indexer.db
               (snd (indexer.processEntries sample.idx0
                       [sample.notes; sample.day2])))) = ["thanks"].
Proof.
  destruct (undated_file_is_not_ingested sample.idx0 sample.notes
              [sample.day2] TimeParseError eq_refl eq_refl eq_refl)
    as (err' & Hfile & Hwalk).
  exists err'. split; [exact Hfile|]. rewrite Hwalk. reflexivity.
Defined.

(** ** The counters of processMessageFiles *)

Lemma warnings_print (idx : indexer.Indexer) (o : indexer.Output) :
  warnings (indexer.stdout (indexer.print idx o))
  = warnings (indexer.stdout idx) + (if is_warning o then 1 else 0).
Proof.
  unfold warnings. simpl. rewrite List.filter_app, length_app. simpl.
  destruct (is_warning o); simpl; lia.
Qed.

Lemma message_files_cons (e : indexer.WalkEntry)
    (rest : list indexer.WalkEntry) :
  message_files (e :: rest)
  = (if is_message_file e then 1 else 0) + message_files rest.
Proof.
  unfold message_files. simpl. destruct (is_message_file e); simpl; lia.
Qed.

Lemma not_message_file (e : indexer.WalkEntry) :
  indexer.IsDir e || negb (strings.HasSuffix (indexer.path e) ".json")
  = negb (is_message_file e).
Proof.
  unfold is_message_file.
  now destruct (indexer.IsDir e), (strings.HasSuffix _ _).
Qed.

Lemma countFiles_total (entries : list indexer.WalkEntry) :
  Forall (fun e => indexer.walk_err e = None) entries ->
  forall idx,
    indexer.totalFiles (snd (indexer.countFiles idx entries))
    = indexer.totalFiles idx + message_files entries.
Proof.
  induction 1 as [|e rest He _ IH]; intros idx.
  - unfold message_files. simpl. lia.
  - cbn [indexer.countFiles]. rewrite He, message_files_cons.
    change (negb (indexer.IsDir e)
            && strings.HasSuffix (indexer.path e) ".json")
      with (is_message_file e).
    destruct (is_message_file e); rewrite IH; simpl; lia.
Qed.

Lemma processEntries_counts (entries : list indexer.WalkEntry) :
  Forall (fun e => indexer.walk_err e = None) entries ->
  forall idx,
    let idx' := snd (indexer.processEntries idx entries) in
    indexer.totalFiles idx' = indexer.totalFiles idx
    /\ indexer.processedFiles idx' + warnings (indexer.stdout idx')
       = indexer.processedFiles idx + warnings (indexer.stdout idx)
         + message_files entries.
Proof.
  induction 1 as [|e rest He _ IH]; intros idx.
  - unfold message_files. simpl. lia.
  - cbn [indexer.processEntries]. cbv zeta.
    rewrite He, message_files_cons, not_message_file.
    destruct (is_message_file e); cbn [negb].
    2: { destruct (IH idx) as [H1 H2]. split; [exact H1|lia]. }
    pose proof (processMessageFile_fields idx (indexer.content e)
                  (filepath.Base (indexer.path e))) as (Ht & Hp & Ho).
    destruct (indexer.processMessageFile _ _ _) as [[err|] idx1];
      cbn [snd] in Ht, Hp, Ho.
    + match goal with
      | |- context [indexer.processEntries ?i rest] =>
          destruct (IH i) as [H1 H2];
          set (r := snd (indexer.processEntries i rest)) in *; clearbody r
      end.
      rewrite warnings_print in H2. cbn in H1, H2. rewrite Ho, Hp, Ht in *.
      split; [exact H1|lia].
    + destruct (Z.rem _ 50 =? 0);
        match goal with
        | |- context [indexer.processEntries ?i rest] =>
            destruct (IH i) as [H1 H2];
            set (r := snd (indexer.processEntries i rest)) in *; clearbody r
        end;
        try rewrite warnings_print in H2; cbn in H1, H2;
        rewrite ?Ho, ?Hp, ?Ht in *; (split; [exact H1|lia]).
Qed.

(** X8: when the walk of the channel directory meets no error,
    processMessageFiles accounts for every message file: totalFiles grows
    by the number of .json files that are not directories, and each of
    them either adds one to processedFiles or prints one warning, never
    both, never neither. *)
Theorem every_message_file_is_accounted_for (idx : indexer.Indexer)
    (channelDir : list indexer.WalkEntry) :
  Forall (fun e => indexer.walk_err e = None) channelDir ->
  let idx' := snd (indexer.processMessageFiles idx channelDir) in
  indexer.totalFiles idx' = indexer.totalFiles idx + message_files channelDir
  /\ (indexer.processedFiles idx' - indexer.processedFiles idx)
     + (warnings (indexer.stdout idx') - warnings (indexer.stdout idx))
     = message_files channelDir.
Proof.
  intros H. cbv zeta. unfold indexer.processMessageFiles.
  pose proof (countFiles_no_walk_error _ H idx) as Hc.
  pose proof (countFiles_total _ H idx) as Ht.
  destruct (countFiles_db channelDir idx) as (_ & Hp & Ho).
  destruct (indexer.countFiles idx channelDir) as [[err|] idx1];
    [discriminate|]. simpl in *.
  match goal with
  | |- context [indexer.processEntries ?i channelDir] =>
      destruct (processEntries_counts _ H i) as [H1 H2]
  end.
  rewrite warnings_print in H2. simpl in *. rewrite Ho, Hp in H2.
  split; [now rewrite H1|lia].
Qed.

Lemma every_message_file_is_accounted_for_witness :
  let idx' :=
    snd (indexer.processMessageFiles sample.idx_write_fails
           [sample.channel_dir_entry; sample.day1; sample.notes;
            sample.day2]) in
  indexer.totalFiles idx' = 3
  /\ indexer.processedFiles idx' + warnings (indexer.stdout idx') = 3
  /\ indexer.processedFiles idx' = 1.
Proof.
  cbv zeta.
  destruct (every_message_file_is_accounted_for sample.idx_write_fails
              [sample.channel_dir_entry; sample.day1; sample.notes;
               sample.day2]) as [Ht Hp]; [repeat constructor|].
  split; [rewrite Ht; reflexivity|]. split; [|reflexivity].
  change (warnings (indexer.stdout sample.idx_write_fails)) with 0 in Hp.
  change (indexer.processedFiles sample.idx_write_fails) with 0 in Hp.
  change (message_files _) with 3 in Hp. lia.
Defined.

(** ** Errors of the walk *)

Lemma countFiles_walk_error (entries : list indexer.WalkEntry) :
  Exists (fun e => indexer.walk_err e <> None) entries ->
  forall idx, exists err,
    fst (indexer.countFiles idx entries) = Some err
    /\ In (Some err) (map indexer.walk_err entries).
Proof.
  induction entries as [|e rest IH]; intros H idx; [inversion H|].
  simpl. destruct (indexer.walk_err e) as [err|] eqn:E.
  - exists err. simpl. auto.
  - inversion H as [? ? He|? ? Hr]; subst; [congruence|].
    destruct (_ && _).
    + destruct (IH Hr (indexer.with_totalFiles idx
                         (indexer.totalFiles idx + 1))) as (err & H1 & H2).
      exists err. auto.
    + destruct (IH Hr idx) as (err & H1 & H2). exists err. auto.
Qed.

(** X9: an error of the walk of the channel directory, wherever in the
    walk it is, stops processMessageFiles in its first pass: the error
    comes back as "failed to count files", no file is processed, no warning
    is printed and the Store is as it was, also for the files the walk
    reaches before the error. *)
Theorem walk_error_processes_nothing (idx : indexer.Indexer)
    (channelDir : list indexer.WalkEntry) :
  Exists (fun e => indexer.walk_err e <> None) channelDir ->
  exists err idx',
    indexer.processMessageFiles idx channelDir
    = (Some (Wrap "failed to count files" err), idx')
    /\ In (Some err) (map indexer.walk_err channelDir)
    /\ indexer.db idx' = indexer.db idx
    /\ indexer.processedFiles idx' = indexer.processedFiles idx
    /\ indexer.stdout idx' = indexer.stdout idx.
Proof.
  intros H. unfold indexer.processMessageFiles.
  destruct (countFiles_walk_error _ H idx) as (err & Hc & Hin).
  destruct (countFiles_db channelDir idx) as (Hd & Hp & Ho).
  destruct (indexer.countFiles idx channelDir) as [[err'|] idx1];
    simpl in *; [|discriminate].
  injection Hc as ->. exists err, idx1. auto.
Qed.

Lemma walk_error_processes_nothing_witness :
  exists idx',
    indexer.processMessageFiles sample.idx0
      [sample.channel_dir_entry; sample.day1; sample.unreadable_dir;
       sample.day2]
    = (Some (Wrap "failed to count files" WalkError), idx')
    /\ database.messages (indexer.db idx') = [].
Proof.
  destruct (walk_error_processes_nothing sample.idx0
              [sample.channel_dir_entry; sample.day1; sample.unreadable_dir;
               sample.day2]) as (err & idx' & E & Hin & Hd & _).
  - do 2 apply Exists_cons_tl. apply Exists_cons_hd. discriminate.
  - exists idx'. split; [|now rewrite Hd].
    simpl in Hin.
    destruct Hin as [H|[H|[H|[H|[]]]]]; try discriminate H.
    injection H as <-. exact E.
Defined.

(** ** Reference data *)

Lemma InsertUser_messages (d : database.DB) (u : models.User.t) :
  let d' := snd (database.InsertUser d u) in
  database.messages d' = database.messages d
  /\ database.messages_fts d' = database.messages_fts d
  /\ database.sqlite_sequence d' = database.sqlite_sequence d.
Proof.
  unfold database.InsertUser.
  pose proof (call_same_tables d) as (_ & _ & Hm & Hs & Hf).
  destruct (database.call d) as [[] d1]; simpl in *; auto.
Qed.

Lemma InsertChannel_messages (d : database.DB) (c : models.Channel.t) :
  let d' := snd (database.InsertChannel d c) in
  database.messages d' = database.messages d
  /\ database.messages_fts d' = database.messages_fts d
  /\ database.sqlite_sequence d' = database.sqlite_sequence d.
Proof.
  unfold database.InsertChannel.
  pose proof (call_same_tables d) as (_ & _ & Hm & Hs & Hf).
  destruct (database.call d) as [[] d1]; simpl in *; auto.
Qed.

Lemma insertUsers_messages (usersJSON : list models.UserJSON.t) :
  forall d,
    let d' := snd (indexer.insertUsers d usersJSON) in
    database.messages d' = database.messages d
    /\ database.messages_fts d' = database.messages_fts d
    /\ database.sqlite_sequence d' = database.sqlite_sequence d.
Proof.
  induction usersJSON as [|u rest IH]; intros d; simpl; [auto|].
  pose proof (InsertUser_messages d (indexer.toUser u)) as (Hm & Hf & Hs).
  destruct (database.InsertUser d (indexer.toUser u)) as [[err|] d1];
    simpl in *; [auto|].
  destruct (IH d1) as (Hm' & Hf' & Hs'). rewrite Hm', Hf', Hs'. auto.
Qed.

Lemma insertChannels_messages (channels : list models.Channel.t) :
  forall d,
    let d' := snd (indexer.insertChannels d channels) in
    database.messages d' = database.messages d
    /\ database.messages_fts d' = database.messages_fts d
    /\ database.sqlite_sequence d' = database.sqlite_sequence d.
Proof.
  induction channels as [|c rest IH]; intros d; simpl; [auto|].
  pose proof (InsertChannel_messages d c) as (Hm & Hf & Hs).
  destruct (database.InsertChannel d c) as [[err|] d1];
    simpl in *; [auto|].
  destruct (IH d1) as (Hm' & Hf' & Hs'). rewrite Hm', Hf', Hs'. auto.
Qed.

(** X10: when users.json or channels.json cannot be read or decoded,
    IndexChannel fails with "failed to load users" or "failed to load
    channels" and no batch file is looked at: [messages] and
    [messages_fts] are as before and no file is counted as processed.
    Users upserted before a failure of channels.json stay (the
    preservation results above), so the run is not undone. *)
Theorem reference_data_failure_stores_no_message (idx : indexer.Indexer)
    (src : indexer.SourceData) :
  decoded (indexer.users_json src) = false
  \/ decoded (indexer.channels_json src) = false ->
  exists err idx',
    indexer.IndexChannel idx src = (Some err, idx')
    /\ ((exists e, err = Wrap "failed to load users" e)
        \/ (exists e, err = Wrap "failed to load channels" e))
    /\ database.messages (indexer.db idx') = database.messages (indexer.db idx)
    /\ database.messages_fts (indexer.db idx')
       = database.messages_fts (indexer.db idx)
    /\ indexer.processedFiles idx' = indexer.processedFiles idx.
Proof.
  intros H. unfold indexer.IndexChannel. cbv zeta.
  destruct (indexer.users_json src) as [| |usersJSON] eqn:Eu; simpl.
  1, 2: eexists; eexists; split; [reflexivity|];
        split; [left; eauto|]; simpl; auto.
  destruct H as [H|H]; [discriminate|].
  pose proof (insertUsers_messages usersJSON (indexer.db idx))
    as (Hm & Hf & _).
  destruct (indexer.insertUsers (indexer.db idx) usersJSON) as [[err|] d1];
    simpl in *.
  - eexists; eexists; split; [reflexivity|].
    split; [left; eauto|]. simpl. auto.
  - destruct (indexer.channels_json src) as [| |channels]; simpl;
      try discriminate H;
      (eexists; eexists; split; [reflexivity|];
       split; [right; eauto|]; simpl; auto).
Qed.

Lemma reference_data_failure_stores_no_message_witness :
  exists err idx',
    indexer.IndexChannel sample.idx0
      {| indexer.users_json := indexer.Decoded [sample.alice];
         indexer.channels_json := indexer.UnmarshalFails;
         indexer.channel_dir := [sample.day1; sample.day2] |}
    = (Some err, idx')
    /\ database.messages (indexer.db idx') = []
    /\ database.count_users (indexer.db idx') = 1.
Proof.
  destruct (reference_data_failure_stores_no_message sample.idx0
              {| indexer.users_json := indexer.Decoded [sample.alice];
                 indexer.channels_json := indexer.UnmarshalFails;
                 indexer.channel_dir := [sample.day1; sample.day2] |})
    as (err & idx' & E & _ & Hm & _); [now right|].
  exists err, idx'. split; [exact E|]. split; [exact Hm|].
  vm_compute in E. injection E as _ <-. reflexivity.
Defined.

(** ** A run on a medium that does not fail *)

Lemma healthy_preserved : preserved healthy.
Proof.
  unfold preserved. split; [|split; [|split]].
  - intros d H. now apply call_healthy.
  - intros d u H. unfold database.InsertUser.
    destruct (call_healthy d H) as [_ Hh].
    destruct (database.call d) as [[] d1]; exact Hh.
  - intros d c H. unfold database.InsertChannel.
    destruct (call_healthy d H) as [_ Hh].
    destruct (database.call d) as [[] d1]; exact Hh.
  - intros d m H. now apply InsertMessage_healthy.
Qed.

Lemma GetStats_healthy (d : database.DB) :
  healthy d ->
  exists stats d',
    database.GetStats d = (Ok stats, d')
    /\ healthy d' /\ same_tables d d'
    /\ stats !! "users" = Some (database.count_users d)
    /\ stats !! "channels" = Some (database.count_channels d)
    /\ stats !! "messages" = Some (database.count_messages d).
Proof.
  intros H0. unfold database.GetStats.
  destruct (call_healthy d H0) as [E1 H1].
  pose proof (call_same_tables d) as S1.
  destruct (database.call d) as [f1 d1]; simpl in *. subst f1.
  destruct (call_healthy d1 H1) as [E2 H2].
  pose proof (call_same_tables d1) as S2.
  destruct (database.call d1) as [f2 d2]; simpl in *. subst f2.
  destruct (call_healthy d2 H2) as [E3 H3].
  pose proof (call_same_tables d2) as S3.
  destruct (database.call d2) as [f3 d3]; simpl in *. subst f3.
  destruct S1 as (U1 & C1 & M1 & Q1 & F1), S2 as (U2 & C2 & M2 & Q2 & F2),
           S3 as (U3 & C3 & M3 & Q3 & F3).
  eexists. eexists. split; [reflexivity|]. split; [exact H3|].
  unfold same_tables, database.count_users, database.count_channels,
    database.count_messages.
  rewrite U3, U2, U1, C3, C2, C1, M3, M2, M1, Q3, Q2, Q1, F3, F2, F1.
  repeat split.
Qed.

(** X11: on a medium that does not fail, with users.json and
    channels.json decoded and a walk without error, IndexChannel succeeds,
    whatever the batch files hold: files that cannot be read, decoded or
    dated only give warnings.  The last lines it prints are the counts of
    users, channels and messages of the Store as it leaves it, and the
    number of files processed. *)
Theorem healthy_ingestion_succeeds (idx : indexer.Indexer)
    (src : indexer.SourceData) :
  healthy (indexer.db idx) ->
  decoded (indexer.users_json src) = true ->
  decoded (indexer.channels_json src) = true ->
  Forall (fun e => indexer.walk_err e = None) (indexer.channel_dir src) ->
  exists idx' out,
    indexer.IndexChannel idx src = (None, idx')
    /\ healthy (indexer.db idx')
    /\ indexer.stdout idx'
       = (out
          ++ [ indexer.Printf "Indexing complete!" [];
               indexer.Printf "- Users: %d"
                 [indexer.AInt (database.count_users (indexer.db idx'))];
               indexer.Printf "- Channels: %d"
                 [indexer.AInt (database.count_channels (indexer.db idx'))];
               indexer.Printf "- Messages: %d"
                 [indexer.AInt (database.count_messages (indexer.db idx'))];
               indexer.Printf "- Files processed: %d"
                 [indexer.AInt (indexer.processedFiles idx')] ])%list.
Proof.
  intros Hd Hu Hc Hw. unfold indexer.IndexChannel. cbv zeta.
  destruct (indexer.users_json src) as [| |usersJSON]; try discriminate Hu.
  destruct (indexer.channels_json src) as [| |channels]; try discriminate Hc.
  unfold indexer.loadUsers, indexer.loadChannels. simpl.
  destruct (insertUsers_healthy usersJSON _ Hd) as (d1 & E1 & H1 & _).
  rewrite E1. simpl.
  destruct (insertChannels_healthy channels _ H1) as (d2 & E2 & H2 & _).
  rewrite E2.
  match goal with
  | |- context [indexer.processMessageFiles ?i ?c] =>
      pose proof (processMessageFiles_no_walk_error i c Hw) as E3;
      pose proof (processMessageFiles_preserves _ healthy_preserved i c H2)
        as H3;
      destruct (indexer.processMessageFiles i c) as [e3 idx3]
  end.
  simpl in E3, H3. subst e3.
  destruct (GetStats_healthy _ H3)
    as (stats & d4 & E4 & H4 & (U & C & M & _) & Su & Sc & Sm).
  rewrite E4. eexists. exists (indexer.stdout idx3).
  split; [reflexivity|]. simpl. split; [exact H4|].
  unfold database.count_users, database.count_channels,
    database.count_messages in *.
  rewrite Su, Sc, Sm, U, C, M. simpl. rewrite <- !app_assoc. reflexivity.
Qed.

Lemma healthy_ingestion_succeeds_witness :
  exists idx' out,
    indexer.IndexChannel sample.idx0
      {| indexer.users_json := indexer.Decoded [sample.alice];
         indexer.channels_json := indexer.Decoded [sample.sig_auth];
         indexer.channel_dir :=
           [sample.channel_dir_entry; sample.day1; sample.notes] |}
    = (None, idx')
    /\ indexer.stdout idx'
       = (out
          ++ [ indexer.Printf "Indexing complete!" [];
               indexer.Printf "- Users: %d" [indexer.AInt 1];
               indexer.Printf "- Channels: %d" [indexer.AInt 1];
               indexer.Printf "- Messages: %d" [indexer.AInt 1];
               indexer.Printf "- Files processed: %d" [indexer.AInt 1] ])%list.
Proof.
  destruct (healthy_ingestion_succeeds sample.idx0
              {| indexer.users_json := indexer.Decoded [sample.alice];
                 indexer.channels_json := indexer.Decoded [sample.sig_auth];
                 indexer.channel_dir :=
                   [sample.channel_dir_entry; sample.day1; sample.notes] |})
    as (idx' & out & E & _ & Ho);
    [constructor|reflexivity|reflexivity|repeat constructor|].
  exists idx', out. split; [exact E|]. rewrite Ho.
  vm_compute in E. injection E as <-. reflexivity.
Defined.

(** ** What a search returns *)

Section SearchFacts.
Variable fts_match : string -> option (database.Fts.t -> bool).
Variable snippet : string -> database.Fts.t -> string.

Lemma matching_rows_sound (d : database.DB) (query : string)
    (p : database.Fts.t -> bool) :
  Forall
    (fun r =>
       exists f row,
         In f (database.messages_fts d) /\ In row (database.messages d)
         /\ p f = true
         /\ database.Row.id row = database.Fts.rowid f
         /\ r = database.scan snippet d query f row)
    (database.matching_rows snippet d query p).
Proof.
  unfold database.matching_rows.
  apply List.Forall_forall. intros r Hr.
  apply in_flat_map in Hr as (f & Hf & Hr).
  destruct (p f) eqn:Ep; [|destruct Hr].
  apply in_map_iff in Hr as (row & <- & Hrow).
  apply List.filter_In in Hrow as [Hrow Hid].
  exists f, row. repeat split; auto. lia.
Qed.

Lemma LIMIT_incl {A : Type} (n : Z) (rows : list A) (a : A) :
  In a (database.LIMIT n rows) -> In a rows.
Proof.
  unfold database.LIMIT. destruct (n <? 0); [auto|].
  generalize (Z.to_nat n). intros k. revert rows.
  induction k as [|k IH]; intros [|x rows]; simpl; try tauto.
  intros [->|H]; [now left|right; now apply IH].
Qed.

(** X12: every result of a successful SearchMessages is the join of a
    full-text entry the query matches with the stored message of the same
    identifier: it has that message's identifier, author, text, token and
    date, the snippet of the entry, the file name in the field of
    SearchResult (the field of the embedded Message stays empty), and as
    user name and real name what [users] has for the author now, or the
    empty string for an author that is not there.  The thread fields are
    never filled, and the search leaves the tables as they were. *)
Theorem search_results_are_matching_messages (d : database.DB)
    (query : string) (limit : Z)
    (results : list models.SearchResult.t) (d' : database.DB) :
  database.SearchMessages fts_match snippet d query limit = (Ok results, d')
  ->
  same_tables d d'
  /\ exists p,
      fts_match query = Some p
      /\ Forall
           (fun r =>
              let m := models.SearchResult.Message r in
              exists f row,
                In f (database.messages_fts d)
                /\ In row (database.messages d)
                /\ p f = true
                /\ database.Row.id row = database.Fts.rowid f
                /\ models.Message.ID m = database.Row.id row
                /\ models.Message.UserID m = database.Row.user_id row
                /\ models.Message.Text m = database.Row.text row
                /\ models.Message.Timestamp m = database.Row.timestamp row
                /\ models.Message.Date m = database.Row.date row
                /\ models.SearchResult.Snippet r = snippet query f
                /\ models.SearchResult.Filename r = database.Row.filename row
                /\ models.Message.Filename m = ""
                /\ models.Message.UserName m
                   = match database.users d !! database.Row.user_id row with
                     | Some u => models.User.Name u
                     | None => ""
                     end
                /\ models.Message.UserRealName m
                   = match database.users d !! database.Row.user_id row with
                     | Some u => models.User.RealName u
                     | None => ""
                     end
                /\ models.Message.ThreadTS m = ""
                /\ models.Message.ReplyCount m = 0)
           results.
Proof.
  unfold database.SearchMessages.
  pose proof (call_same_tables d) as Hs.
  destruct (database.call d) as [[] d1]; simpl in Hs; [discriminate|].
  destruct (fts_match query) as [p|]; [|discriminate].
  intros [= <- <-]. split; [exact Hs|]. exists p. split; [reflexivity|].
  destruct Hs as (Hu & _ & Hm & _ & Hf).
  apply List.Forall_forall. intros r Hr. apply LIMIT_incl in Hr.
  pose proof (matching_rows_sound d1 query p) as Hall.
  rewrite List.Forall_forall in Hall.
  destruct (Hall r Hr) as (f & row & Hinf & Hinr & Hp & Hid & ->).
  rewrite Hf in Hinf. rewrite Hm in Hinr.
  exists f, row. simpl. rewrite Hu.
  repeat split; auto;
    destruct (database.users d !! database.Row.user_id row); reflexivity.
Qed.
End SearchFacts.

Lemma search_results_are_matching_messages_witness :
  exists results d',
    database.SearchMessages sample.fts_match sample.snippet sample.ingested
      "certs" 5 = (Ok results, d')
    /\ map (fun r => models.Message.UserName (models.SearchResult.Message r))
         results = ["alice"]
    /\ map models.SearchResult.Filename results = ["2019-08-15.json"].
Proof.
  destruct (database.SearchMessages sample.fts_match sample.snippet
              sample.ingested "certs" 5) as [[results|e] d'] eqn:E;
    [|vm_compute in E; discriminate].
  destruct (search_results_are_matching_messages sample.fts_match
              sample.snippet sample.ingested "certs" 5 results d' E)
    as (_ & p & _ & _).
  exists results, d'. split; [reflexivity|].
  vm_compute in E. injection E as <- _. split; reflexivity.
Defined.

Lemma ids_of_one_entry (ms : list database.Row.t) (k : Z) :
  StronglySorted Z.lt (map database.Row.id ms) ->
  map database.Row.id
    (List.filter (fun m => database.Row.id m =? k) ms) = []
  \/ map database.Row.id
       (List.filter (fun m => database.Row.id m =? k) ms) = [k].
Proof.
  induction ms as [|m ms IH]; simpl; [auto|].
  intros H. inversion H as [|? ? Hs Hall]; subst.
  destruct (Z.eqb_spec (database.Row.id m) k) as [E|_]; [|now apply IH].
  right. simpl. rewrite E. f_equal.
  assert (Hnone : forall l,
             Forall (Z.lt k) (map database.Row.id l) ->
             List.filter (fun m => database.Row.id m =? k) l = []).
  { induction l as [|x l IHl]; simpl; [reflexivity|].
    intros Hl. inversion Hl as [|? ? Hx Hl'].
    destruct (Z.eqb_spec (database.Row.id x) k); [lia|now apply IHl]. }
  rewrite Hnone; [reflexivity|]. now rewrite <- E.
Qed.

(** X13: in a Store that is well formed (as every ingestion leaves it), a
    search returns no message twice: the identifiers of the results are
    pairwise distinct. *)
Theorem search_returns_each_message_once
    (fts_match : string -> option (database.Fts.t -> bool))
    (snippet : string -> database.Fts.t -> string)
    (d : database.DB) (query : string) (limit : Z)
    (results : list models.SearchResult.t) (d' : database.DB) :
  store_ok d ->
  searcher.Search fts_match snippet d query limit = (Ok results, d') ->
  NoDup (map (fun r => models.Message.ID (models.SearchResult.Message r))
             results).
Proof.
  intros (Hids & _ & Hfts & _). unfold searcher.Search.
  unfold database.SearchMessages.
  pose proof (call_same_tables d) as (_ & _ & Hm & _ & Hf).
  destruct (database.call d) as [[] d1]; simpl in Hm, Hf; [discriminate|].
  destruct (fts_match query) as [p|]; [|discriminate].
  intros [= <- _].
  set (ID := fun r => models.Message.ID (models.SearchResult.Message r)).
  assert (Hsub : map ID (database.matching_rows snippet d1 query p)
                 `sublist_of` map database.Fts.rowid (database.messages_fts d)).
  { unfold database.matching_rows. rewrite Hf, Hm. clear Hf Hfts.
    induction (database.messages_fts d) as [|f fs IH]; simpl; [constructor|].
    rewrite map_app. destruct (p f).
    - rewrite map_map. simpl.
      change (map (fun x => ID (database.scan snippet d1 query f x)))
        with (map database.Row.id).
      destruct (ids_of_one_entry (database.messages d)
                  (database.Fts.rowid f) Hids) as [-> | ->]; simpl.
      + now apply sublist_cons.
      + now apply sublist_skip.
    - simpl. now apply sublist_cons. }
  assert (Hnd : NoDup (map database.Fts.rowid (database.messages_fts d))).
  { clear -Hfts.
    induction Hfts as [|a l Hl IH Ha]; constructor; [|exact IH].
    intros Hin. apply list_elem_of_In in Hin.
    rewrite List.Forall_forall in Ha. specialize (Ha a Hin). lia. }
  eapply sublist_NoDup; [exact Hnd|].
  etransitivity; [|exact Hsub].
  unfold database.LIMIT. destruct (_ <? 0); [reflexivity|].
  rewrite <- firstn_map. apply sublist_take.
Qed.

Lemma search_returns_each_message_once_witness :
  exists results d',
    searcher.Search sample.fts_match sample.snippet sample.ingested "e" 0
    = (Ok results, d')
    /\ NoDup (map (fun r => models.Message.ID (models.SearchResult.Message r))
                  results).
Proof.
  destruct (searcher.Search sample.fts_match sample.snippet sample.ingested
              "e" 0) as [[results|e] d'] eqn:E;
    [|vm_compute in E; discriminate].
  exists results, d'. split; [reflexivity|].
  apply (search_returns_each_message_once sample.fts_match sample.snippet
           sample.ingested "e" 0 results d'); [|exact E].
  apply (IndexChannel_preserves _ store_ok_preserved).
  unfold store_ok. simpl. repeat split; constructor.
Defined.

(** ** The thread contexts of a result list *)

Section ThreadContexts.
Variable Store : Type.
Variable GetThreadMessages :
  Store -> string -> result (list models.Message.t) * Store.

Lemma threadContext_shape (s : Store) (result : models.SearchResult.t) :
  let t := fst (searcher.threadContext Store GetThreadMessages s result) in
  searcher.ThreadedSearchResult.OriginalResult t = result
  /\ (searcher.ThreadedSearchResult.IsThreaded t = true ->
      (2 <= length (searcher.ThreadedSearchResult.ThreadMessages t))%nat)
  /\ (searcher.ThreadedSearchResult.IsThreaded t = false ->
      searcher.ThreadedSearchResult.ThreadMessages t = []).
Proof.
  unfold searcher.threadContext. cbv zeta.
  destruct (String.eqb (searcher.threadTS result) ""); simpl;
    [repeat split; auto; discriminate|].
  destruct (GetThreadMessages s (searcher.threadTS result)) as [[ms|e] s'];
    simpl; [|repeat split; auto; discriminate].
  destruct (Nat.ltb_spec 1 (length ms)); simpl;
    repeat split; auto; try discriminate.
Qed.
End ThreadContexts.

(** X14: the loop of GenerateHTMLOutput gives one thread context for each
    result, in the order of the results, whatever the fetches return: the
    context keeps its result, it holds no message when the result is not
    marked threaded, and at least two when it is. *)
Theorem thread_contexts_follow_results (Store : Type)
    (GetThreadMessages :
       Store -> string -> result (list models.Message.t) * Store)
    (results : list models.SearchResult.t) (s : Store) :
  let contexts :=
    fst (searcher.threadContexts Store GetThreadMessages s results) in
  map searcher.ThreadedSearchResult.OriginalResult contexts = results
  /\ Forall
       (fun t =>
          (searcher.ThreadedSearchResult.IsThreaded t = true ->
           (2 <= length (searcher.ThreadedSearchResult.ThreadMessages t))%nat)
          /\ (searcher.ThreadedSearchResult.IsThreaded t = false ->
              searcher.ThreadedSearchResult.ThreadMessages t = []))
       contexts.
Proof.
  cbv zeta. revert s.
  induction results as [|r results IH]; intros s; simpl;
    [split; [reflexivity|constructor]|].
  pose proof (threadContext_shape Store GetThreadMessages s r)
    as (Ho & Ht & Hn).
  destruct (searcher.threadContext Store GetThreadMessages s r) as [t s1].
  destruct (IH s1) as [IH1 IH2].
  destruct (searcher.threadContexts Store GetThreadMessages s1 results)
    as [ts s2].
  simpl in *. rewrite Ho, IH1. split; [reflexivity|].
  constructor; [split; assumption|exact IH2].
Qed.

(** ** Channel names and database files *)

Lemma problematic_replaced (oldnew : list (ascii * ascii)) (c : ascii) :
  oldnew = [ (":"%char, "_"%char); ("/"%char, "_"%char);
             ("\"%char, "_"%char); ("*"%char, "_"%char);
             ("?"%char, "_"%char); ("034"%char, "_"%char);
             ("<"%char, "_"%char); (">"%char, "_"%char);
             ("|"%char, "_"%char); (" "%char, "_"%char) ] ->
  strings.replace_byte oldnew c = (if problematic c then "_"%char else c)
  /\ problematic (strings.replace_byte oldnew c) = false.
Proof.
  intros ->. destruct c as [[] [] [] [] [] [] [] []]; split; reflexivity.
Qed.

Lemma sanitize_clean (name : string) (i : nat) (c : ascii) :
  String.get i (database.sanitizeFilename name) = Some c ->
  problematic c = false.
Proof.
  unfold database.sanitizeFilename.
  revert i; induction name as [|a r IH]; intros i; [discriminate|].
  cbn [strings.Replace]. destruct i as [|i]; cbn [String.get]; [|apply IH].
  intros [= <-]. destruct a as [[] [] [] [] [] [] [] []]; reflexivity.
Qed.

Lemma sanitize_fixed (s : string) :
  (forall i c, String.get i s = Some c -> problematic c = false) ->
  database.sanitizeFilename s = s.
Proof.
  unfold database.sanitizeFilename.
  induction s as [|a r IH]; intros H; [reflexivity|].
  cbn [strings.Replace].
  destruct (problematic_replaced _ a eq_refl) as [-> _].
  rewrite (H O a eq_refl). f_equal. apply IH.
  intros i c Hc. exact (H (S i) c Hc).
Qed.

(** X15: sanitizeFilename leaves none of the ten problematic bytes in its
    result, keeps a name without them as it is, and so gives the same
    result when applied twice; hence every channel name that it changes
    shares its database file with another channel name, the sanitized one:
    NewDB opens the same path for both. *)
Theorem sanitizeFilename_is_idempotent (name : string) :
  (forall i c,
      String.get i (database.sanitizeFilename name) = Some c ->
      problematic c = false)
  /\ ((forall i c, String.get i name = Some c -> problematic c = false) ->
      database.sanitizeFilename name = name)
  /\ database.sanitizeFilename (database.sanitizeFilename name)
     = database.sanitizeFilename name
  /\ database.dbPath (database.sanitizeFilename name) = database.dbPath name
  /\ searcher.sanitizeFilename (searcher.sanitizeFilename name)
     = searcher.sanitizeFilename name.
Proof.
  assert (Hidem : database.sanitizeFilename (database.sanitizeFilename name)
                  = database.sanitizeFilename name).
  { apply sanitize_fixed. apply sanitize_clean. }
  split; [apply sanitize_clean|]. split; [apply sanitize_fixed|].
  split; [exact Hidem|]. split.
  - unfold database.dbPath. cbv zeta. now rewrite Hidem.
  - exact Hidem.
Qed.

Lemma length_append (a b : string) :
  String.length (a +:+ b) = (String.length a + String.length b)%nat.
Proof. induction a as [|c a IH]; simpl; [|rewrite IH]; reflexivity. Qed.

Lemma eqb_length (a b : string) :
  String.length a <> String.length b -> String.eqb a b = false.
Proof. intros H. apply String.eqb_neq. intros ->. now apply H. Qed.

Lemma Count_append (a b : string) (c : ascii) :
  strings.Count (a +:+ b) c = (strings.Count a c + strings.Count b c)%nat.
Proof.
  induction a as [|x a IH]; simpl; [reflexivity|].
  destruct (Ascii.eqb x c); simpl; now rewrite IH.
Qed.

Lemma sanitize_no_separator (name : string) :
  strings.Count (database.sanitizeFilename name) "/" = O.
Proof.
  unfold database.sanitizeFilename.
  induction name as [|a r IH]; [reflexivity|].
  cbn [strings.Replace strings.Count]. rewrite IH.
  destruct a as [[] [] [] [] [] [] [] []]; reflexivity.
Qed.

Lemma Join_databases (filename : string) :
  strings.Count filename "/" = O ->
  (3 <= String.length filename)%nat ->
  filepath.Join ["databases"; filename] = "databases/" +:+ filename.
Proof.
  intros Hsep Hlen. cbn [filepath.Join String.eqb Ascii.eqb Bool.eqb].
  unfold filepath.Clean.
  change (strings.Join ["databases"; filename] "/")
    with ("databases" +:+ String "/" filename).
  rewrite (Split_app_sep "/" "databases" filename eq_refl).
  rewrite (Split_no_sep _ _ Hsep).
  assert (E0 : String.eqb filename "" = false)
    by (apply eqb_length; simpl; lia).
  assert (E1 : String.eqb filename "." = false)
    by (apply eqb_length; simpl; lia).
  assert (E2 : String.eqb filename ".." = false)
    by (apply eqb_length; simpl; lia).
  cbn [fold_left]. unfold filepath.clean_step. rewrite E0, E1, E2.
  cbn. reflexivity.
Qed.

(** X16: the database file of a channel is always a file directly in the
    directory databases, named by the sanitized channel name and the
    ending .db: the path NewDB opens has one separator, the one after
    databases, whatever separators, dots or other bytes the channel name
    has. *)
Theorem dbPath_stays_in_databases (channelName : string) :
  database.dbPath channelName
  = "databases/" +:+ database.sanitizeFilename channelName +:+ ".db"
  /\ strings.Count (database.dbPath channelName) "/" = 1%nat
  /\ filepath.IsAbs (database.dbPath channelName) = false.
Proof.
  assert (E : database.dbPath channelName
              = "databases/" +:+ database.sanitizeFilename channelName
                +:+ ".db").
  { unfold database.dbPath. cbv zeta. apply Join_databases.
    - now rewrite Count_append, sanitize_no_separator.
    - rewrite length_append. simpl. lia. }
  split; [exact E|]. rewrite E. split; [|reflexivity].
  change ("databases/" +:+ ?x) with ("databases" +:+ String "/" x).
  assert (Hc : forall c t, strings.Count (String c t) c = S (strings.Count t c))
    by (intros c t; simpl; now rewrite Ascii.eqb_refl).
  now rewrite Count_append, Hc, Count_append, sanitize_no_separator.
Qed.

(** ** The texts shown for a result *)

Lemma length_substring_0 (s : string) :
  forall n, (n <= String.length s)%nat ->
            String.length (substring 0 n s) = n.
Proof.
  induction s as [|c s IH]; intros [|n]; simpl; intros H;
    try reflexivity; try lia.
  rewrite IH; [reflexivity|lia].
Qed.

Lemma Count_substring_0 (s : string) (c : ascii) :
  strings.Count s c = O ->
  forall n, strings.Count (substring 0 n s) c = O.
Proof.
  induction s as [|x s IH]; intros H [|n]; simpl in *; try reflexivity.
  destruct (Ascii.eqb x c); [discriminate|]. now apply IH.
Qed.

Lemma Count_ReplaceAll (s : string) (old : ascii) (new : string) :
  strings.Count new old = O ->
  strings.Count (strings.ReplaceAll s old new) old = O.
Proof.
  intros Hn. induction s as [|c s IH]; simpl; [reflexivity|].
  destruct (Ascii.eqb c old) eqn:E.
  - now rewrite Count_append, Hn, IH.
  - simpl. now rewrite E.
Qed.

Lemma ReplaceAll_none (s : string) (old : ascii) (new : string) :
  strings.Count s old = O -> strings.ReplaceAll s old new = s.
Proof.
  induction s as [|c s IH]; simpl; [reflexivity|].
  destruct (Ascii.eqb c old); [discriminate|]. intros H. now rewrite IH.
Qed.

Lemma length_ReplaceAll (s : string) (old : ascii) (new : string) :
  String.length (strings.ReplaceAll s old new)
  = (String.length s - strings.Count s old
     + strings.Count s old * String.length new)%nat.
Proof.
  induction s as [|c s IH]; simpl; [reflexivity|].
  assert (Hle : forall t, (strings.Count t old <= String.length t)%nat).
  { induction t as [|x t IHt]; simpl; [lia|].
    destruct (Ascii.eqb x old); lia. }
  specialize (Hle s).
  destruct (Ascii.eqb c old); simpl.
  - rewrite length_append, IH. lia.
  - rewrite IH. lia.
Qed.

(** X17: the message text FormatResults prints for a result is the snippet
    when there is one and the text otherwise, with every line end replaced
    by a blank and cut to 497 bytes and three dots when it is longer than
    500: it is never longer than 500 bytes and holds no line end. *)
Theorem displayText_is_one_short_line (result : models.SearchResult.t) :
  (String.length (searcher.displayText result) <= 500)%nat
  /\ strings.Count (searcher.displayText result) "010" = O
  /\ (models.SearchResult.Snippet result <> "" ->
      forall m',
        searcher.displayText result
        = searcher.displayText
            {| models.SearchResult.Message :=
                 m';
               models.SearchResult.Rank := models.SearchResult.Rank result;
               models.SearchResult.Snippet :=
                 models.SearchResult.Snippet result;
               models.SearchResult.Filename :=
                 models.SearchResult.Filename result |}).
Proof.
  unfold searcher.displayText. cbv zeta. split; [|split].
  - destruct (Nat.ltb_spec 500 (String.length
                (strings.ReplaceAll
                   (if negb (String.eqb (models.SearchResult.Snippet result) "")
                    then models.SearchResult.Snippet result
                    else models.Message.Text
                           (models.SearchResult.Message result))
                   "010" " "))) as [H|H]; [|exact H].
    rewrite length_append, length_substring_0 by lia. simpl. lia.
  - set (t := strings.ReplaceAll _ _ _).
    assert (Ht : strings.Count t "010" = O)
      by (apply Count_ReplaceAll; reflexivity).
    destruct (500 <? String.length t)%nat; [|exact Ht].
    rewrite Count_append, Count_substring_0 by exact Ht. reflexivity.
  - intros Hs m'. simpl.
    destruct (String.eqb_spec (models.SearchResult.Snippet result) "");
      [contradiction|reflexivity].
Qed.

(** X18: truncate of generateHTML returns a text of at most [length]
    bytes as it is, and of a longer text the first [length] bytes followed
    by three dots, which is [length + 3] bytes: the result can be up to
    three bytes longer than the limit, and longer than the text it was
    made from when that text exceeds the limit by one or two bytes.  A
    negative [length] is a run-time panic for every text. *)
Theorem truncate_adds_three_dots (text : string) (length : Z) :
  (length < 0 -> searcher.truncate text length = None)
  /\ (0 <= length ->
      exists out,
        searcher.truncate text length = Some out
        /\ Z.of_nat (String.length out) <= length + 3
        /\ (Z.of_nat (String.length text) <= length -> out = text)
        /\ (length < Z.of_nat (String.length text) ->
            out = substring 0 (Z.to_nat length) text +:+ "..."
            /\ Z.of_nat (String.length out) = length + 3)).
Proof.
  unfold searcher.truncate. split.
  - intros H. destruct (Z.leb_spec (Z.of_nat (String.length text)) length);
      [lia|]. destruct (Z.ltb_spec length 0); [reflexivity|lia].
  - intros H.
    destruct (Z.leb_spec (Z.of_nat (String.length text)) length) as [Hle|Hgt].
    + exists text. repeat split; auto; lia.
    + destruct (Z.ltb_spec length 0); [lia|].
      eexists. split; [reflexivity|].
      assert (Hlen : Z.of_nat (String.length
                        (substring 0 (Z.to_nat length) text +:+ "..."))
                     = length + 3).
      { rewrite length_append, length_substring_0 by lia. simpl. lia. }
      repeat split; auto; lia.
Qed.

Lemma truncate_adds_three_dots_witness :
  searcher.truncate "abcdef" (-1) = None
  /\ searcher.truncate "abcdef" 5 = Some "abcde..."
  /\ searcher.truncate "abcdef" 6 = Some "abcdef".
Proof.
  destruct (truncate_adds_three_dots "abcdef" (-1)) as [Hneg _].
  destruct (truncate_adds_three_dots "abcdef" 5) as [_ H5].
  destruct (truncate_adds_three_dots "abcdef" 6) as [_ H6].
  split; [apply Hneg; lia|]. split.
  - destruct H5 as (out & E & _ & _ & Hcut); [lia|].
    rewrite E. f_equal. apply Hcut. simpl. lia.
  - destruct H6 as (out & E & _ & Hsame & _); [lia|].
    rewrite E. f_equal. apply Hsame. simpl. lia.
Defined.

(** X19: safeHTML leaves no line end in its result: each is replaced by
    the four bytes of a br tag, so the result is three bytes longer for
    every line end of the text, and a text without line ends is returned
    as it is; in particular the marks of a snippet are not escaped. *)
Theorem safeHTML_replaces_line_ends (text : string) :
  strings.Count (searcher.safeHTML text) "010" = O
  /\ String.length (searcher.safeHTML text)
     = (String.length text + 3 * strings.Count text "010")%nat
  /\ (strings.Count text "010" = O -> searcher.safeHTML text = text).
Proof.
  unfold searcher.safeHTML. split; [|split].
  - apply Count_ReplaceAll. reflexivity.
  - rewrite length_ReplaceAll. simpl.
    assert (Hle : forall t, (strings.Count t "010" <= String.length t)%nat).
    { induction t as [|x t IHt]; simpl; [lia|].
      destruct (Ascii.eqb x "010"); lia. }
    specialize (Hle text). lia.
  - apply ReplaceAll_none.
Qed.

(** X20: the author FormatResults prints and the author formatUser gives
    to the HTML page are the same whenever the user name is not empty or
    the real name is empty: "real (name)", else the name, else the user
    identifier.  They part for a result with a real name and no user name:
    the text output prints the real name with empty brackets, the HTML page
    the user identifier. *)
Theorem displayUser_and_formatUser (result : models.SearchResult.t) :
  let m := models.SearchResult.Message result in
  let html :=
    searcher.formatUser (models.Message.UserRealName m)
      (models.Message.UserName m) (models.Message.UserID m) in
  (models.Message.UserName m <> "" \/ models.Message.UserRealName m = "" ->
   searcher.displayUser result = html)
  /\ (models.Message.UserName m = "" -> html = models.Message.UserID m)
  /\ (models.Message.UserName m = "" ->
      models.Message.UserRealName m <> "" ->
      searcher.displayUser result = models.Message.UserRealName m +:+ " ()")
  /\ (models.Message.UserName m <> "" ->
      models.Message.UserRealName m <> "" ->
      html = models.Message.UserRealName m +:+ " ("
             +:+ models.Message.UserName m +:+ ")").
Proof.
  cbv zeta. unfold searcher.displayUser, searcher.formatUser. cbv zeta.
  destruct (String.eqb_spec
              (models.Message.UserRealName (models.SearchResult.Message result))
              "") as [Er|Er];
    destruct (String.eqb_spec
                (models.Message.UserName (models.SearchResult.Message result))
                "") as [En|En]; cbn [negb andb];
    try rewrite Er; try rewrite En; cbn [negb andb String.eqb].
  - repeat split; intros; try reflexivity; try contradiction; tauto.
  - destruct (String.eqb_spec
                (models.Message.UserName (models.SearchResult.Message result))
                ""); [contradiction|].
    repeat split; intros; try reflexivity; try contradiction; tauto.
  - assert (Hne : String.eqb
                    (models.Message.UserRealName
                       (models.SearchResult.Message result) +:+ " ()") ""
                  = false).
    { apply eqb_length. rewrite length_append. simpl. lia. }
    change (" (" +:+ "" +:+ ")") with " ()". rewrite Hne.
    repeat split; intros; try reflexivity; try contradiction; tauto.
  - assert (Hne : String.eqb
                    (models.Message.UserRealName
                       (models.SearchResult.Message result) +:+ " ("
                     +:+ models.Message.UserName
                           (models.SearchResult.Message result) +:+ ")") ""
                  = false).
    { apply eqb_length. rewrite !length_append. simpl. lia. }
    rewrite Hne.
    repeat split; intros; try reflexivity; try contradiction; tauto.
Qed.

(** ** A failed upsert *)

Lemma InsertUser_outcome (d : database.DB) (u : models.User.t) :
  (exists d', database.InsertUser d u = (Some DriverError, d')
              /\ same_tables d d')
  \/ (exists d', database.InsertUser d u = (None, d')
                 /\ database.users d'
                    = <[models.User.ID u := u]> (database.users d)).
Proof.
  unfold database.InsertUser.
  pose proof (call_same_tables d) as Hs.
  destruct (database.call d) as [[] d1]; simpl in Hs.
  - left. eauto.
  - right. eexists. split; [reflexivity|]. simpl.
    destruct Hs as (Hu & _). now rewrite Hu.
Qed.

(** X21: loading users is not undone when it fails.  If an upsert fails
    part of the way through users.json, the error names the user it failed
    at, the users before it in the file are in the Store, replaced or
    added, and that user and those after it are not touched. *)
Theorem failed_user_load_keeps_earlier_users
    (usersJSON : list models.UserJSON.t) (d d' : database.DB) (err : error) :
  indexer.insertUsers d usersJSON = (Some err, d') ->
  exists before u after,
    usersJSON = (before ++ u :: after)%list
    /\ err = Wrap ("failed to insert user " +:+ models.UserJSON.ID u)
                  DriverError
    /\ database.users d'
       = upserted models.User.ID (map indexer.toUser before)
           (database.users d).
Proof.
  revert d. induction usersJSON as [|u rest IH]; intros d; simpl;
    [discriminate|].
  destruct (InsertUser_outcome d (indexer.toUser u))
    as [(d1 & E & Hs)|(d1 & E & Hu)]; rewrite E.
  - intros [= <- <-]. exists [], u, rest.
    destruct Hs as (Hu & _). repeat split; auto.
  - intros H. destruct (IH _ H) as (before & v & after & -> & -> & Hu').
    exists (u :: before), v, after. repeat split; auto.
    rewrite Hu', Hu. reflexivity.
Qed.

Lemma failed_user_load_keeps_earlier_users_witness :
  exists d',
    indexer.insertUsers (sample.failing_db [false; true])
      [sample.alice; sample.deploybot; sample.alice_renamed]
    = (Some (Wrap "failed to insert user B1" DriverError), d')
    /\ database.users d' !! "U1" = Some (indexer.toUser sample.alice)
    /\ database.users d' !! "B1" = None.
Proof.
  destruct (indexer.insertUsers (sample.failing_db [false; true])
              [sample.alice; sample.deploybot; sample.alice_renamed])
    as [err d'] eqn:E.
  destruct err as [err|]; [|vm_compute in E; discriminate].
  destruct (failed_user_load_keeps_earlier_users _ _ _ _ E)
    as (before & u & after & _ & _ & _).
  exists d'. vm_compute in E. injection E as <- <-.
  repeat split.
Defined.

(** ** A renamed user *)

(** X22: the full-text index keeps the author names a message was stored
    with.  An upsert that changes a user leaves every full-text entry and
    every message as it is, so a query matches the old name and real name
    of the author; the results of a search, though, show for the messages
    of that user the name and the real name of the upsert. *)
Theorem renamed_user_keeps_old_index_entries
    (fts_match : string -> option (database.Fts.t -> bool))
    (snippet : string -> database.Fts.t -> string)
    (d d' : database.DB) (u : models.User.t) :
  database.InsertUser d u = (None, d') ->
  database.messages_fts d' = database.messages_fts d
  /\ database.messages d' = database.messages d
  /\ forall query limit results d'',
       database.SearchMessages fts_match snippet d' query limit
       = (Ok results, d'') ->
       Forall
         (fun r =>
            let m := models.SearchResult.Message r in
            models.Message.UserID m = models.User.ID u ->
            models.Message.UserName m = models.User.Name u
            /\ models.Message.UserRealName m = models.User.RealName u)
         results.
Proof.
  intros E.
  pose proof (InsertUser_messages d u) as (Hm & Hf & _).
  destruct (InsertUser_outcome d u) as [(d1 & E1 & _)|(d1 & E1 & Hu)];
    rewrite E1 in *; [discriminate|].
  injection E as <-. simpl in Hm, Hf.
  split; [exact Hf|]. split; [exact Hm|].
  intros query limit results d''. unfold database.SearchMessages.
  pose proof (call_same_tables d1) as (Hu1 & _).
  destruct (database.call d1) as [[] d2]; simpl in Hu1; [discriminate|].
  destruct (fts_match query) as [p|]; [|discriminate].
  intros [= <- _].
  apply List.Forall_forall. intros r Hr. apply LIMIT_incl in Hr.
  pose proof (matching_rows_sound snippet d2 query p) as Hall.
  rewrite List.Forall_forall in Hall.
  destruct (Hall r Hr) as (f & row & _ & _ & _ & _ & ->).
  simpl. intros Hid. rewrite Hid, Hu1, Hu, lookup_insert_eq. auto.
Qed.

Lemma renamed_user_keeps_old_index_entries_witness :
  exists d' results d'',
    database.InsertUser sample.ingested (indexer.toUser sample.alice_renamed)
    = (None, d')
    /\ map database.Fts.user_name (database.messages_fts d') = ["alice"]
    /\ database.SearchMessages sample.fts_match sample.snippet d' "certs" 5
       = (Ok results, d'')
    /\ map (fun r => models.Message.UserName (models.SearchResult.Message r))
         results = ["alice2"].
Proof.
  destruct (database.InsertUser sample.ingested
              (indexer.toUser sample.alice_renamed)) as [e d'] eqn:E.
  destruct e as [e|]; [vm_compute in E; discriminate|].
  destruct (renamed_user_keeps_old_index_entries sample.fts_match
              sample.snippet _ _ _ E) as (Hf & _ & Hs).
  destruct (database.SearchMessages sample.fts_match sample.snippet d'
              "certs" 5) as [r d''] eqn:E2.
  destruct r as [results|e2];
    [|vm_compute in E; injection E as <-; vm_compute in E2; discriminate].
  exists d', results, d''. split; [reflexivity|].
  split; [now rewrite Hf|]. split; [exact E2|].
  vm_compute in E. injection E as <-.
  vm_compute in E2. injection E2 as <- _. reflexivity.
Defined.
